(** * Store-product controller (backend/controller/storeProduct.js)

    A shallow embedding of the six request handlers of the store-product
    controller, together with a model of the part of the persistence layer
    (Mongoose over MongoDB) they call.

    Conventions.
    - A handler [async (req, res) => ...] becomes a function from the request
      data and the state of the world to the response sent and the new state.
    - [await]ed persistence calls live in the monad [M]: state passing plus
      the exception a rejected promise raises.  [try { ... } catch (error)]
      is [try_catch].
    - [console.log] and [console.error] are not modelled.
    - Request fields are given at their expected JSON type; a field absent
      from the request ([undefined] in the source) is [None].
    - Numbers ([price], [stock], timestamps) are integers. *)

From Stdlib Require Import List String Ascii ZArith NArith Bool Lia.
Import ListNotations.
Open Scope string_scope.
Open Scope Z_scope.

Set Implicit Arguments.

(** ** Documents *)

(** A MongoDB ObjectId is a 96-bit value; its usual text form is 24
    hexadecimal digits. *)
Definition ObjectId := N.

(** Modelled from the spec: models/Product.js is not part of the controller;
    the fields are the ones the controller and the specification name
    (name, description, category, images). *)
Record Product := mkProduct {
  product_id : ObjectId;
  product_name : string;
  product_description : string;
  product_category : string;
  product_images : list string
}.

(** Modelled from the spec: models/Store.js is not part of the controller;
    only the identity of a store matters here. *)
Record Store := mkStore {
  store_id : ObjectId;
  store_name : string
}.

(** Modelled from the spec: models/StoreProduct.js is not part of the
    controller.  [productId], [storeId], [price] and [stock] are required;
    the three flags are optional (a stored document may lack them);
    the timestamps are managed by the persistence layer. *)
Record StoreProduct := mkStoreProduct {
  sp_id : ObjectId;
  sp_productId : ObjectId;
  sp_storeId : ObjectId;
  sp_price : Z;
  sp_stock : Z;
  sp_isAvailable : option bool;
  sp_recommended : option bool;
  sp_discount : option bool;
  sp_storeSpecificImages : list string;
  sp_createdAt : Z;
  sp_updatedAt : Z
}.

(** The result of [.populate('productId').populate('storeId')]: the document
    with each reference replaced by the referenced document, or by [null]
    ([None]) when that document does not exist. *)
Record Populated := mkPopulated {
  pop_doc : StoreProduct;
  pop_productId : option Product;
  pop_storeId : option Store
}.

(** ** Errors raised by the persistence layer *)

(** The properties of an error object that the catch blocks read:
    [error.name], [error.code], the keys of [error.keyPattern] (empty when
    the error has no key pattern) and [error.message]. *)
Record Error := mkError {
  err_name : string;
  err_code : option Z;
  err_keyPattern : list string;
  err_message : string
}.

Definition has_key (k : string) (keys : list string) : bool :=
  existsb (String.eqb k) keys.

(** [error.code === 11000 && error.keyPattern && error.keyPattern.productId
     && error.keyPattern.storeId] *)
Definition is_duplicate_pair (e : Error) : bool :=
  match err_code e with
  | Some c => (c =? 11000) && has_key "productId" (err_keyPattern e)
                           && has_key "storeId" (err_keyPattern e)
  | None => false
  end.

(** [error.name === 'CastError'] *)
Definition is_cast_error (e : Error) : bool :=
  String.eqb (err_name e) "CastError".

(** [error.message || fallback]: the empty string is falsy. *)
Definition message_or (e : Error) (fallback : string) : string :=
  if String.eqb (err_message e) "" then fallback else err_message e.

(** The error MongoDB raises when an insert or update would break the unique
    index on the given keys (the text stands for the server's own, which
    also names the collection, the index and the key). *)
Definition duplicateKeyError (keys : list string) : Error :=
  mkError "MongoServerError" (Some 11000) keys "E11000 duplicate key error".

(** The error Mongoose raises when a value cannot be cast to an ObjectId. *)
Definition castError (value : string) : Error :=
  mkError "CastError" None []
          ("Cast to ObjectId failed for value " ++ value).

(** The error the server raises when a [$regex] pattern does not compile
    (the text stands for the server's own). *)
Definition invalidRegexError : Error :=
  mkError "MongoServerError" (Some 51091) [] "Regular expression is invalid".

(** The error Mongoose raises when a required path is missing. *)
Definition validationError : Error :=
  mkError "ValidationError" None [] "StoreProduct validation failed".

(** ** The world: collections, environment, and what was asked of them *)

Inductive DbOp :=
| ProductFindById
| StoreFindById
| StoreProductSave
| StoreProductFindById
| StoreProductFind
| StoreProductFindByIdAndUpdate
| StoreProductPopulate
| StoreProductFindByIdAndDelete
| StoreProductAggregate.

Record World := mkWorld {
  products : list Product;
  stores : list Store;
  storeProducts : list StoreProduct;
  (** What the persistence layer will answer to the coming calls, in order:
      [Some e] makes the call fail with [e] (connection loss, validation,
      server error, ...), [None] lets it run.  Past the end every call runs. *)
  faults : list (option Error);
  (** The persistence calls issued so far, most recent first. *)
  journal : list DbOp;
  (** The instant at which the request is handled, used for the timestamps;
      a later request may come with a later instant. *)
  now : Z
}.

Definition set_storeProducts (l : list StoreProduct) (w : World) : World :=
  mkWorld (products w) (stores w) l (faults w) (journal w) (now w).

(** Issuing a call: it is recorded and consumes one scheduled answer.  The
    instant is that of the request and does not move while it is handled. *)
Definition issue (op : DbOp) (w : World) : World :=
  mkWorld (products w) (stores w) (storeProducts w) (tl (faults w))
          (op :: journal w) (now w).

(** The world as a request arriving at the instant [t] finds it. *)
Definition at_instant (t : Z) (w : World) : World :=
  mkWorld (products w) (stores w) (storeProducts w) (faults w) (journal w) t.

(** No failure is scheduled. *)
Definition healthy (w : World) : Prop :=
  forall e, ~ In (Some e) (faults w).

(** ** The monad of persistence calls *)

Definition M (A : Type) : Type := World -> (Error + A) * World.

Definition ret {A} (a : A) : M A := fun w => (inr a, w).

Definition bind {A B} (m : M A) (f : A -> M B) : M B :=
  fun w =>
    match m w with
    | (inl e, w') => (inl e, w')
    | (inr a, w') => f a w'
    end.

Definition throw {A} (e : Error) : M A := fun w => (inl e, w).

Notation "x <- m ;; k" := (bind m (fun x => k))
  (at level 61, m at next level, right associativity).

(** [try { body } catch (error) { handler }] where the handler only builds
    the response. *)
Definition try_catch {R} (body : M R) (handler : Error -> R) : World -> R * World :=
  fun w =>
    match body w with
    | (inr r, w') => (r, w')
    | (inl e, w') => (handler e, w')
    end.

(** One awaited call to the persistence layer. *)
Definition db_call {A} (op : DbOp) (run : M A) : M A :=
  fun w =>
    match hd None (faults w) with
    | Some e => (inl e, issue op w)
    | None => run (issue op w)
    end.

(** [run_post m w Q]: running [m] from [w] ends in an outcome and a world
    satisfying [Q]. *)
Definition run_post {A} (m : M A) (w : World) (Q : Error + A -> World -> Prop)
  : Prop :=
  Q (fst (m w)) (snd (m w)).

(** ** What the controller needs from the driver

    [castObjectId] is the ObjectId constructor applied to a string (the cast
    Mongoose applies to identifiers, and the test behind
    [mongoose.Types.ObjectId.isValid]); the empty string is never an
    identifier.  [regexValid pattern] tells whether the server accepts
    [pattern] as a regular expression (it rejects a query whose [$regex]
    does not compile, such as "+" or "("), and, for an accepted pattern,
    [regexMatch pattern subject] is its
    [{ $regex: pattern, $options: 'i' }] test. *)
Class Driver := {
  castObjectId : string -> option ObjectId;
  castObjectId_empty : castObjectId "" = None;
  regexValid : string -> bool;
  regexMatch : string -> string -> bool
}.

(** ** Aggregation documents *)

(** A field holding either nothing, one embedded document (after
    [$unwind]) or an array of documents (after [$lookup]). *)
Inductive Field (A : Type) : Type :=
| Missing
| Embedded (a : A)
| Array (l : list A).
Arguments Missing {A}.
Arguments Embedded {A} a.
Arguments Array {A} l.

(** The value of the path [field.sub]: it reaches inside an array. *)
Definition path {A B} (sub : A -> B) (f : Field A) : Field B :=
  match f with
  | Missing => Missing
  | Embedded a => Embedded (sub a)
  | Array l => Array (map sub l)
  end.

(** [{ 'field.sub': v }]: an embedded document matches when its [sub] does,
    an array when one of its elements does. *)
Definition path_matches {A} (test : A -> bool) (f : Field A) : bool :=
  match f with
  | Missing => false
  | Embedded a => test a
  | Array l => existsb test l
  end.

(** [{ $unwind: '$field' }] on one document: one copy per element; a
    document without the field, or with an empty array, disappears. *)
Definition unwind {A} (f : Field A) : list A :=
  match f with
  | Missing => []
  | Embedded a => [a]
  | Array l => l
  end.

(** A store-product document travelling through a pipeline, with the two
    fields the [$lookup] stages add. *)
Record Row := mkRow {
  row_doc : StoreProduct;
  productDetails : Field Product;
  storeDetails : Field Store
}.

(** The output of the final [$project] of [getStoreProducts]. *)
Record Expanded := mkExpanded {
  e_id : ObjectId;
  e_price : Z;
  e_stock : Z;
  e_isAvailable : option bool;
  e_recommended : option bool;
  e_discount : option bool;
  e_storeSpecificImages : list string;
  e_productId : Field Product;
  e_storeId : Field Store;
  e_createdAt : Z;
  e_updatedAt : Z
}.

(** The output of the [$group] (and of the [$project] after it, which keeps
    every field) of [getProductSearchSummary]. *)
Record ProductSummary := mkProductSummary {
  ps_id : ObjectId;
  ps_name : Field string;
  ps_description : Field string;
  ps_images : Field (list string);
  ps_minPrice : Z;
  ps_maxPrice : Z;
  ps_sampleStoreProductId : ObjectId
}.

(** A [$match] on top-level fields of the store-product document: the
    [query] object of [getStoreProducts], and [{ isAvailable: true }]. *)
Record Filter := mkFilter {
  f_storeId : option ObjectId;
  f_recommended : option bool;
  f_discount : option bool;
  f_isAvailable : option bool
}.

(** [Object.keys(query).length > 0] *)
Definition has_keys (f : Filter) : bool :=
  match f with
  | mkFilter None None None None => false
  | _ => true
  end.

Definition flag_matches (wanted : option bool) (field : option bool) : bool :=
  match wanted, field with
  | None, _ => true
  | Some v, Some b => Bool.eqb v b
  | Some _, None => false
  end.

Definition id_matches (wanted : option ObjectId) (field : ObjectId) : bool :=
  match wanted with
  | None => true
  | Some v => N.eqb v field
  end.

Definition matches_filter (f : Filter) (sp : StoreProduct) : bool :=
  id_matches (f_storeId f) (sp_storeId sp)
  && flag_matches (f_recommended f) (sp_recommended sp)
  && flag_matches (f_discount f) (sp_discount sp)
  && flag_matches (f_isAvailable f) (sp_isAvailable sp).

(** The stages the controller pushes before the closing [$project] or
    [$group]. *)
Inductive Stage :=
| Match (f : Filter)              (* { $match: query } *)
| LookupProducts                  (* $lookup from 'products' as 'productDetails' *)
| UnwindProductDetails            (* { $unwind: '$productDetails' } *)
| LookupStores                    (* $lookup from 'stores' as 'storeDetails' *)
| UnwindStoreDetails              (* { $unwind: '$storeDetails' } *)
| MatchCategory (category : string)  (* { 'productDetails.category': category } *)
| MatchName (search : string).       (* { 'productDetails.name': { $regex, $options: 'i' } } *)

(** ** Requests and responses *)

(** [req.body] of createStoreProduct. *)
Record CreateBody := mkCreateBody {
  b_productId : option string;
  b_storeId : option string;
  b_price : option Z;
  b_stock : option Z;
  b_isAvailable : option bool;
  b_recommended : option bool;
  b_discount : option bool;
  b_storeSpecificImages : option (list string)
}.

(** [req.query] of getStoreProducts. *)
Record ListQuery := mkListQuery {
  q_storeId : option string;
  q_category : option string;
  q_recommended : option string;
  q_discount : option string;
  q_search : option string
}.

(** [req.body] of updateStoreProduct: the paths of the schema it may set. *)
Record UpdateBody := mkUpdateBody {
  u_productId : option string;
  u_storeId : option string;
  u_price : option Z;
  u_stock : option Z;
  u_isAvailable : option bool;
  u_recommended : option bool;
  u_discount : option bool;
  u_storeSpecificImages : option (list string)
}.

(** [req.query] of getProductSearchSummary. *)
Record SummaryQuery := mkSummaryQuery {
  sq_category : option string;
  sq_search : option string
}.

(** The member of the JSON body that carries data, named after its key. *)
Inductive Payload :=
| NoPayload
| storeProduct (doc : option Populated)
| storeProducts_populated (docs : list Populated)
| storeProducts_aggregated (docs : list Expanded)
| productSummaries (rows : list ProductSummary).

(** [res.status(status).json({ success, message, ... })] *)
Record Response := mkResponse {
  status : Z;
  success : bool;
  message : option string;
  payload : Payload
}.

Definition failure (code : Z) (msg : string) : Response :=
  mkResponse code false (Some msg) NoPayload.

(** JavaScript truthiness of a string-valued field: [undefined] and the
    empty string are falsy. *)
Definition truthy (field : option string) : bool :=
  match field with
  | Some s => negb (String.eqb s "")
  | None => false
  end.

Definition is_undefined {A} (field : option A) : bool :=
  match field with
  | Some _ => false
  | None => true
  end.

(** [x === 'true'] *)
Definition is_literal_true (field : option string) : bool :=
  match field with
  | Some s => String.eqb s "true"
  | None => false
  end.

Definition or_else {A} (o : option A) (d : A) : A :=
  match o with
  | Some a => a
  | None => d
  end.

(** ** Collections *)

Definition find_product (oid : ObjectId) (l : list Product) : option Product :=
  find (fun p => N.eqb (product_id p) oid) l.

Definition find_store (oid : ObjectId) (l : list Store) : option Store :=
  find (fun s => N.eqb (store_id s) oid) l.

Definition find_storeProduct (oid : ObjectId) (l : list StoreProduct)
  : option StoreProduct :=
  find (fun sp => N.eqb (sp_id sp) oid) l.

Definition populate (w : World) (sp : StoreProduct) : Populated :=
  mkPopulated sp (find_product (sp_productId sp) (products w))
                 (find_store (sp_storeId sp) (stores w)).

(** The document with its [updatedAt] stamped anew. *)
Definition with_updatedAt (t : Z) (sp : StoreProduct) : StoreProduct :=
  mkStoreProduct (sp_id sp) (sp_productId sp) (sp_storeId sp) (sp_price sp)
                 (sp_stock sp) (sp_isAvailable sp) (sp_recommended sp)
                 (sp_discount sp) (sp_storeSpecificImages sp)
                 (sp_createdAt sp) t.

(** The pair of references the unique index is on. *)
Definition same_pair (a b : StoreProduct) : bool :=
  N.eqb (sp_productId a) (sp_productId b) && N.eqb (sp_storeId a) (sp_storeId b).

(** Replace, respectively remove, the first document with the given id. *)
Fixpoint replace_first (oid : ObjectId) (new : StoreProduct)
         (l : list StoreProduct) : list StoreProduct :=
  match l with
  | [] => []
  | sp :: rest =>
      if N.eqb (sp_id sp) oid then new :: rest
      else sp :: replace_first oid new rest
  end.

Fixpoint remove_first (oid : ObjectId) (l : list StoreProduct)
  : list StoreProduct :=
  match l with
  | [] => []
  | sp :: rest =>
      if N.eqb (sp_id sp) oid then rest
      else sp :: remove_first oid rest
  end.

(** The identifier generated for a new document.  Generated ObjectIds do
    not repeat; the model takes one above every identifier in use. *)
Definition fresh_id (l : list StoreProduct) : ObjectId :=
  N.succ (fold_right N.max 0%N (map sp_id l)).

(** The document [new StoreProduct({...})] builds in memory: a fresh [_id]
    and the fields as given. *)
Record Draft := mkDraft {
  d_id : ObjectId;
  d_productId : option string;
  d_storeId : option string;
  d_price : option Z;
  d_stock : option Z;
  d_isAvailable : option bool;
  d_recommended : option bool;
  d_discount : option bool;
  d_storeSpecificImages : option (list string)
}.

Definition fold_min (first : Z) (others : list Z) : Z :=
  fold_left Z.min others first.

Definition fold_max (first : Z) (others : list Z) : Z :=
  fold_left Z.max others first.

Section Controller.

Context `{Driver}.

(** [mongoose.Types.ObjectId.isValid(id)]; [undefined] is not valid. *)
Definition castId (id : option string) : option ObjectId :=
  match id with
  | Some s => castObjectId s
  | None => None
  end.

Definition isValid (id : option string) : bool :=
  match castId id with
  | Some _ => true
  | None => false
  end.

(** ** The persistence layer *)

(** Mongoose casts an identifier before it queries; a failed cast rejects
    the call with a CastError. *)
Definition with_cast {A} (id : option string) (k : ObjectId -> M A) : M A :=
  match castId id with
  | Some oid => k oid
  | None => throw (castError (or_else id "undefined"))
  end.

(** [ProductModel.findById(id)] *)
Definition Product_findById (id : option string) : M (option Product) :=
  db_call ProductFindById
    (with_cast id (fun oid w => (inr (find_product oid (products w)), w))).

(** [Store.findById(id)] *)
Definition Store_findById (id : option string) : M (option Store) :=
  db_call StoreFindById
    (with_cast id (fun oid w => (inr (find_store oid (stores w)), w))).

(** [new StoreProduct({ productId, storeId, price, stock, isAvailable,
     recommended, discount, storeSpecificImages })] *)
Definition new_StoreProduct (b : CreateBody) : M Draft :=
  fun w =>
    (inr (mkDraft (fresh_id (storeProducts w)) (b_productId b) (b_storeId b)
                  (b_price b) (b_stock b) (b_isAvailable b) (b_recommended b)
                  (b_discount b) (b_storeSpecificImages b)),
     w).

(** Modelled from the spec: the validation of models/StoreProduct.js, which
    is not part of the controller: the four required paths must be present
    and the two references must be identifiers.  An absent array path is
    stored as the empty array. *)
Definition validate (d : Draft) (t : Z) : option StoreProduct :=
  match castId (d_productId d), castId (d_storeId d), d_price d, d_stock d with
  | Some pid, Some sid, Some price, Some stock =>
      Some (mkStoreProduct (d_id d) pid sid price stock (d_isAvailable d)
              (d_recommended d) (d_discount d)
              (or_else (d_storeSpecificImages d) []) t t)
  | _, _, _, _ => None
  end.

(** Modelled from the spec: the unique index on (productId, storeId) of
    models/StoreProduct.js, which is not part of the controller.

    [doc.save()] of a new document: validation, then the insert, which the
    unique indexes ([_id], and the pair) may refuse. *)
Definition StoreProduct_save (d : Draft) : M unit :=
  db_call StoreProductSave
    (fun w =>
       match validate d (now w) with
       | None => (inl validationError, w)
       | Some doc =>
           if existsb (fun sp => N.eqb (sp_id sp) (sp_id doc)) (storeProducts w)
           then (inl (duplicateKeyError ["_id"]), w)
           else if existsb (same_pair doc) (storeProducts w)
           then (inl (duplicateKeyError ["productId"; "storeId"]), w)
           else (inr tt, set_storeProducts (storeProducts w ++ [doc]) w)
       end).

(** [StoreProduct.findById(doc._id).populate('productId').populate('storeId')].
    A find and its populate queries only read, and the failure of any of them
    rejects the whole chain with the same outcome for the handler: they are
    taken as one call. *)
Definition StoreProduct_findById_populate_oid (oid : ObjectId)
  : M (option Populated) :=
  db_call StoreProductFindById
    (fun w =>
       (inr (option_map (populate w) (find_storeProduct oid (storeProducts w))),
        w)).

(** [StoreProduct.findById(id).populate('productId').populate('storeId')] *)
Definition StoreProduct_findById_populate (id : string) : M (option Populated) :=
  db_call StoreProductFindById
    (with_cast (Some id) (fun oid w =>
       (inr (option_map (populate w) (find_storeProduct oid (storeProducts w))),
        w))).

(** [StoreProduct.find({ productId: id }).populate('productId')
     .populate('storeId')] *)
Definition StoreProduct_find_populate (productId : string) : M (list Populated) :=
  db_call StoreProductFind
    (with_cast (Some productId) (fun oid w =>
       (inr (map (populate w)
                 (filter (fun sp => N.eqb (sp_productId sp) oid)
                         (storeProducts w))),
        w))).

(** The document after [$set]ting the supplied paths; the persistence layer
    stamps [updatedAt]. *)
Definition merge (old : StoreProduct) (pid sid : option ObjectId)
           (b : UpdateBody) (t : Z) : StoreProduct :=
  mkStoreProduct (sp_id old)
    (or_else pid (sp_productId old))
    (or_else sid (sp_storeId old))
    (or_else (u_price b) (sp_price old))
    (or_else (u_stock b) (sp_stock old))
    (match u_isAvailable b with Some v => Some v | None => sp_isAvailable old end)
    (match u_recommended b with Some v => Some v | None => sp_recommended old end)
    (match u_discount b with Some v => Some v | None => sp_discount old end)
    (or_else (u_storeSpecificImages b) (sp_storeSpecificImages old))
    (sp_createdAt old)
    t.

(** The cast of an optional reference of the update. *)
Definition cast_supplied (id : option string) : Error + option ObjectId :=
  match id with
  | None => inr None
  | Some s =>
      match castObjectId s with
      | Some oid => inr (Some oid)
      | None => inl (castError s)
      end
  end.

(** [StoreProduct.findByIdAndUpdate(id, req.body, { new: true,
     runValidators: true })]: the update is cast, the first document with
    that id receives it unless the unique index on the pair refuses, and
    the updated document is returned ([null] when there is none). *)
Definition StoreProduct_findByIdAndUpdate (id : string) (b : UpdateBody)
  : M (option StoreProduct) :=
  db_call StoreProductFindByIdAndUpdate
    (with_cast (Some id) (fun oid w =>
       match cast_supplied (u_productId b), cast_supplied (u_storeId b) with
       | inl e, _ => (inl e, w)
       | _, inl e => (inl e, w)
       | inr pid, inr sid =>
           match find_storeProduct oid (storeProducts w) with
           | None => (inr None, w)
           | Some old =>
               let new := merge old pid sid b (now w) in
               if existsb (fun sp => negb (N.eqb (sp_id sp) oid) && same_pair new sp)
                          (storeProducts w)
               then (inl (duplicateKeyError ["productId"; "storeId"]), w)
               else
                 (inr (Some new),
                  set_storeProducts (replace_first oid new (storeProducts w)) w)
           end
       end)).

(** [.populate('productId').populate('storeId')] on the result of the
    update: the populate queries run once the update has been written, and
    may fail on their own (the failure of either is the failure of the
    step); nothing is asked for [null]. *)
Definition populate_updated (doc : option StoreProduct) : M (option Populated) :=
  match doc with
  | None => ret None
  | Some d =>
      db_call StoreProductPopulate (fun w => (inr (Some (populate w d)), w))
  end.

(** [StoreProduct.findByIdAndUpdate(id, req.body, { new: true,
     runValidators: true }).populate('productId').populate('storeId')] *)
Definition StoreProduct_findByIdAndUpdate_populate (id : string) (b : UpdateBody)
  : M (option Populated) :=
  doc <- StoreProduct_findByIdAndUpdate id b ;;
  populate_updated doc.

(** [StoreProduct.findByIdAndDelete(id)] *)
Definition StoreProduct_findByIdAndDelete (id : string) : M (option StoreProduct) :=
  db_call StoreProductFindByIdAndDelete
    (with_cast (Some id) (fun oid w =>
       match find_storeProduct oid (storeProducts w) with
       | None => (inr None, w)
       | Some old =>
           (inr (Some old),
            set_storeProducts (remove_first oid (storeProducts w)) w)
       end)).

(** *** Aggregation *)

Definition lookup_products (w : World) (r : Row) : Row :=
  mkRow (row_doc r)
        (Array (filter (fun p => N.eqb (product_id p) (sp_productId (row_doc r)))
                       (products w)))
        (storeDetails r).

Definition lookup_stores (w : World) (r : Row) : Row :=
  mkRow (row_doc r)
        (productDetails r)
        (Array (filter (fun s => N.eqb (store_id s) (sp_storeId (row_doc r)))
                       (stores w))).

Definition unwind_productDetails (r : Row) : list Row :=
  map (fun p => mkRow (row_doc r) (Embedded p) (storeDetails r))
      (unwind (productDetails r)).

Definition unwind_storeDetails (r : Row) : list Row :=
  map (fun s => mkRow (row_doc r) (productDetails r) (Embedded s))
      (unwind (storeDetails r)).

Definition category_is (category : string) (p : Product) : bool :=
  String.eqb (product_category p) category.

Definition name_matches (search : string) (p : Product) : bool :=
  regexMatch search (product_name p).

Definition run_stage (w : World) (stage : Stage) (rows : list Row) : list Row :=
  match stage with
  | Match f => filter (fun r => matches_filter f (row_doc r)) rows
  | LookupProducts => map (lookup_products w) rows
  | UnwindProductDetails => flat_map unwind_productDetails rows
  | LookupStores => map (lookup_stores w) rows
  | UnwindStoreDetails => flat_map unwind_storeDetails rows
  | MatchCategory category =>
      filter (fun r => path_matches (category_is category) (productDetails r)) rows
  | MatchName search =>
      filter (fun r => path_matches (name_matches search) (productDetails r)) rows
  end.

Definition run_stages (w : World) (stages : list Stage) (rows : list Row)
  : list Row :=
  fold_left (fun acc stage => run_stage w stage acc) stages rows.

(** The collection as it enters a pipeline. *)
Definition initial_rows (w : World) : list Row :=
  map (fun sp => mkRow sp Missing Missing) (storeProducts w).

(** [{ $project: { _id: 1, price: 1, stock: 1, isAvailable: 1,
      recommended: 1, discount: 1, storeSpecificImages: 1,
      productId: '$productDetails', storeId: '$storeDetails',
      createdAt: 1, updatedAt: 1 } }] *)
Definition project (r : Row) : Expanded :=
  let d := row_doc r in
  mkExpanded (sp_id d) (sp_price d) (sp_stock d) (sp_isAvailable d)
             (sp_recommended d) (sp_discount d) (sp_storeSpecificImages d)
             (productDetails r) (storeDetails r)
             (sp_createdAt d) (sp_updatedAt d).

Definition group_key (r : Row) : ObjectId := sp_productId (row_doc r).

Definition group_members (k : ObjectId) (rows : list Row) : list Row :=
  filter (fun r => N.eqb (group_key r) k) rows.

(** One group of [{ $group: { _id: '$productId', name: { $first: ... },
      description: { $first: ... }, images: { $first: ... },
      minPrice: { $min: '$price' }, maxPrice: { $max: '$price' },
      sampleStoreProductId: { $first: '$_id' } } }] *)
Definition summarise (k : ObjectId) (rows : list Row) : list ProductSummary :=
  match group_members k rows with
  | [] => []
  | r :: rest =>
      let prices := map (fun m => sp_price (row_doc m)) rest in
      [mkProductSummary k
         (path product_name (productDetails r))
         (path product_description (productDetails r))
         (path product_images (productDetails r))
         (fold_min (sp_price (row_doc r)) prices)
         (fold_max (sp_price (row_doc r)) prices)
         (sp_id (row_doc r))]
  end.

(** The [$group] stage: one output per distinct key (the order of the
    groups is the server's choice). *)
Definition group_by_product (rows : list Row) : list ProductSummary :=
  flat_map (fun k => summarise k rows) (nodup N.eq_dec (map group_key rows)).

(** The server compiles the pattern of a [$regex] before it runs the
    pipeline. *)
Definition stage_accepted (stage : Stage) : bool :=
  match stage with
  | MatchName search => regexValid search
  | _ => true
  end.

(** [StoreProduct.aggregate(pipeline)] for a pipeline closed by the
    [$project] above; a pipeline with a pattern that does not compile is
    rejected. *)
Definition StoreProduct_aggregate_project (stages : list Stage)
  : M (list Expanded) :=
  db_call StoreProductAggregate
    (fun w =>
       if forallb stage_accepted stages
       then (inr (map project (run_stages w stages (initial_rows w))), w)
       else (inl invalidRegexError, w)).

(** [StoreProduct.aggregate(pipeline)] for a pipeline closed by the
    [$group] above and the [$project] that keeps all its fields; a
    pipeline with a pattern that does not compile is rejected. *)
Definition StoreProduct_aggregate_group (stages : list Stage)
  : M (list ProductSummary) :=
  db_call StoreProductAggregate
    (fun w =>
       if forallb stage_accepted stages
       then (inr (group_by_product (run_stages w stages (initial_rows w))), w)
       else (inl invalidRegexError, w)).

(** The pattern of a [search] parameter, when one is supplied, compiles. *)
Definition pattern_accepted (field : option string) : bool :=
  match field with
  | Some s => if negb (String.eqb s "") then regexValid s else true
  | None => true
  end.

(** [if (field) { pipeline.push(stage(field)) }] *)
Definition push_when_truthy (field : option string) (stage : string -> Stage)
  : list Stage :=
  match field with
  | Some s => if negb (String.eqb s "") then [stage s] else []
  | None => []
  end.

(** ** The handlers *)

(** The test of the first guard of createStoreProduct:
    [!productId || !storeId || price === undefined || stock === undefined] *)
Definition missing_required (b : CreateBody) : bool :=
  negb (truthy (b_productId b)) || negb (truthy (b_storeId b))
  || is_undefined (b_price b) || is_undefined (b_stock b).

Definition createStoreProduct_catch (error : Error) : Response :=
  if is_duplicate_pair error then
    failure 409 "This product already exists in this store."
  else if is_cast_error error then
    failure 400 "Invalid ID format in request body."
  else
    failure 500 (message_or error
                   "An error occurred while creating the store product.").

Definition createStoreProduct_try (b : CreateBody) : M Response :=
  if missing_required b then
    ret (failure 400 "Missing required fields for StoreProduct.")
  else if negb (isValid (b_productId b)) || negb (isValid (b_storeId b)) then
    ret (failure 400 "Invalid format for Product ID or Store ID.")
  else
    productExists <- Product_findById (b_productId b) ;;
    storeExists <- Store_findById (b_storeId b) ;;
    match productExists with
    | None => ret (failure 404 "Common Product not found.")
    | Some _ =>
        match storeExists with
        | None => ret (failure 404 "Store not found.")
        | Some _ =>
            newStoreProduct <- new_StoreProduct b ;;
            _ <- StoreProduct_save newStoreProduct ;;
            populatedStoreProduct <-
              StoreProduct_findById_populate_oid (d_id newStoreProduct) ;;
            ret (mkResponse 201 true
                   (Some "Store Product created successfully.")
                   (storeProduct populatedStoreProduct))
        end
    end.

Definition createStoreProduct (b : CreateBody) : World -> Response * World :=
  try_catch (createStoreProduct_try b) createStoreProduct_catch.

(** The [query] object getStoreProducts builds. *)
Definition list_query (q : ListQuery) : Filter :=
  mkFilter (if truthy (q_storeId q) then castId (q_storeId q) else None)
           (if is_literal_true (q_recommended q) then Some true else None)
           (if is_literal_true (q_discount q) then Some true else None)
           None.

(** The [aggregatePipeline] getStoreProducts builds, up to its [$project]. *)
Definition list_pipeline (q : ListQuery) : list Stage :=
  (if has_keys (list_query q) then [Match (list_query q)] else [])
  ++ [LookupProducts; UnwindProductDetails; LookupStores; UnwindStoreDetails]
  ++ push_when_truthy (q_category q) MatchCategory
  ++ push_when_truthy (q_search q) MatchName.

Definition getStoreProducts_catch (error : Error) : Response :=
  failure 500 (message_or error
                 "An error occurred while fetching store products.").

Definition getStoreProducts_try (q : ListQuery) : M Response :=
  if truthy (q_storeId q) && negb (isValid (q_storeId q)) then
    ret (failure 400 "Invalid Store ID format.")
  else
    docs <- StoreProduct_aggregate_project (list_pipeline q) ;;
    ret (mkResponse 200 true None (storeProducts_aggregated docs)).

Definition getStoreProducts (q : ListQuery) : World -> Response * World :=
  try_catch (getStoreProducts_try q) getStoreProducts_catch.

Definition getStoreProductById_catch (error : Error) : Response :=
  failure 500 (message_or error
                 "An error occurred while fetching the store product.").

Definition getStoreProductById_try (id : string) : M Response :=
  found <- StoreProduct_findById_populate id ;;
  match found with
  | None => ret (failure 404 "Store Product not found.")
  | Some doc => ret (mkResponse 200 true None (storeProduct (Some doc)))
  end.

Definition getStoreProductById (id : string) : World -> Response * World :=
  if negb (isValid (Some id)) then
    fun w => (failure 400 "Invalid Store Product ID format.", w)
  else
    try_catch (getStoreProductById_try id) getStoreProductById_catch.

Definition updateStoreProduct_catch (error : Error) : Response :=
  failure 500 (message_or error
                 "An error occurred while updating the store product.").

Definition updateStoreProduct_try (id : string) (body : UpdateBody) : M Response :=
  updatedStoreProduct <- StoreProduct_findByIdAndUpdate_populate id body ;;
  match updatedStoreProduct with
  | None => ret (failure 404 "Store Product not found.")
  | Some doc =>
      ret (mkResponse 200 true (Some "Store Product updated successfully.")
                      (storeProduct (Some doc)))
  end.

Definition updateStoreProduct (id : string) (body : UpdateBody)
  : World -> Response * World :=
  if negb (isValid (Some id)) then
    fun w => (failure 400 "Invalid Store Product ID format.", w)
  else
    try_catch (updateStoreProduct_try id body) updateStoreProduct_catch.

Definition deleteStoreProduct_catch (error : Error) : Response :=
  failure 500 (message_or error
                 "An error occurred while deleting the store product.").

Definition deleteStoreProduct_try (id : string) : M Response :=
  deletedStoreProduct <- StoreProduct_findByIdAndDelete id ;;
  match deletedStoreProduct with
  | None => ret (failure 404 "Store Product not found.")
  | Some _ =>
      ret (mkResponse 200 true (Some "Store Product deleted successfully.")
                      NoPayload)
  end.

Definition deleteStoreProduct (id : string) : World -> Response * World :=
  if negb (isValid (Some id)) then
    fun w => (failure 400 "Invalid Store Product ID format.", w)
  else
    try_catch (deleteStoreProduct_try id) deleteStoreProduct_catch.

(** The [pipeline] getProductSearchSummary builds, up to its [$group]. *)
Definition summary_pipeline (q : SummaryQuery) : list Stage :=
  [Match (mkFilter None None None (Some true));
   LookupProducts; UnwindProductDetails]
  ++ push_when_truthy (sq_category q) MatchCategory
  ++ push_when_truthy (sq_search q) MatchName.

Definition getProductSearchSummary_catch (error : Error) : Response :=
  failure 500 (message_or error
                 "An error occurred while fetching product search summary.").

Definition getProductSearchSummary_try (q : SummaryQuery) : M Response :=
  rows <- StoreProduct_aggregate_group (summary_pipeline q) ;;
  ret (mkResponse 200 true None (productSummaries rows)).

Definition getProductSearchSummary (q : SummaryQuery)
  : World -> Response * World :=
  try_catch (getProductSearchSummary_try q) getProductSearchSummary_catch.

Definition getStoreOptionsForProduct_catch (error : Error) : Response :=
  failure 500 (message_or error
                 "An error occurred while fetching store options.").

Definition getStoreOptionsForProduct_try (productId : string) : M Response :=
  docs <- StoreProduct_find_populate productId ;;
  match docs with
  | [] => ret (failure 404 "No store options found for this product.")
  | _ :: _ => ret (mkResponse 200 true None (storeProducts_populated docs))
  end.

Definition getStoreOptionsForProduct (productId : string)
  : World -> Response * World :=
  if negb (truthy (Some productId)) || negb (isValid (Some productId)) then
    fun w => (failure 400 "Valid Product ID is required.", w)
  else
    try_catch (getStoreOptionsForProduct_try productId)
              getStoreOptionsForProduct_catch.

End Controller.

(** ** A concrete driver: the 24-digit hexadecimal form of an ObjectId *)

Definition hex_digit (c : ascii) : option N :=
  let n := N_of_ascii c in
  if (48 <=? n)%N && (n <=? 57)%N then Some (n - 48)%N
  else if (97 <=? n)%N && (n <=? 102)%N then Some (n - 87)%N
  else if (65 <=? n)%N && (n <=? 70)%N then Some (n - 55)%N
  else None.

Fixpoint hex_value (acc : N) (s : string) : option N :=
  match s with
  | EmptyString => Some acc
  | String c rest =>
      match hex_digit c with
      | Some d => hex_value (16 * acc + d)%N rest
      | None => None
      end
  end.

Definition hexObjectId (s : string) : option ObjectId :=
  if Nat.eqb (String.length s) 24 then hex_value 0%N s else None.

(** The sample driver knows the plainest patterns only: it accepts a text
    made of letters, digits and spaces, which matches the names that contain
    it, whatever the case, and refuses every other text (a server accepts
    more, and refuses for instance "+" and "(" as this driver does). *)
Definition plain (c : ascii) : bool :=
  let n := N_of_ascii c in
  ((48 <=? n)%N && (n <=? 57)%N) || ((65 <=? n)%N && (n <=? 90)%N)
  || ((97 <=? n)%N && (n <=? 122)%N) || (n =? 32)%N.

Definition literalPattern (pattern : string) : bool :=
  forallb plain (list_ascii_of_string pattern).

Definition lower (c : ascii) : ascii :=
  let n := N_of_ascii c in
  if (65 <=? n)%N && (n <=? 90)%N then ascii_of_N (n + 32) else c.

Fixpoint lowercase (s : string) : string :=
  match s with
  | EmptyString => EmptyString
  | String c rest => String (lower c) (lowercase rest)
  end.

Fixpoint contains (part s : string) : bool :=
  String.prefix part s
  || match s with
     | EmptyString => false
     | String _ rest => contains part rest
     end.

Definition literalMatch (pattern subject : string) : bool :=
  contains (lowercase pattern) (lowercase subject).

#[local] Instance hexDriver : Driver :=
  {| castObjectId := hexObjectId;
     castObjectId_empty := eq_refl;
     regexValid := literalPattern;
     regexMatch := literalMatch |}.

(** ** The specification's reading of the two aggregations

    These definitions follow the words of the specification, not the
    pipelines; the theorems below relate the handlers to them. *)

Section Reading.

Context `{Driver}.

(** A store product with both references replaced by the documents. *)
Definition expand (sp : StoreProduct) (p : Product) (s : Store) : Expanded :=
  mkExpanded (sp_id sp) (sp_price sp) (sp_stock sp) (sp_isAvailable sp)
             (sp_recommended sp) (sp_discount sp) (sp_storeSpecificImages sp)
             (Embedded p) (Embedded s) (sp_createdAt sp) (sp_updatedAt sp).

(** Inner join: every record whose Product and Store both exist, expanded;
    a record with a missing Product or Store is dropped. *)
Definition inner_join (w : World) : list Expanded :=
  flat_map
    (fun sp =>
       match find_product (sp_productId sp) (products w),
             find_store (sp_storeId sp) (stores w) with
       | Some p, Some s => [expand sp p s]
       | _, _ => []
       end)
    (storeProducts w).

(** The optional category and name criteria of a summary request. *)
Definition product_selected (q : SummaryQuery) (p : Product) : bool :=
  (if truthy (sq_category q)
   then String.eqb (product_category p) (or_else (sq_category q) "")
   else true)
  && (if truthy (sq_search q)
      then regexMatch (or_else (sq_search q) "") (product_name p)
      else true).

(** The available records of product [k] whose product satisfies the
    criteria: the records grouped into the summary row of [k]. *)
Definition summary_group (w : World) (q : SummaryQuery) (k : ObjectId)
  : list StoreProduct :=
  filter
    (fun sp =>
       match sp_isAvailable sp with Some true => true | _ => false end
       && N.eqb (sp_productId sp) k
       && existsb (fun p => N.eqb (product_id p) (sp_productId sp)
                            && product_selected q p)
                  (products w))
    (storeProducts w).

(** A partial update: [new] has the identity and the creation instant of
    [old]; each path the body supplies has the supplied value, each other
    path the value it has in [old]. *)
Definition updated_from (body : UpdateBody) (old new : StoreProduct) : Prop :=
  sp_id new = sp_id old
  /\ match u_productId body with
     | Some s => castObjectId s = Some (sp_productId new)
     | None => sp_productId new = sp_productId old
     end
  /\ match u_storeId body with
     | Some s => castObjectId s = Some (sp_storeId new)
     | None => sp_storeId new = sp_storeId old
     end
  /\ sp_price new = or_else (u_price body) (sp_price old)
  /\ sp_stock new = or_else (u_stock body) (sp_stock old)
  /\ sp_isAvailable new
     = match u_isAvailable body with
       | Some v => Some v
       | None => sp_isAvailable old
       end
  /\ sp_recommended new
     = match u_recommended body with
       | Some v => Some v
       | None => sp_recommended old
       end
  /\ sp_discount new
     = match u_discount body with
       | Some v => Some v
       | None => sp_discount old
       end
  /\ sp_storeSpecificImages new
     = or_else (u_storeSpecificImages body) (sp_storeSpecificImages old)
  /\ sp_createdAt new = sp_createdAt old.

End Reading.

(** A flag that is present and [true]. *)
Definition is_true (flag : option bool) : bool :=
  match flag with
  | Some true => true
  | _ => false
  end.




(** The persistence layer answers the next call. *)
Definition answers (w : World) : Prop := hd None (faults w) = None.

(** ** Notions for the controller as a whole *)

(** The pair of references of a record. *)
Definition pair_of (sp : StoreProduct) : ObjectId * ObjectId :=
  (sp_productId sp, sp_storeId sp).

(** One record per identifier and one record per pair. *)
Definition consistent (l : list StoreProduct) : Prop :=
  NoDup (map sp_id l) /\ NoDup (map pair_of l).

(** The two shapes of a JSON body the handlers send: a success (200 or 201,
    [success: true]) or a failure (400, 404, 409 or 500, [success: false],
    a non-empty [message], no data). *)
Definition is_success (r : Response) : Prop :=
  (status r = 200 \/ status r = 201) /\ success r = true.

Definition is_failure (r : Response) : Prop :=
  In (status r) [400; 404; 409; 500]
  /\ success r = false
  /\ (exists msg, message r = Some msg /\ msg <> "")
  /\ payload r = NoPayload.

(** [w'] holds the same data as [w]: the three collections and the clock
    are equal, and at most one more call has been issued. *)
Definition same_data (w w' : World) : Prop :=
  products w' = products w /\ stores w' = stores w
  /\ storeProducts w' = storeProducts w /\ now w' = now w
  /\ (journal w' = journal w \/ exists op, journal w' = op :: journal w).

(** The world after the given calls, oldest first. *)
Definition after_calls (ops : list DbOp) (w : World) : World :=
  fold_left (fun acc op => issue op acc) ops w.

(** The record a create request stores. *)
Definition new_document (b : CreateBody) (pid sid : ObjectId) (price stock : Z)
           (w : World) : StoreProduct :=
  mkStoreProduct (fresh_id (storeProducts w)) pid sid price stock
                 (b_isAvailable b) (b_recommended b) (b_discount b)
                 (or_else (b_storeSpecificImages b) []) (now w) (now w).

Section Criteria.

Context `{Driver}.

(** The criteria of a list request, read on an expanded document: the store
    of [storeId] when given, [recommended] and [discount] when the
    parameter is the literal "true", the product's category when
    [category] is given, the product's name when [search] is given. *)
Definition selected_by (q : ListQuery) (e : Expanded) : bool :=
  (if truthy (q_storeId q)
   then match castId (q_storeId q) with
        | Some sid => path_matches (fun s => N.eqb (store_id s) sid) (e_storeId e)
        | None => false
        end
   else true)
  && (if is_literal_true (q_recommended q) then is_true (e_recommended e)
      else true)
  && (if is_literal_true (q_discount q) then is_true (e_discount e) else true)
  && (if truthy (q_category q)
      then path_matches (category_is (or_else (q_category q) "")) (e_productId e)
      else true)
  && (if truthy (q_search q)
      then path_matches (name_matches (or_else (q_search q) "")) (e_productId e)
      else true).

(** The ways a create request can end: the response and the world it
    leaves.  [w1], [w2], [w3] are the worlds after the first, second and
    third call. *)
Inductive create_ends (b : CreateBody) (w : World) : Response -> World -> Prop :=
| ends_missing :
    missing_required b = true ->
    create_ends b w (failure 400 "Missing required fields for StoreProduct.") w
| ends_invalid :
    missing_required b = false ->
    isValid (b_productId b) = false \/ isValid (b_storeId b) = false ->
    create_ends b w (failure 400 "Invalid format for Product ID or Store ID.") w
| ends_product_call e :
    hd None (faults w) = Some e ->
    create_ends b w (createStoreProduct_catch e) (after_calls [ProductFindById] w)
| ends_store_call e :
    hd None (faults w) = None ->
    hd None (faults (after_calls [ProductFindById] w)) = Some e ->
    create_ends b w (createStoreProduct_catch e)
                (after_calls [ProductFindById; StoreFindById] w)
| ends_no_product pid :
    castId (b_productId b) = Some pid ->
    find_product pid (products w) = None ->
    create_ends b w (failure 404 "Common Product not found.")
                (after_calls [ProductFindById; StoreFindById] w)
| ends_no_store pid sid :
    castId (b_productId b) = Some pid -> castId (b_storeId b) = Some sid ->
    find_product pid (products w) <> None ->
    find_store sid (stores w) = None ->
    create_ends b w (failure 404 "Store not found.")
                (after_calls [ProductFindById; StoreFindById] w)
| ends_save_call e pid sid :
    castId (b_productId b) = Some pid -> castId (b_storeId b) = Some sid ->
    find_product pid (products w) <> None ->
    find_store sid (stores w) <> None ->
    hd None (faults (after_calls [ProductFindById; StoreFindById] w)) = Some e ->
    create_ends b w (createStoreProduct_catch e)
                (after_calls [ProductFindById; StoreFindById; StoreProductSave] w)
| ends_pair_taken pid sid price stock :
    castId (b_productId b) = Some pid -> castId (b_storeId b) = Some sid ->
    b_price b = Some price -> b_stock b = Some stock ->
    find_product pid (products w) <> None ->
    find_store sid (stores w) <> None ->
    existsb (same_pair (new_document b pid sid price stock w)) (storeProducts w)
    = true ->
    create_ends b w
                (createStoreProduct_catch
                   (duplicateKeyError ["productId"; "storeId"]))
                (after_calls [ProductFindById; StoreFindById; StoreProductSave] w)
| ends_reread e pid sid price stock :
    castId (b_productId b) = Some pid -> castId (b_storeId b) = Some sid ->
    b_price b = Some price -> b_stock b = Some stock ->
    find_product pid (products w) <> None ->
    find_store sid (stores w) <> None ->
    existsb (same_pair (new_document b pid sid price stock w)) (storeProducts w)
    = false ->
    hd None (faults (after_calls [ProductFindById; StoreFindById;
                                  StoreProductSave] w)) = Some e ->
    create_ends b w (createStoreProduct_catch e)
                (issue StoreProductFindById
                   (set_storeProducts
                      (storeProducts w ++ [new_document b pid sid price stock w])
                      (after_calls [ProductFindById; StoreFindById;
                                    StoreProductSave] w)))
| ends_created pid sid price stock :
    castId (b_productId b) = Some pid -> castId (b_storeId b) = Some sid ->
    b_price b = Some price -> b_stock b = Some stock ->
    find_product pid (products w) <> None ->
    find_store sid (stores w) <> None ->
    existsb (same_pair (new_document b pid sid price stock w)) (storeProducts w)
    = false ->
    hd None (faults (after_calls [ProductFindById; StoreFindById;
                                  StoreProductSave] w)) = None ->
    create_ends b w
      (mkResponse 201 true (Some "Store Product created successfully.")
         (storeProduct
            (Some (mkPopulated (new_document b pid sid price stock w)
                               (find_product pid (products w))
                               (find_store sid (stores w))))))
      (issue StoreProductFindById
         (set_storeProducts
            (storeProducts w ++ [new_document b pid sid price stock w])
            (after_calls [ProductFindById; StoreFindById; StoreProductSave] w))).

(** The ways an update request can end: refused for its id, failed
    before anything was written, answered that there is no such record,
    failed in the populate queries once the update was written, or done. *)
Inductive update_ends (id : string) (body : UpdateBody) (w : World)
  : Response -> World -> Prop :=
| update_invalid :
    isValid (Some id) = false ->
    update_ends id body w (failure 400 "Invalid Store Product ID format.") w
| update_error e :
    update_ends id body w (updateStoreProduct_catch e)
                (issue StoreProductFindByIdAndUpdate w)
| update_absent oid :
    castObjectId id = Some oid ->
    find_storeProduct oid (storeProducts w) = None ->
    update_ends id body w (failure 404 "Store Product not found.")
                (issue StoreProductFindByIdAndUpdate w)
| update_populate_error oid old pid sid e :
    castObjectId id = Some oid ->
    cast_supplied (u_productId body) = inr pid ->
    cast_supplied (u_storeId body) = inr sid ->
    find_storeProduct oid (storeProducts w) = Some old ->
    existsb (fun sp => negb (N.eqb (sp_id sp) oid)
                       && same_pair (merge old pid sid body (now w)) sp)
            (storeProducts w) = false ->
    hd None (faults (issue StoreProductFindByIdAndUpdate w)) = Some e ->
    update_ends id body w (updateStoreProduct_catch e)
      (issue StoreProductPopulate
         (set_storeProducts
            (replace_first oid (merge old pid sid body (now w)) (storeProducts w))
            (issue StoreProductFindByIdAndUpdate w)))
| update_done oid old pid sid :
    castObjectId id = Some oid ->
    cast_supplied (u_productId body) = inr pid ->
    cast_supplied (u_storeId body) = inr sid ->
    find_storeProduct oid (storeProducts w) = Some old ->
    existsb (fun sp => negb (N.eqb (sp_id sp) oid)
                       && same_pair (merge old pid sid body (now w)) sp)
            (storeProducts w) = false ->
    hd None (faults (issue StoreProductFindByIdAndUpdate w)) = None ->
    update_ends id body w
      (mkResponse 200 true (Some "Store Product updated successfully.")
         (storeProduct
            (Some (mkPopulated (merge old pid sid body (now w))
                     (find_product (sp_productId (merge old pid sid body (now w)))
                                   (products w))
                     (find_store (sp_storeId (merge old pid sid body (now w)))
                                 (stores w))))))
      (issue StoreProductPopulate
         (set_storeProducts
            (replace_first oid (merge old pid sid body (now w)) (storeProducts w))
            (issue StoreProductFindByIdAndUpdate w))).

(** The ways a delete request can end. *)
Inductive delete_ends (id : string) (w : World) : Response -> World -> Prop :=
| delete_invalid :
    isValid (Some id) = false ->
    delete_ends id w (failure 400 "Invalid Store Product ID format.") w
| delete_error e :
    hd None (faults w) = Some e ->
    delete_ends id w (deleteStoreProduct_catch e)
                (issue StoreProductFindByIdAndDelete w)
| delete_absent oid :
    castObjectId id = Some oid -> answers w ->
    find_storeProduct oid (storeProducts w) = None ->
    delete_ends id w (failure 404 "Store Product not found.")
                (issue StoreProductFindByIdAndDelete w)
| delete_done oid old :
    castObjectId id = Some oid -> answers w ->
    find_storeProduct oid (storeProducts w) = Some old ->
    delete_ends id w
      (mkResponse 200 true (Some "Store Product deleted successfully.")
                  NoPayload)
      (set_storeProducts (remove_first oid (storeProducts w))
                         (issue StoreProductFindByIdAndDelete w)).

End Criteria.

(** ** Sample data *)

Module Sample.

Definition apple_id := "aaaaaaaaaaaaaaaaaaaaaaaa".
Definition bread_id := "bbbbbbbbbbbbbbbbbbbbbbbb".
Definition north_id := "111111111111111111111111".
Definition south_id := "222222222222222222222222".
Definition first_id := "000000000000000000000001".

Definition oid (s : string) : ObjectId := or_else (hexObjectId s) 0%N.

Definition apple := mkProduct (oid apple_id) "Apple" "red" "fruit" ["a.png"].
Definition bread := mkProduct (oid bread_id) "Bread" "loaf" "bakery" [].
Definition north := mkStore (oid north_id) "North".
Definition south := mkStore (oid south_id) "South".

Definition apple_north :=
  mkStoreProduct 1%N (oid apple_id) (oid north_id) 120 5
                 (Some true) (Some true) None [] 10 10.
Definition apple_south :=
  mkStoreProduct 2%N (oid apple_id) (oid south_id) 100 0
                 (Some true) (Some false) None [] 11 11.
Definition bread_north :=
  mkStoreProduct 3%N (oid bread_id) (oid north_id) 300 7
                 (Some false) None (Some true) [] 12 12.

(** Two products, two stores, three store products, nothing scheduled. *)
Definition world : World :=
  mkWorld [apple; bread] [north; south]
          [apple_north; apple_south; bread_north] [] [] 50.

(** The same collections, with the next call failing with [e]. *)
Definition failing (e : Error) : World :=
  mkWorld [apple; bread] [north; south]
          [apple_north; apple_south; bread_north] [Some e] [] 50.

Definition connection_lost : Error :=
  mkError "MongoNetworkError" None [] "connection lost".

End Sample.

(** Further sample data. *)
Module MoreSamples.

Definition fourth_id := "000000000000000000000004".

(** A request to sell bread in the south store. *)
Definition bread_south_request : CreateBody :=
  mkCreateBody (Some Sample.bread_id) (Some Sample.south_id) (Some 250) (Some 3)
               (Some true) None None None.


(** The sample collections, three calls answered and the fourth failing. *)
Definition failing_fourth (e : Error) : World :=
  mkWorld (products Sample.world) (stores Sample.world)
          (storeProducts Sample.world) [None; None; None; Some e] [] 50.

End MoreSamples.

(** * Properties *)

Section Properties.

Context `{Driver}.

Local Open Scope list_scope.

(** ** The monad and the persistence calls *)

Lemma healthy_answers (w : World) : healthy w -> answers w.
Proof.
  unfold healthy, answers. intros Hw.
  destruct (faults w) as [|[e|] rest] eqn:E; simpl; auto.
  exfalso. apply (Hw e). left. reflexivity.
Qed.

Lemma healthy_issue (op : DbOp) (w : World) : healthy w -> healthy (issue op w).
Proof.
  unfold healthy. simpl. intros Hw e Hin.
  apply (Hw e). destruct (faults w); simpl in *; auto.
Qed.

Lemma db_call_answers {A} (op : DbOp) (run : M A) (w : World) :
  answers w -> db_call op run w = run (issue op w).
Proof. unfold answers, db_call. intros ->. reflexivity. Qed.


Lemma isValid_castId (id : option string) :
  isValid id = true <-> exists oid, castId id = Some oid.
Proof.
  unfold isValid. destruct (castId id) as [oid|]; split; intros Hv;
    try discriminate; eauto. destruct Hv as [? Hv]. discriminate.
Qed.

Lemma isValid_truthy (id : option string) : isValid id = true -> truthy id = true.
Proof.
  unfold isValid, castId, truthy. destruct id as [s|]; [|discriminate].
  destruct (String.eqb_spec s "") as [->|]; [|reflexivity].
  rewrite castObjectId_empty. discriminate.
Qed.

(** ** Malformed identifiers *)

Lemma create_rejects_invalid (b : CreateBody) (w : World) :
  isValid (b_productId b) = false \/ isValid (b_storeId b) = false ->
  exists msg, createStoreProduct b w = (failure 400 msg, w).
Proof.
  intros Hbad. unfold createStoreProduct, try_catch, createStoreProduct_try.
  destruct (missing_required b); [eexists; reflexivity|].
  destruct Hbad as [-> | ->]; simpl; rewrite ?orb_true_r;
    eexists; reflexivity.
Qed.

(** C1, as the code has it: a malformed identifier makes every operation
    answer 400 with the world untouched, no call to the persistence layer
    being issued; for the [storeId] of the list operation this holds for a
    non-empty value only, an empty one being treated as absent. *)
Theorem malformed_identifier_rejected (id : string) (w : World) :
  isValid (Some id) = false ->
  (forall b, b_productId b = Some id \/ b_storeId b = Some id ->
     exists msg, createStoreProduct b w = (failure 400 msg, w))
  /\ (forall q, q_storeId q = Some id -> id <> "" ->
        getStoreProducts q w = (failure 400 "Invalid Store ID format.", w))
  /\ getStoreProductById id w
     = (failure 400 "Invalid Store Product ID format.", w)
  /\ (forall body, updateStoreProduct id body w
                   = (failure 400 "Invalid Store Product ID format.", w))
  /\ deleteStoreProduct id w
     = (failure 400 "Invalid Store Product ID format.", w)
  /\ getStoreOptionsForProduct id w
     = (failure 400 "Valid Product ID is required.", w).
Proof.
  intros Hbad. repeat split.
  - intros b [Hb | Hb]; apply create_rejects_invalid; rewrite Hb; auto.
  - intros q Hq Hne.
    unfold getStoreProducts, try_catch, getStoreProducts_try.
    rewrite Hq, Hbad. unfold truthy.
    destruct (String.eqb_spec id "") as [->|]; [contradiction|reflexivity].
  - unfold getStoreProductById. rewrite Hbad. reflexivity.
  - intros body. unfold updateStoreProduct. rewrite Hbad. reflexivity.
  - unfold deleteStoreProduct. rewrite Hbad. reflexivity.
  - unfold getStoreOptionsForProduct. rewrite Hbad, orb_true_r. reflexivity.
Qed.

(** ** Reasoning about a run *)

Lemma run_post_ret {A} (a : A) (w : World) Q :
  Q (inr a) w -> run_post (ret a) w Q.
Proof. exact (fun HQ => HQ). Qed.

Lemma run_post_bind {A B} (m : M A) (f : A -> M B) (w : World) Q :
  run_post m w (fun r w1 =>
                  match r with
                  | inl e => Q (inl e) w1
                  | inr a => run_post (f a) w1 Q
                  end) ->
  run_post (bind m f) w Q.
Proof.
  unfold run_post, bind. destruct (m w) as [[e|a] w1]; simpl; auto.
Qed.

Lemma run_post_try_catch {R} (body : M R) (handler : Error -> R) (w : World)
      (Q : R -> World -> Prop) :
  run_post body w (fun r w' =>
                     match r with
                     | inl e => Q (handler e) w'
                     | inr a => Q a w'
                     end) ->
  Q (fst (try_catch body handler w)) (snd (try_catch body handler w)).
Proof.
  unfold run_post, try_catch. destruct (body w) as [[e|a] w']; simpl; auto.
Qed.

Lemma run_post_any {A} (m : M A) (w : World) (Q : Error + A -> World -> Prop) :
  (forall r w', Q r w') -> run_post m w Q.
Proof. intros HQ. apply HQ. Qed.

(** ** What each persistence call does when it is answered *)

Lemma Product_findById_ok (id : option string) (oid : ObjectId) (w : World) :
  answers w -> castId id = Some oid ->
  Product_findById id w
  = (inr (find_product oid (products w)), issue ProductFindById w).
Proof.
  intros Ha Hc. unfold Product_findById. rewrite db_call_answers by assumption.
  unfold with_cast. rewrite Hc. reflexivity.
Qed.

Lemma Store_findById_ok (id : option string) (oid : ObjectId) (w : World) :
  answers w -> castId id = Some oid ->
  Store_findById id w
  = (inr (find_store oid (stores w)), issue StoreFindById w).
Proof.
  intros Ha Hc. unfold Store_findById. rewrite db_call_answers by assumption.
  unfold with_cast. rewrite Hc. reflexivity.
Qed.

(** The calls that only read leave the collections as they are. *)
Lemma Product_findById_world (id : option string) (w : World) :
  snd (Product_findById id w) = issue ProductFindById w.
Proof.
  unfold Product_findById, db_call, with_cast, throw.
  destruct (hd None (faults w)); [reflexivity|].
  destruct (castId id); reflexivity.
Qed.

Lemma Store_findById_world (id : option string) (w : World) :
  snd (Store_findById id w) = issue StoreFindById w.
Proof.
  unfold Store_findById, db_call, with_cast, throw.
  destruct (hd None (faults w)); [reflexivity|].
  destruct (castId id); reflexivity.
Qed.

Lemma StoreProduct_findById_populate_oid_world (oid : ObjectId) (w : World) :
  snd (StoreProduct_findById_populate_oid oid w) = issue StoreProductFindById w.
Proof.
  unfold StoreProduct_findById_populate_oid, db_call.
  destruct (hd None (faults w)); reflexivity.
Qed.

(** A save either adds the validated document at the end or changes
    nothing. *)
Lemma StoreProduct_save_world (d : Draft) (w : World) :
  match fst (StoreProduct_save d w) with
  | inl _ => snd (StoreProduct_save d w) = issue StoreProductSave w
  | inr _ =>
      exists doc, validate d (now w) = Some doc
                  /\ existsb (same_pair doc) (storeProducts w) = false
                  /\ snd (StoreProduct_save d w)
                     = set_storeProducts (storeProducts w ++ [doc])
                                         (issue StoreProductSave w)
  end.
Proof.
  unfold StoreProduct_save, db_call.
  destruct (hd None (faults w)); [reflexivity|]. simpl.
  destruct (validate d (now w)) as [doc|]; [|reflexivity].
  destruct (existsb _ _); [reflexivity|].
  destruct (existsb (same_pair doc) (storeProducts w)) eqn:E; [reflexivity|].
  simpl. exists doc. auto.
Qed.

(** ** The required fields of a create request *)

Lemma createStoreProduct_catch_not_missing (e : Error) :
  createStoreProduct_catch e
  <> failure 400 "Missing required fields for StoreProduct.".
Proof.
  unfold createStoreProduct_catch, failure.
  destruct (is_duplicate_pair e); [discriminate|].
  destruct (is_cast_error e); discriminate.
Qed.

Lemma create_passed_guard_differs (b : CreateBody) (w : World) :
  missing_required b = false ->
  fst (createStoreProduct b w)
  <> failure 400 "Missing required fields for StoreProduct.".
Proof.
  intros Hm. unfold createStoreProduct.
  apply (run_post_try_catch (createStoreProduct_try b) createStoreProduct_catch w
           (fun r _ => r <> failure 400 "Missing required fields for StoreProduct.")).
  unfold createStoreProduct_try. rewrite Hm.
  destruct (negb (isValid (b_productId b)) || negb (isValid (b_storeId b))).
  { apply run_post_ret. discriminate. }
  apply run_post_bind, run_post_any. intros [e|p] w1.
  { apply createStoreProduct_catch_not_missing. }
  apply run_post_bind, run_post_any. intros [e|s] w2.
  { apply createStoreProduct_catch_not_missing. }
  destruct p; [|apply run_post_ret; discriminate].
  destruct s; [|apply run_post_ret; discriminate].
  apply run_post_bind, run_post_any. intros [e|d] w3.
  { apply createStoreProduct_catch_not_missing. }
  apply run_post_bind, run_post_any. intros [e|u] w4.
  { apply createStoreProduct_catch_not_missing. }
  apply run_post_bind, run_post_any. intros [e|found] w5.
  { apply createStoreProduct_catch_not_missing. }
  apply run_post_ret. discriminate.
Qed.

(** Once both guards are passed the first thing create does is ask for the
    product. *)
Lemma create_proceeds (b : CreateBody) (w : World) :
  missing_required b = false ->
  isValid (b_productId b) = true -> isValid (b_storeId b) = true ->
  exists calls,
    journal (snd (createStoreProduct b w))
    = (calls ++ ProductFindById :: journal w)%list.
Proof.
  intros Hm Hp Hs. unfold createStoreProduct.
  apply (run_post_try_catch (createStoreProduct_try b) createStoreProduct_catch w
           (fun _ w' => exists calls,
                journal w' = (calls ++ ProductFindById :: journal w)%list)).
  unfold createStoreProduct_try. rewrite Hm, Hp, Hs. simpl.
  assert (Hstep : forall op w1,
             (exists calls, journal w1 = (calls ++ ProductFindById :: journal w)%list) ->
             exists calls, journal (issue op w1)
                           = (calls ++ ProductFindById :: journal w)%list).
  { intros op w1 [calls Hj]. exists (op :: calls). simpl. rewrite Hj. reflexivity. }
  assert (H0 : exists calls,
             journal (issue ProductFindById w)
             = (calls ++ ProductFindById :: journal w)%list).
  { exists []. reflexivity. }
  apply run_post_bind. unfold run_post at 1.
  rewrite Product_findById_world.
  destruct (fst (Product_findById (b_productId b) w)) as [e|p]; [exact H0|].
  apply run_post_bind. unfold run_post at 1.
  rewrite Store_findById_world.
  pose proof (Hstep StoreFindById _ H0) as H1.
  destruct (fst (Store_findById (b_storeId b) _)) as [e|s]; [exact H1|].
  destruct p; [|exact H1]. destruct s; [|exact H1].
  apply run_post_bind. unfold run_post at 1. simpl.
  apply run_post_bind. unfold run_post at 1.
  pose proof (StoreProduct_save_world
                (mkDraft (fresh_id (storeProducts (issue StoreFindById (issue ProductFindById w))))
                         (b_productId b) (b_storeId b) (b_price b) (b_stock b)
                         (b_isAvailable b) (b_recommended b) (b_discount b)
                         (b_storeSpecificImages b))
                (issue StoreFindById (issue ProductFindById w))) as Hsave.
  pose proof (Hstep StoreProductSave _ H1) as H2.
  destruct (fst (StoreProduct_save _ _)) as [e|u].
  { simpl in Hsave |- *. rewrite Hsave. exact H2. }
  destruct Hsave as (doc & _ & _ & Hw). simpl in Hw |- *. rewrite Hw.
  apply run_post_bind. unfold run_post at 1.
  rewrite StoreProduct_findById_populate_oid_world.
  assert (H3 : exists calls,
             journal (issue StoreProductFindById
                        (set_storeProducts
                           (storeProducts w ++ [doc])
                           (issue StoreProductSave
                              (issue StoreFindById (issue ProductFindById w)))))
             = (calls ++ ProductFindById :: journal w)%list).
  { destruct H2 as [calls Hj]. exists (StoreProductFindById :: calls).
    simpl in *. rewrite Hj. reflexivity. }
  destruct (fst (StoreProduct_findById_populate_oid _ _)); exact H3.
Qed.

(** C10: the guard of create treats an empty [productId] or [storeId] as
    missing and answers 400 without touching the world; with both
    identifiers non-empty, the answer is "missing required fields" exactly
    when [price] or [stock] is absent ([undefined]), so that a price or a
    stock of 0 passes the guard, and a request that passes it with
    well-formed identifiers goes on to query the persistence layer. *)
Theorem required_fields_check (b : CreateBody) (w : World) :
  (b_productId b = Some "" \/ b_storeId b = Some "" ->
   createStoreProduct b w
   = (failure 400 "Missing required fields for StoreProduct.", w))
  /\ (truthy (b_productId b) = true -> truthy (b_storeId b) = true ->
      (fst (createStoreProduct b w)
       = failure 400 "Missing required fields for StoreProduct."
       <-> b_price b = None \/ b_stock b = None))
  /\ (isValid (b_productId b) = true -> isValid (b_storeId b) = true ->
      b_price b <> None -> b_stock b <> None ->
      exists calls,
        journal (snd (createStoreProduct b w))
        = (calls ++ ProductFindById :: journal w)%list).
Proof.
  split; [|split].
  - intros Hempty.
    unfold createStoreProduct, try_catch, createStoreProduct_try.
    assert (Hm : missing_required b = true).
    { unfold missing_required. destruct Hempty as [-> | ->]; simpl;
        rewrite ?orb_true_r; reflexivity. }
    rewrite Hm. reflexivity.
  - intros Hp Hs. split.
    + intros Heq.
      destruct (missing_required b) eqn:Hm.
      * unfold missing_required in Hm. rewrite Hp, Hs in Hm. simpl in Hm.
        destruct (b_price b); [|auto]. destruct (b_stock b); [|auto].
        discriminate.
      * exfalso. exact (create_passed_guard_differs b w Hm Heq).
    + intros Habsent.
      unfold createStoreProduct, try_catch, createStoreProduct_try.
      assert (Hm : missing_required b = true).
      { unfold missing_required. rewrite Hp, Hs.
        destruct Habsent as [-> | ->]; simpl; rewrite ?orb_true_r; reflexivity. }
      rewrite Hm. reflexivity.
  - intros Hp Hs Hprice Hstock. apply create_proceeds; try assumption.
    unfold missing_required.
    rewrite (isValid_truthy _ Hp), (isValid_truthy _ Hs).
    destruct (b_price b); [|congruence].
    destruct (b_stock b); [|congruence]. reflexivity.
Qed.

(** ** Create: the referenced documents *)

Lemma passes_guards (b : CreateBody) :
  isValid (b_productId b) = true -> isValid (b_storeId b) = true ->
  b_price b <> None -> b_stock b <> None ->
  missing_required b = false
  /\ negb (isValid (b_productId b)) || negb (isValid (b_storeId b)) = false.
Proof.
  intros Hp Hs Hprice Hstock. split.
  - unfold missing_required.
    rewrite (isValid_truthy _ Hp), (isValid_truthy _ Hs).
    destruct (b_price b); [|congruence].
    destruct (b_stock b); [|congruence]. reflexivity.
  - rewrite Hp, Hs. reflexivity.
Qed.

Lemma cast_isValid (id : option string) (oid : ObjectId) :
  castId id = Some oid -> isValid id = true.
Proof. intros Hc. apply isValid_castId. eauto. Qed.

(** C3: a create request with well-formed identifiers (and a price and a
    stock), answered by the persistence layer, fails 404 "Common Product not
    found." whenever the product is absent, whether or not the store
    exists, and 404 "Store not found." when the product exists and the
    store is absent; both lookups have been issued and the collections are
    as before. *)
Theorem create_not_found (b : CreateBody) (w : World) (pid sid : ObjectId) :
  castId (b_productId b) = Some pid -> castId (b_storeId b) = Some sid ->
  b_price b <> None -> b_stock b <> None ->
  healthy w ->
  (find_product pid (products w) = None ->
   createStoreProduct b w
   = (failure 404 "Common Product not found.",
      issue StoreFindById (issue ProductFindById w)))
  /\ (find_product pid (products w) <> None ->
      find_store sid (stores w) = None ->
      createStoreProduct b w
      = (failure 404 "Store not found.",
         issue StoreFindById (issue ProductFindById w))).
Proof.
  intros Hp Hs Hprice Hstock Hw.
  destruct (passes_guards b (cast_isValid _ Hp) (cast_isValid _ Hs)
                          Hprice Hstock) as [Hm Hv].
  assert (Ha : answers w) by (apply healthy_answers; assumption).
  assert (Ha1 : answers (issue ProductFindById w))
    by (apply healthy_answers, healthy_issue; assumption).
  unfold createStoreProduct, try_catch, createStoreProduct_try.
  rewrite Hm, Hv. unfold bind.
  rewrite (Product_findById_ok _ Ha Hp), (Store_findById_ok _ Ha1 Hs).
  split.
  - intros Hnone. simpl. rewrite Hnone. reflexivity.
  - intros Hsome Hnone. simpl. rewrite Hnone.
    destruct (find_product pid (products w)); [reflexivity|congruence].
Qed.

(** ** Create: the unique pair *)

Lemma fold_max_bound (l : list StoreProduct) (sp : StoreProduct) :
  In sp l -> (sp_id sp <= fold_right N.max 0 (map sp_id l))%N.
Proof.
  induction l as [|x l IH]; simpl; [contradiction|].
  intros [-> | Hin]; [lia|]. specialize (IH Hin). lia.
Qed.

Lemma fresh_id_unused (l : list StoreProduct) :
  existsb (fun sp => N.eqb (sp_id sp) (fresh_id l)) l = false.
Proof.
  destruct (existsb _ l) eqn:E; [|reflexivity].
  apply existsb_exists in E. destruct E as (sp & Hin & Heq).
  apply N.eqb_eq in Heq. pose proof (fold_max_bound l sp Hin) as Hle.
  unfold fresh_id in Heq. lia.
Qed.

Lemma pair_taken (l : list StoreProduct) (doc : StoreProduct) :
  (exists sp, In sp l /\ sp_productId sp = sp_productId doc
              /\ sp_storeId sp = sp_storeId doc) ->
  existsb (same_pair doc) l = true.
Proof.
  intros (sp & Hin & Hp & Hs). apply existsb_exists. exists sp. split; [assumption|].
  unfold same_pair. rewrite Hp, Hs, !N.eqb_refl. reflexivity.
Qed.

Lemma validate_refs (d : Draft) (t : Z) (doc : StoreProduct) :
  validate d t = Some doc ->
  castId (d_productId d) = Some (sp_productId doc)
  /\ castId (d_storeId d) = Some (sp_storeId doc)
  /\ sp_id doc = d_id d.
Proof.
  unfold validate.
  destruct (castId (d_productId d)), (castId (d_storeId d)), (d_price d),
    (d_stock d); try discriminate.
  intros [= <-]. auto.
Qed.

(** A create request for a pair that is taken leaves the collection as it
    is, whatever the persistence layer answers. *)
Lemma create_taken_pair_frame (b : CreateBody) (w : World) (pid sid : ObjectId) :
  castId (b_productId b) = Some pid -> castId (b_storeId b) = Some sid ->
  (exists sp, In sp (storeProducts w) /\ sp_productId sp = pid
              /\ sp_storeId sp = sid) ->
  storeProducts (snd (createStoreProduct b w)) = storeProducts w
  /\ status (fst (createStoreProduct b w)) <> 201.
Proof.
  intros Hp Hs Htaken. unfold createStoreProduct.
  apply (run_post_try_catch (createStoreProduct_try b) createStoreProduct_catch w
           (fun r w' => storeProducts w' = storeProducts w /\ status r <> 201)).
  assert (Hcatch : forall e, status (createStoreProduct_catch e) <> 201).
  { intros e. unfold createStoreProduct_catch.
    destruct (is_duplicate_pair e); [discriminate|].
    destruct (is_cast_error e); discriminate. }
  unfold createStoreProduct_try.
  destruct (missing_required b); [apply run_post_ret; split; [reflexivity|discriminate]|].
  destruct (_ || _); [apply run_post_ret; split; [reflexivity|discriminate]|].
  apply run_post_bind. unfold run_post at 1. rewrite Product_findById_world.
  destruct (fst (Product_findById _ w)) as [e|p]; [split; [reflexivity|apply Hcatch]|].
  apply run_post_bind. unfold run_post at 1. rewrite Store_findById_world.
  destruct (fst (Store_findById _ _)) as [e|s]; [split; [reflexivity|apply Hcatch]|].
  destruct p; [|apply run_post_ret; split; [reflexivity|discriminate]].
  destruct s; [|apply run_post_ret; split; [reflexivity|discriminate]].
  apply run_post_bind. unfold run_post at 1. simpl.
  apply run_post_bind. unfold run_post at 1.
  match goal with
  | |- context [StoreProduct_save ?d ?w1] =>
      pose proof (StoreProduct_save_world d w1) as Hsave;
      destruct (fst (StoreProduct_save d w1)) as [e|u]
  end.
  - rewrite Hsave. split; [reflexivity|apply Hcatch].
  - exfalso. destruct Hsave as (doc & Hval & Hfree & _).
    apply validate_refs in Hval. simpl in Hval. destruct Hval as (Hp' & Hs' & _).
    simpl in Hfree.
    rewrite (pair_taken (storeProducts w) doc) in Hfree; [discriminate|].
    destruct Htaken as (sp & Hin & Hsp & Hss). exists sp.
    repeat split; [assumption| |]; congruence.
Qed.

(** C4: a create request for a pair (productId, storeId) that already has a
    record never adds a record, the collection being afterwards what it was
    before; and when the request passes the guards, the product and the
    store exist and the persistence layer answers, the response is
    409 "This product already exists in this store.". *)
Theorem create_duplicate_conflict (b : CreateBody) (w : World)
        (pid sid : ObjectId) :
  castId (b_productId b) = Some pid -> castId (b_storeId b) = Some sid ->
  (exists sp, In sp (storeProducts w) /\ sp_productId sp = pid
              /\ sp_storeId sp = sid) ->
  storeProducts (snd (createStoreProduct b w)) = storeProducts w
  /\ (b_price b <> None -> b_stock b <> None -> healthy w ->
      find_product pid (products w) <> None ->
      find_store sid (stores w) <> None ->
      fst (createStoreProduct b w)
      = failure 409 "This product already exists in this store.").
Proof.
  intros Hp Hs Htaken. split.
  { apply (create_taken_pair_frame b w Hp Hs Htaken). }
  intros Hprice Hstock Hw Hprod Hstore.
  destruct (passes_guards b (cast_isValid _ Hp) (cast_isValid _ Hs)
                          Hprice Hstock) as [Hm Hv].
  assert (Ha : answers w) by (apply healthy_answers; assumption).
  assert (Ha1 : answers (issue ProductFindById w))
    by (apply healthy_answers, healthy_issue; assumption).
  assert (Ha2 : answers (issue StoreFindById (issue ProductFindById w)))
    by (apply healthy_answers, healthy_issue, healthy_issue; assumption).
  unfold createStoreProduct, try_catch, createStoreProduct_try.
  rewrite Hm, Hv. unfold bind.
  rewrite (Product_findById_ok _ Ha Hp), (Store_findById_ok _ Ha1 Hs).
  change (stores (issue ProductFindById w)) with (stores w).
  destruct (find_product pid (products w)); [|congruence].
  destruct (find_store sid (stores w)); [|congruence].
  unfold new_StoreProduct, StoreProduct_save. cbv beta iota.
  rewrite db_call_answers by assumption.
  unfold validate. cbn [d_productId d_storeId d_price d_stock d_id].
  rewrite Hp, Hs.
  destruct (b_price b) as [price|]; [|congruence].
  destruct (b_stock b) as [stock|]; [|congruence].
  cbn [sp_id].
  change (storeProducts (issue StoreProductSave
                           (issue StoreFindById (issue ProductFindById w))))
    with (storeProducts w).
  change (storeProducts (issue StoreFindById (issue ProductFindById w)))
    with (storeProducts w).
  rewrite fresh_id_unused.
  rewrite pair_taken; [reflexivity|].
  destruct Htaken as (sp & Hin & Hsp & Hss). exists sp. simpl. auto.
Qed.

(** ** Errors of the persistence layer *)


(** ** Store options of a product *)

Lemma options_success_nonempty (productId : string) (w : World) :
  status (fst (getStoreOptionsForProduct productId w)) = 200 ->
  exists docs,
    payload (fst (getStoreOptionsForProduct productId w))
    = storeProducts_populated docs
    /\ docs <> [].
Proof.
  unfold getStoreOptionsForProduct.
  destruct (_ || _); [simpl; discriminate|].
  unfold try_catch, getStoreOptionsForProduct_try, bind.
  destruct (StoreProduct_find_populate productId w) as [[e|docs] w1];
    [simpl; discriminate|].
  destruct docs as [|d docs]; [simpl; discriminate|].
  simpl. intros _. eexists. split; [reflexivity|discriminate].
Qed.

(** C9: for a well-formed [productId] and a persistence layer that answers,
    store options fails 404 when no record references the product, and
    otherwise answers 200 with every record that references it, each with
    its product and its store looked up; and whenever the response is 200
    its list is not empty. *)
Theorem store_options_for_product (productId : string) (pid : ObjectId)
        (w : World) :
  castObjectId productId = Some pid -> answers w ->
  (filter (fun sp => N.eqb (sp_productId sp) pid) (storeProducts w) = [] ->
   getStoreOptionsForProduct productId w
   = (failure 404 "No store options found for this product.",
      issue StoreProductFind w))
  /\ (filter (fun sp => N.eqb (sp_productId sp) pid) (storeProducts w) <> [] ->
      getStoreOptionsForProduct productId w
      = (mkResponse 200 true None
           (storeProducts_populated
              (map (fun sp => mkPopulated sp
                                (find_product pid (products w))
                                (find_store (sp_storeId sp) (stores w)))
                   (filter (fun sp => N.eqb (sp_productId sp) pid)
                           (storeProducts w)))),
         issue StoreProductFind w))
  /\ (status (fst (getStoreOptionsForProduct productId w)) = 200 ->
      exists docs,
        payload (fst (getStoreOptionsForProduct productId w))
        = storeProducts_populated docs
        /\ docs <> []).
Proof.
  intros Hc Ha.
  assert (Hv : isValid (Some productId) = true)
    by exact (cast_isValid (Some productId) Hc).
  assert (Hrun : getStoreOptionsForProduct productId w
                 = match map (populate w)
                             (filter (fun sp => N.eqb (sp_productId sp) pid)
                                     (storeProducts w)) with
                   | [] => (failure 404 "No store options found for this product.",
                            issue StoreProductFind w)
                   | d :: docs =>
                       (mkResponse 200 true None (storeProducts_populated (d :: docs)),
                        issue StoreProductFind w)
                   end).
  { unfold getStoreOptionsForProduct.
    rewrite (isValid_truthy _ Hv), Hv. cbv beta iota delta [negb orb].
    unfold try_catch, getStoreOptionsForProduct_try, bind,
      StoreProduct_find_populate.
    rewrite db_call_answers by assumption.
    unfold with_cast.
    change (castId (Some productId)) with (castObjectId productId).
    rewrite Hc. cbv beta iota.
    change (storeProducts (issue StoreProductFind w)) with (storeProducts w).
    change (populate (issue StoreProductFind w)) with (populate w).
    destruct (map (populate w) _); reflexivity. }
  split; [|split].
  - intros Hnone. rewrite Hrun, Hnone. reflexivity.
  - intros Hsome. rewrite Hrun.
    assert (Hmap : map (populate w)
                       (filter (fun sp => N.eqb (sp_productId sp) pid)
                               (storeProducts w))
                   = map (fun sp => mkPopulated sp
                                      (find_product pid (products w))
                                      (find_store (sp_storeId sp) (stores w)))
                         (filter (fun sp => N.eqb (sp_productId sp) pid)
                                 (storeProducts w))).
    { apply map_ext_in. intros sp Hin. apply filter_In in Hin.
      destruct Hin as [_ Heq]. apply N.eqb_eq in Heq.
      unfold populate. rewrite Heq. reflexivity. }
    rewrite <- Hmap.
    destruct (filter _ (storeProducts w)) as [|sp rest]; [congruence|].
    reflexivity.
  - apply options_success_nonempty.
Qed.

(** ** Update *)

Lemma find_replace_first_same (oid : ObjectId) (new old : StoreProduct)
      (l : list StoreProduct) :
  sp_id new = oid -> find_storeProduct oid l = Some old ->
  find_storeProduct oid (replace_first oid new l) = Some new.
Proof.
  intros Hid. unfold find_storeProduct.
  induction l as [|sp l IH]; simpl; [discriminate|].
  destruct (N.eqb (sp_id sp) oid) eqn:E; simpl.
  - intros _. rewrite Hid, N.eqb_refl. reflexivity.
  - rewrite E. exact IH.
Qed.

Lemma find_replace_first_other (oid other : ObjectId) (new : StoreProduct)
      (l : list StoreProduct) :
  sp_id new = oid -> other <> oid ->
  find_storeProduct other (replace_first oid new l) = find_storeProduct other l.
Proof.
  intros Hid Hne. unfold find_storeProduct.
  induction l as [|sp l IH]; simpl; [reflexivity|].
  destruct (N.eqb (sp_id sp) oid) eqn:E; simpl.
  - apply N.eqb_eq in E.
    assert (E1 : N.eqb (sp_id new) other = false) by (apply N.eqb_neq; congruence).
    assert (E2 : N.eqb (sp_id sp) other = false) by (apply N.eqb_neq; congruence).
    rewrite E1, E2. reflexivity.
  - destruct (N.eqb (sp_id sp) other); [reflexivity|exact IH].
Qed.

Lemma find_storeProduct_id (oid : ObjectId) (l : list StoreProduct)
      (sp : StoreProduct) :
  find_storeProduct oid l = Some sp -> sp_id sp = oid.
Proof.
  unfold find_storeProduct. intros Hf. apply find_some in Hf.
  destruct Hf as [_ Heq]. apply N.eqb_eq in Heq. exact Heq.
Qed.

Lemma cast_supplied_inr (id : option string) (r : option ObjectId) :
  cast_supplied id = inr r ->
  match id with
  | Some s => exists oid, castObjectId s = Some oid /\ r = Some oid
  | None => r = None
  end.
Proof.
  unfold cast_supplied. destruct id as [s|]; [|intros [= <-]; reflexivity].
  destruct (castObjectId s) as [oid|]; [|discriminate].
  intros [= <-]. eauto.
Qed.

Lemma merge_updated_from (body : UpdateBody) (old : StoreProduct)
      (pid sid : option ObjectId) (t : Z) :
  cast_supplied (u_productId body) = inr pid ->
  cast_supplied (u_storeId body) = inr sid ->
  updated_from body old (merge old pid sid body t).
Proof.
  intros Hp Hs. apply cast_supplied_inr in Hp. apply cast_supplied_inr in Hs.
  unfold updated_from, merge. simpl.
  repeat split.
  - destruct (u_productId body); [|subst; reflexivity].
    destruct Hp as (oid & Hc & ->). exact Hc.
  - destruct (u_storeId body); [|subst; reflexivity].
    destruct Hs as (oid & Hc & ->). exact Hc.
Qed.

Lemma replace_first_length (oid : ObjectId) (new : StoreProduct)
      (l : list StoreProduct) :
  List.length (replace_first oid new l) = List.length l.
Proof.
  induction l as [|sp l IH]; simpl; [reflexivity|].
  destruct (N.eqb (sp_id sp) oid); simpl; congruence.
Qed.

(** C8: an update answered 200 found a record with the given id and left in
    its place a record with the same identity and creation instant in which
    each path supplied by the body has the supplied value and every other
    path ([productId], [storeId], [price], [stock], the three flags, the
    images) has the value it had; no other record, no product and no store
    changed.  (The last-update instant is the persistence layer's.) *)
Theorem update_is_partial (id : string) (body : UpdateBody) (w : World) :
  status (fst (updateStoreProduct id body w)) = 200 ->
  exists oid old new,
    castObjectId id = Some oid
    /\ find_storeProduct oid (storeProducts w) = Some old
    /\ find_storeProduct oid (storeProducts (snd (updateStoreProduct id body w)))
       = Some new
    /\ updated_from body old new
    /\ payload (fst (updateStoreProduct id body w))
       = storeProduct (Some (populate (snd (updateStoreProduct id body w)) new))
    /\ (forall other, other <> oid ->
          find_storeProduct other
            (storeProducts (snd (updateStoreProduct id body w)))
          = find_storeProduct other (storeProducts w))
    /\ List.length (storeProducts (snd (updateStoreProduct id body w)))
       = List.length (storeProducts w)
    /\ products (snd (updateStoreProduct id body w)) = products w
    /\ stores (snd (updateStoreProduct id body w)) = stores w.
Proof.
  unfold updateStoreProduct.
  destruct (isValid (Some id)); cbv beta iota delta [negb];
    [|simpl; discriminate].
  unfold try_catch, updateStoreProduct_try,
    StoreProduct_findByIdAndUpdate_populate, bind,
    StoreProduct_findByIdAndUpdate.
  unfold db_call.
  destruct (hd None (faults w)) as [e|]; [simpl; discriminate|].
  unfold with_cast, throw.
  change (castId (Some id)) with (castObjectId id).
  destruct (castObjectId id) as [oid|] eqn:Hoid; [|simpl; discriminate].
  destruct (cast_supplied (u_productId body)) as [e|pid] eqn:Hp;
    [simpl; discriminate|].
  destruct (cast_supplied (u_storeId body)) as [e|sid] eqn:Hs;
    [simpl; discriminate|].
  change (storeProducts (issue StoreProductFindByIdAndUpdate w))
    with (storeProducts w).
  destruct (find_storeProduct oid (storeProducts w)) as [old|] eqn:Hold;
    [|simpl; discriminate].
  cbv zeta.
  destruct (existsb _ (storeProducts w)); [simpl; discriminate|].
  unfold populate_updated, db_call.
  match goal with
  | |- context [hd None (faults (set_storeProducts ?l ?w0))] =>
      destruct (hd None (faults (set_storeProducts l w0))) as [e|]
  end; [simpl; discriminate|].
  intros _. simpl fst. simpl snd.
  change (now (issue StoreProductFindByIdAndUpdate w)) with (now w).
  set (new := merge old pid sid body (now w)).
  assert (Hid : sp_id new = oid).
  { unfold new, merge. simpl. apply (find_storeProduct_id _ _ Hold). }
  exists oid, old, new.
  split; [reflexivity|]. split; [exact Hold|].
  split; [simpl; apply find_replace_first_same with old; assumption|].
  split; [apply (merge_updated_from body old (now w) Hp Hs)|].
  split; [reflexivity|].
  split; [intros other Hne; simpl; apply find_replace_first_other; assumption|].
  split; [simpl; apply replace_first_length|].
  split; reflexivity.
Qed.

(** ** Pipelines *)

Lemma run_stages_app_stages (w : World) (s1 s2 : list Stage) (rows : list Row) :
  run_stages w (s1 ++ s2) rows = run_stages w s2 (run_stages w s1 rows).
Proof. unfold run_stages. apply fold_left_app. Qed.

Lemma push_when_falsy (field : option string) (stage : string -> Stage) :
  truthy field = false -> push_when_truthy field stage = [].
Proof.
  unfold truthy, push_when_truthy. destruct field as [s|]; [|reflexivity].
  intros ->. reflexivity.
Qed.

Lemma push_when_truthy_stage (field : option string) (stage : string -> Stage) :
  truthy field = true ->
  push_when_truthy field stage = [stage (or_else field "")].
Proof.
  unfold truthy, push_when_truthy. destruct field as [s|]; [|discriminate].
  intros ->. reflexivity.
Qed.

Lemma filter_unique {A} (key : A -> N) (k : N) (l : list A) :
  NoDup (map key l) ->
  filter (fun x => N.eqb (key x) k) l
  = match find (fun x => N.eqb (key x) k) l with
    | Some x => [x]
    | None => []
    end.
Proof.
  induction l as [|a l IH]; simpl; [reflexivity|].
  intros Hnd. inversion Hnd as [|? ? Hnotin Hnd']; subst.
  destruct (N.eqb (key a) k) eqn:E.
  - apply N.eqb_eq in E. f_equal.
    destruct (filter (fun x => N.eqb (key x) k) l) as [|b rest] eqn:F;
      [reflexivity|].
    exfalso. assert (Hb : In b (filter (fun x => N.eqb (key x) k) l))
      by (rewrite F; left; reflexivity).
    apply filter_In in Hb. destruct Hb as [Hin Hk]. apply N.eqb_eq in Hk.
    apply Hnotin. rewrite E, <- Hk. apply in_map. exact Hin.
  - apply IH. exact Hnd'.
Qed.

(** One record through the two lookups and their unwinds. *)
Lemma join_one (w : World) (sp : StoreProduct) :
  NoDup (map product_id (products w)) -> NoDup (map store_id (stores w)) ->
  map project
      (run_stages w [LookupProducts; UnwindProductDetails;
                     LookupStores; UnwindStoreDetails]
                  [mkRow sp Missing Missing])
  = match find_product (sp_productId sp) (products w),
          find_store (sp_storeId sp) (stores w) with
    | Some p, Some s => [expand sp p s]
    | _, _ => []
    end.
Proof.
  intros Hp Hs. unfold run_stages. simpl.
  unfold unwind_productDetails, lookup_products. simpl. rewrite app_nil_r.
  rewrite (filter_unique product_id (sp_productId sp) (products w) Hp).
  fold (find_product (sp_productId sp) (products w)).
  destruct (find_product (sp_productId sp) (products w)) as [p|]; simpl;
    [|reflexivity].
  unfold unwind_storeDetails, lookup_stores. simpl. rewrite app_nil_r.
  rewrite (filter_unique store_id (sp_storeId sp) (stores w) Hs).
  fold (find_store (sp_storeId sp) (stores w)).
  destruct (find_store (sp_storeId sp) (stores w)) as [s|]; reflexivity.
Qed.

Lemma run_stage_app_rows (w : World) (stage : Stage) (l1 l2 : list Row) :
  run_stage w stage (l1 ++ l2) = run_stage w stage l1 ++ run_stage w stage l2.
Proof.
  destruct stage; simpl;
    first [apply filter_app | apply map_app | apply flat_map_app].
Qed.

Lemma run_stages_app_rows (w : World) (stages : list Stage) (l1 l2 : list Row) :
  run_stages w stages (l1 ++ l2)
  = run_stages w stages l1 ++ run_stages w stages l2.
Proof.
  revert l1 l2. induction stages as [|stage stages IH]; intros l1 l2;
    [reflexivity|].
  unfold run_stages in *. simpl. rewrite run_stage_app_rows. apply IH.
Qed.

Lemma join_all (w : World) (sps : list StoreProduct) :
  NoDup (map product_id (products w)) -> NoDup (map store_id (stores w)) ->
  map project
      (run_stages w [LookupProducts; UnwindProductDetails;
                     LookupStores; UnwindStoreDetails]
                  (map (fun sp => mkRow sp Missing Missing) sps))
  = flat_map
      (fun sp =>
         match find_product (sp_productId sp) (products w),
               find_store (sp_storeId sp) (stores w) with
         | Some p, Some s => [expand sp p s]
         | _, _ => []
         end)
      sps.
Proof.
  intros Hp Hs. induction sps as [|sp sps IH]; [reflexivity|].
  cbn [map flat_map].
  change (mkRow sp Missing Missing :: map (fun sp => mkRow sp Missing Missing) sps)
    with ([mkRow sp Missing Missing]
            ++ map (fun sp => mkRow sp Missing Missing) sps).
  rewrite run_stages_app_rows, map_app, IH, (join_one w sp Hp Hs).
  reflexivity.
Qed.

Lemma push_category_accepted (field : option string) :
  forallb stage_accepted (push_when_truthy field MatchCategory) = true.
Proof.
  unfold push_when_truthy. destruct field as [s|]; [|reflexivity].
  destruct (negb (String.eqb s "")); reflexivity.
Qed.

Lemma push_search_accepted (field : option string) :
  forallb stage_accepted (push_when_truthy field MatchName)
  = pattern_accepted field.
Proof.
  unfold push_when_truthy, pattern_accepted. destruct field as [s|]; [|reflexivity].
  destruct (negb (String.eqb s "")); [|reflexivity].
  simpl. apply andb_true_r.
Qed.

Lemma pattern_accepted_falsy (field : option string) :
  truthy field = false -> pattern_accepted field = true.
Proof.
  unfold truthy, pattern_accepted. destruct field as [s|]; [|reflexivity].
  intros ->. reflexivity.
Qed.

Lemma list_pipeline_accepted (q : ListQuery) :
  forallb stage_accepted (list_pipeline q) = pattern_accepted (q_search q).
Proof.
  unfold list_pipeline. rewrite !forallb_app.
  rewrite push_category_accepted, push_search_accepted.
  destruct (has_keys (list_query q)); reflexivity.
Qed.

Lemma summary_pipeline_accepted (q : SummaryQuery) :
  forallb stage_accepted (summary_pipeline q) = pattern_accepted (sq_search q).
Proof.
  unfold summary_pipeline. rewrite !forallb_app.
  rewrite push_category_accepted, push_search_accepted. reflexivity.
Qed.

Lemma aggregate_project_answers (stages : list Stage) (w : World) :
  answers w -> forallb stage_accepted stages = true ->
  StoreProduct_aggregate_project stages w
  = (inr (map project
            (run_stages (issue StoreProductAggregate w) stages
               (initial_rows (issue StoreProductAggregate w)))),
     issue StoreProductAggregate w).
Proof.
  intros Ha Hacc. unfold StoreProduct_aggregate_project.
  rewrite db_call_answers by assumption. rewrite Hacc. reflexivity.
Qed.

Lemma aggregate_project_rejected (stages : list Stage) (w : World) :
  answers w -> forallb stage_accepted stages = false ->
  StoreProduct_aggregate_project stages w
  = (inl invalidRegexError, issue StoreProductAggregate w).
Proof.
  intros Ha Hacc. unfold StoreProduct_aggregate_project.
  rewrite db_call_answers by assumption. rewrite Hacc. reflexivity.
Qed.

Lemma aggregate_group_answers (stages : list Stage) (w : World) :
  answers w -> forallb stage_accepted stages = true ->
  StoreProduct_aggregate_group stages w
  = (inr (group_by_product
            (run_stages (issue StoreProductAggregate w) stages
               (initial_rows (issue StoreProductAggregate w)))),
     issue StoreProductAggregate w).
Proof.
  intros Ha Hacc. unfold StoreProduct_aggregate_group.
  rewrite db_call_answers by assumption. rewrite Hacc. reflexivity.
Qed.

Lemma aggregate_group_rejected (stages : list Stage) (w : World) :
  answers w -> forallb stage_accepted stages = false ->
  StoreProduct_aggregate_group stages w
  = (inl invalidRegexError, issue StoreProductAggregate w).
Proof.
  intros Ha Hacc. unfold StoreProduct_aggregate_group.
  rewrite db_call_answers by assumption. rewrite Hacc. reflexivity.
Qed.

Lemma list_query_no_criteria (q : ListQuery) :
  truthy (q_storeId q) = false ->
  is_literal_true (q_recommended q) = false ->
  is_literal_true (q_discount q) = false ->
  has_keys (list_query q) = false.
Proof. unfold list_query. intros -> -> ->. reflexivity. Qed.

(** C5: a list request without criteria (no [storeId], [recommended] and
    [discount] not the literal "true", no [category], no [search]), answered
    by the persistence layer, returns 200 with exactly the inner join: one
    document per record whose product and store both exist, in the order of
    the collection, carrying the product and the store documents in place
    of the two identifiers together with the price, stock, flags, images
    and timestamps of the record; records with a missing product or store
    are dropped. *)
Theorem list_without_criteria (q : ListQuery) (w : World) :
  truthy (q_storeId q) = false ->
  is_literal_true (q_recommended q) = false ->
  is_literal_true (q_discount q) = false ->
  truthy (q_category q) = false -> truthy (q_search q) = false ->
  NoDup (map product_id (products w)) -> NoDup (map store_id (stores w)) ->
  answers w ->
  getStoreProducts q w
  = (mkResponse 200 true None (storeProducts_aggregated (inner_join w)),
     issue StoreProductAggregate w).
Proof.
  intros Hsid Hrec Hdisc Hcat Hsearch Hp Hs Ha.
  unfold getStoreProducts, try_catch, getStoreProducts_try.
  rewrite Hsid. cbv beta iota delta [andb].
  unfold bind.
  rewrite (aggregate_project_answers (list_pipeline q) Ha)
    by (rewrite list_pipeline_accepted; apply pattern_accepted_falsy; assumption).
  unfold list_pipeline.
  rewrite (list_query_no_criteria q Hsid Hrec Hdisc).
  rewrite (push_when_falsy _ _ Hcat), (push_when_falsy _ _ Hsearch).
  simpl app. unfold ret. do 3 f_equal.
  apply (join_all (issue StoreProductAggregate w) (storeProducts w) Hp Hs).
Qed.

(** ** The flag criteria of a list request *)

Lemma filter_and {A} (p q : A -> bool) (l : list A) :
  filter (fun a => p a && q a) l = filter p (filter q l).
Proof.
  induction l as [|a l IH]; simpl; [reflexivity|].
  destruct (q a) eqn:Q; simpl; rewrite ?andb_false_r, ?andb_true_r.
  - destruct (p a); rewrite IH; reflexivity.
  - exact IH.
Qed.

Lemma filter_comm {A} (p q : A -> bool) (l : list A) :
  filter p (filter q l) = filter q (filter p l).
Proof.
  rewrite <- !filter_and. apply filter_ext. intros a. apply andb_comm.
Qed.

Lemma filter_all {A} (p : A -> bool) (l : list A) :
  (forall a, p a = true) -> filter p l = l.
Proof.
  intros Hp. induction l as [|a l IH]; simpl; [reflexivity|].
  rewrite Hp, IH. reflexivity.
Qed.

Lemma filter_map_stable {A} (p : A -> bool) (f : A -> A) (l : list A) :
  (forall a, p (f a) = p a) -> filter p (map f l) = map f (filter p l).
Proof.
  intros Hf. induction l as [|a l IH]; simpl; [reflexivity|].
  rewrite Hf. destruct (p a); simpl; rewrite IH; reflexivity.
Qed.

Lemma filter_stable_outputs {A} (p : A -> bool) (out : list A) (v : bool) :
  (forall b, In b out -> p b = v) ->
  filter p out = if v then out else [].
Proof.
  induction out as [|b out IH]; simpl; intros Hb; [destruct v; reflexivity|].
  rewrite (Hb b (or_introl eq_refl)).
  rewrite IH by (intros c Hc; apply Hb; right; exact Hc).
  destruct v; reflexivity.
Qed.

Lemma filter_flat_map_stable {A} (p : A -> bool) (f : A -> list A) (l : list A) :
  (forall a b, In b (f a) -> p b = p a) ->
  filter p (flat_map f l) = flat_map f (filter p l).
Proof.
  intros Hf. induction l as [|a l IH]; simpl; [reflexivity|].
  rewrite filter_app, IH, (@filter_stable_outputs A p (f a) (p a) (Hf a)).
  destruct (p a); reflexivity.
Qed.

(** A test on the store-product document commutes with every stage: the
    stages neither change that document nor mix documents. *)
Lemma run_stage_filter_doc (w : World) (stage : Stage)
      (P : StoreProduct -> bool) (rows : list Row) :
  run_stage w stage (filter (fun r => P (row_doc r)) rows)
  = filter (fun r => P (row_doc r)) (run_stage w stage rows).
Proof.
  destruct stage; simpl.
  - apply filter_comm.
  - symmetry. apply filter_map_stable. reflexivity.
  - symmetry. apply filter_flat_map_stable. intros a b Hin.
    unfold unwind_productDetails in Hin. apply in_map_iff in Hin.
    destruct Hin as (p & <- & _). reflexivity.
  - symmetry. apply filter_map_stable. reflexivity.
  - symmetry. apply filter_flat_map_stable. intros a b Hin.
    unfold unwind_storeDetails in Hin. apply in_map_iff in Hin.
    destruct Hin as (s & <- & _). reflexivity.
  - apply filter_comm.
  - apply filter_comm.
Qed.

Lemma run_stages_filter_doc (w : World) (stages : list Stage)
      (P : StoreProduct -> bool) (rows : list Row) :
  run_stages w stages (filter (fun r => P (row_doc r)) rows)
  = filter (fun r => P (row_doc r)) (run_stages w stages rows).
Proof.
  revert rows. induction stages as [|stage stages IH]; intros rows;
    [reflexivity|].
  unfold run_stages in *. simpl. rewrite run_stage_filter_doc. apply IH.
Qed.

Lemma no_keys_matches_all (f : Filter) (sp : StoreProduct) :
  has_keys f = false -> matches_filter f sp = true.
Proof.
  destruct f as [[?|] [?|] [?|] [?|]]; simpl; try discriminate. reflexivity.
Qed.

(** [if (Object.keys(query).length > 0) push({ $match: query })] amounts to
    matching in every case. *)
Lemma optional_match (w : World) (f : Filter) (rest : list Stage)
      (rows : list Row) :
  run_stages w ((if has_keys f then [Match f] else []) ++ rest) rows
  = run_stages w rest (filter (fun r => matches_filter f (row_doc r)) rows).
Proof.
  destruct (has_keys f) eqn:K; [reflexivity|].
  rewrite filter_all; [reflexivity|].
  intros r. apply no_keys_matches_all. exact K.
Qed.





(** ** The search summary *)

Lemma fold_min_spec (l : list Z) (a : Z) :
  In (fold_min a l) (a :: l) /\ forall x, In x (a :: l) -> fold_min a l <= x.
Proof.
  unfold fold_min. revert a. induction l as [|b l IH]; intros a; simpl.
  - split; [auto|]. intros x [<- | []]. lia.
  - destruct (IH (Z.min a b)) as [Hin Hle]. split.
    + destruct Hin as [Heq | Hin]; [|auto].
      rewrite <- Heq. destruct (Z.min_spec a b) as [[_ ->] | [_ ->]]; auto.
    + intros x Hx.
      assert (Hm : fold_left Z.min l (Z.min a b) <= Z.min a b)
        by (apply Hle; left; reflexivity).
      destruct Hx as [<- | [<- | Hx]]; [lia | lia |].
      apply Hle. right. exact Hx.
Qed.

Lemma fold_max_spec (l : list Z) (a : Z) :
  In (fold_max a l) (a :: l) /\ forall x, In x (a :: l) -> x <= fold_max a l.
Proof.
  unfold fold_max. revert a. induction l as [|b l IH]; intros a; simpl.
  - split; [auto|]. intros x [<- | []]. lia.
  - destruct (IH (Z.max a b)) as [Hin Hle]. split.
    + destruct Hin as [Heq | Hin]; [|auto].
      rewrite <- Heq. destruct (Z.max_spec a b) as [[_ ->] | [_ ->]]; auto.
    + intros x Hx.
      assert (Hm : Z.max a b <= fold_left Z.max l (Z.max a b))
        by (apply Hle; left; reflexivity).
      destruct Hx as [<- | [<- | Hx]]; [lia | lia |].
      apply Hle. right. exact Hx.
Qed.

(** A group yields at most one row, keyed by the group, whose bounds are
    attained and bound every price of the group. *)
Lemma summarise_spec (k : ObjectId) (rows : list Row) (s : ProductSummary) :
  In s (summarise k rows) ->
  summarise k rows = [s] /\ ps_id s = k
  /\ let prices := map (fun m => sp_price (row_doc m)) (group_members k rows) in
     In (ps_minPrice s) prices /\ In (ps_maxPrice s) prices
     /\ forall x, In x prices -> ps_minPrice s <= x <= ps_maxPrice s.
Proof.
  unfold summarise.
  destruct (group_members k rows) as [|r rest]; [contradiction|].
  intros [<- | []]. simpl.
  pose proof (fold_min_spec (map (fun m => sp_price (row_doc m)) rest)
                            (sp_price (row_doc r))) as [Hmin Hlo].
  pose proof (fold_max_spec (map (fun m => sp_price (row_doc m)) rest)
                            (sp_price (row_doc r))) as [Hmax Hhi].
  repeat split; auto.
Qed.

Lemma summarise_nonempty (k : ObjectId) (rows : list Row) :
  group_members k rows <> [] -> exists s, summarise k rows = [s].
Proof.
  unfold summarise. destruct (group_members k rows) as [|r rest];
    [intros Hne; congruence|]. intros _. eexists. reflexivity.
Qed.

Lemma group_key_members (k : ObjectId) (rows : list Row) :
  In k (map group_key rows) <-> group_members k rows <> [].
Proof.
  unfold group_members. split.
  - intros Hin. apply in_map_iff in Hin. destruct Hin as (r & Hk & Hin).
    assert (Hr : In r (filter (fun r => N.eqb (group_key r) k) rows)).
    { apply filter_In. split; [assumption|]. apply N.eqb_eq. exact Hk. }
    intros Hnil. rewrite Hnil in Hr. contradiction.
  - destruct (filter _ rows) as [|r rest] eqn:F; [intros Hne; congruence|].
    intros _.
    assert (Hr : In r (filter (fun r => N.eqb (group_key r) k) rows))
      by (rewrite F; left; reflexivity).
    apply filter_In in Hr. destruct Hr as [Hin Hk]. apply N.eqb_eq in Hk.
    apply in_map_iff. exists r. auto.
Qed.

Lemma group_ids (rows : list Row) (k : ObjectId) :
  In k (map ps_id (group_by_product rows)) <-> In k (map group_key rows).
Proof.
  unfold group_by_product. split.
  - intros Hin. apply in_map_iff in Hin. destruct Hin as (s & Hid & Hin).
    apply in_flat_map in Hin. destruct Hin as (k' & Hk' & Hs).
    apply summarise_spec in Hs. destruct Hs as (_ & Hid' & _).
    apply nodup_In in Hk'. rewrite <- Hid, Hid'. exact Hk'.
  - intros Hin.
    destruct (summarise_nonempty k rows) as [s Hs];
      [apply group_key_members; exact Hin|].
    assert (Hin' : In s (summarise k rows)) by (rewrite Hs; left; reflexivity).
    apply in_map_iff. exists s. split.
    + apply summarise_spec in Hin'. tauto.
    + apply in_flat_map. exists k. split; [|exact Hin'].
      apply nodup_In. exact Hin.
Qed.

Lemma NoDup_keyed_flat_map (f : ObjectId -> list ProductSummary)
      (keys : list ObjectId) :
  (forall k s, In s (f k) -> f k = [s] /\ ps_id s = k) ->
  NoDup keys -> NoDup (map ps_id (flat_map f keys)).
Proof.
  intros Hf Hnd. induction Hnd as [|k keys Hnotin Hnd IH]; simpl; [constructor|].
  rewrite map_app.
  destruct (f k) as [|s rest] eqn:F; [exact IH|].
  destruct (Hf k s) as [Hone Hid]; [rewrite F; left; reflexivity|].
  rewrite F in Hone. injection Hone as ->. simpl. constructor; [|exact IH].
  intros Hin. apply in_map_iff in Hin. destruct Hin as (s' & Hid' & Hin).
  apply in_flat_map in Hin. destruct Hin as (k' & Hk' & Hs').
  destruct (Hf k' s' Hs') as [_ Hk'']. apply Hnotin. congruence.
Qed.

Lemma group_ids_NoDup (rows : list Row) :
  NoDup (map ps_id (group_by_product rows)).
Proof.
  unfold group_by_product. apply NoDup_keyed_flat_map.
  - intros k s Hin. apply summarise_spec in Hin. tauto.
  - apply NoDup_nodup.
Qed.

(** The rows that reach the [$group] of the search summary. *)
Lemma in_push_category (w : World) (field : option string) (rows : list Row)
      (r : Row) :
  In r (run_stages w (push_when_truthy field MatchCategory) rows)
  <-> In r rows
      /\ (if truthy field
          then path_matches (category_is (or_else field "")) (productDetails r)
          else true) = true.
Proof.
  destruct (truthy field) eqn:T.
  - rewrite (push_when_truthy_stage _ _ T). unfold run_stages. simpl.
    apply filter_In.
  - rewrite (push_when_falsy _ _ T). unfold run_stages. simpl. tauto.
Qed.

Lemma in_push_search (w : World) (field : option string) (rows : list Row)
      (r : Row) :
  In r (run_stages w (push_when_truthy field MatchName) rows)
  <-> In r rows
      /\ (if truthy field
          then path_matches (name_matches (or_else field "")) (productDetails r)
          else true) = true.
Proof.
  destruct (truthy field) eqn:T.
  - rewrite (push_when_truthy_stage _ _ T). unfold run_stages. simpl.
    apply filter_In.
  - rewrite (push_when_falsy _ _ T). unfold run_stages. simpl. tauto.
Qed.

Lemma in_available_joined (w : World) (r : Row) :
  In r (run_stages w [Match (mkFilter None None None (Some true));
                      LookupProducts; UnwindProductDetails]
                   (initial_rows w))
  <-> exists sp p,
        r = mkRow sp (Embedded p) Missing
        /\ In sp (storeProducts w) /\ is_true (sp_isAvailable sp) = true
        /\ In p (products w) /\ product_id p = sp_productId sp.
Proof.
  unfold run_stages, initial_rows. simpl. split.
  - intros Hin. apply in_flat_map in Hin. destruct Hin as (r1 & Hr1 & Hin).
    apply in_map_iff in Hr1. destruct Hr1 as (r0 & <- & Hr0).
    apply filter_In in Hr0. destruct Hr0 as [Hr0 Hm].
    apply in_map_iff in Hr0. destruct Hr0 as (sp & <- & Hsp).
    unfold unwind_productDetails, lookup_products in Hin. simpl in Hin.
    apply in_map_iff in Hin. destruct Hin as (p & <- & Hp).
    apply filter_In in Hp. destruct Hp as [Hp Hid]. apply N.eqb_eq in Hid.
    exists sp, p. unfold matches_filter in Hm. simpl in Hm.
    assert (Ha : is_true (sp_isAvailable sp) = true)
      by (destruct (sp_isAvailable sp) as [[|]|]; simpl in *; congruence).
    auto.
  - intros (sp & p & -> & Hsp & Havail & Hp & Hid).
    apply in_flat_map. exists (lookup_products w (mkRow sp Missing Missing)).
    split.
    + apply in_map. apply filter_In. split.
      * apply in_map_iff. exists sp. auto.
      * unfold matches_filter. simpl.
        destruct (sp_isAvailable sp) as [[|]|]; simpl in *; congruence.
    + unfold unwind_productDetails, lookup_products. simpl.
      apply in_map_iff. exists p. split; [reflexivity|].
      apply filter_In. split; [assumption|]. apply N.eqb_eq. exact Hid.
Qed.

Lemma in_summary_rows (w : World) (q : SummaryQuery) (r : Row) :
  In r (run_stages w (summary_pipeline q) (initial_rows w))
  <-> exists sp p,
        r = mkRow sp (Embedded p) Missing
        /\ In sp (storeProducts w) /\ is_true (sp_isAvailable sp) = true
        /\ In p (products w) /\ product_id p = sp_productId sp
        /\ product_selected q p = true.
Proof.
  unfold summary_pipeline.
  rewrite !run_stages_app_stages, in_push_search, in_push_category,
    in_available_joined.
  unfold product_selected, category_is, name_matches. split.
  - intros [[(sp & p & -> & Hsp & Ha & Hp & Hid) Hc] Hn]. simpl in Hc, Hn.
    exists sp, p. rewrite Hc, Hn. auto 10.
  - intros (sp & p & -> & Hsp & Ha & Hp & Hid & Hsel).
    apply andb_true_iff in Hsel. destruct Hsel as [Hc Hn]. simpl.
    split; [split|]; [|exact Hc|exact Hn]. exists sp, p. auto 10.
Qed.

Lemma group_docs (w : World) (q : SummaryQuery) (k : ObjectId)
      (sp : StoreProduct) :
  (exists r,
      In r (group_members k (run_stages w (summary_pipeline q) (initial_rows w)))
      /\ row_doc r = sp)
  <-> In sp (summary_group w q k).
Proof.
  unfold group_members, summary_group. split.
  - intros (r & Hin & <-). apply filter_In in Hin. destruct Hin as [Hin Hk].
    apply in_summary_rows in Hin.
    destruct Hin as (sp & p & -> & Hsp & Ha & Hp & Hid & Hsel).
    unfold group_key in Hk. simpl in Hk |- *.
    apply filter_In. split; [assumption|].
    unfold is_true in Ha. rewrite Ha, Hk. simpl.
    apply existsb_exists. exists p. split; [assumption|].
    rewrite Hid, N.eqb_refl, Hsel. reflexivity.
  - intros Hin. apply filter_In in Hin. destruct Hin as [Hsp Hc].
    apply andb_true_iff in Hc. destruct Hc as [Hc He].
    apply andb_true_iff in Hc. destruct Hc as [Ha Hk].
    apply existsb_exists in He. destruct He as (p & Hp & Hc).
    apply andb_true_iff in Hc. destruct Hc as [Hid Hsel].
    apply N.eqb_eq in Hid.
    exists (mkRow sp (Embedded p) Missing). split; [|reflexivity].
    apply filter_In. split; [|exact Hk].
    apply in_summary_rows. exists sp, p. auto 10.
Qed.

Lemma group_prices (w : World) (q : SummaryQuery) (k : ObjectId) (x : Z) :
  In x (map (fun m => sp_price (row_doc m))
            (group_members k (run_stages w (summary_pipeline q) (initial_rows w))))
  <-> In x (map sp_price (summary_group w q k)).
Proof.
  rewrite !in_map_iff. split.
  - intros (r & <- & Hin). exists (row_doc r). split; [reflexivity|].
    apply group_docs. exists r. auto.
  - intros (sp & <- & Hin). apply group_docs in Hin.
    destruct Hin as (r & Hin & <-). exists r. auto.
Qed.

Lemma group_nonempty (w : World) (q : SummaryQuery) (k : ObjectId) :
  group_members k (run_stages w (summary_pipeline q) (initial_rows w)) <> []
  <-> summary_group w q k <> [].
Proof.
  split.
  - destruct (group_members k _) as [|r rest] eqn:G; [intros Hne; congruence|].
    intros _ Hnil.
    assert (Hin : In (row_doc r) (summary_group w q k)).
    { apply group_docs. exists r. rewrite G. split; [left|]; reflexivity. }
    rewrite Hnil in Hin. contradiction.
  - destruct (summary_group w q k) as [|sp rest] eqn:G; [intros Hne; congruence|].
    intros _ Hnil.
    assert (Hin : In sp (summary_group w q k)) by (rewrite G; left; reflexivity).
    apply group_docs in Hin. destruct Hin as (r & Hin & _).
    rewrite Hnil in Hin. contradiction.
Qed.

(** C7: the search summary, answered by the persistence layer for a
    request whose [search] text, when supplied, is a pattern the server
    accepts, returns 200 with rows that come from the available records only
    ([isAvailable == true]) whose product exists and satisfies the optional
    criteria: the rows have pairwise distinct product ids, there is a row
    for a product exactly when that product has such a record, and in every
    row [minPrice] and [maxPrice] are prices of records of that product and
    bound the prices of all of them (they are their minimum and
    maximum). *)
Theorem search_summary_groups (q : SummaryQuery) (w : World) :
  answers w ->
  pattern_accepted (sq_search q) = true ->
  exists rows,
    getProductSearchSummary q w
    = (mkResponse 200 true None (productSummaries rows),
       issue StoreProductAggregate w)
    /\ NoDup (map ps_id rows)
    /\ (forall k, In k (map ps_id rows) <-> summary_group w q k <> [])
    /\ (forall r, In r rows ->
          let prices := map sp_price (summary_group w q (ps_id r)) in
          In (ps_minPrice r) prices /\ In (ps_maxPrice r) prices
          /\ forall x, In x prices -> ps_minPrice r <= x <= ps_maxPrice r).
Proof.
  intros Ha Hacc.
  exists (group_by_product
            (run_stages w (summary_pipeline q) (initial_rows w))).
  split; [|split; [|split]].
  - unfold getProductSearchSummary, try_catch, getProductSearchSummary_try,
      bind.
    rewrite (aggregate_group_answers (summary_pipeline q) Ha)
      by (rewrite summary_pipeline_accepted; exact Hacc).
    reflexivity.
  - apply group_ids_NoDup.
  - intros k. rewrite group_ids, group_key_members. apply group_nonempty.
  - intros r Hin. unfold group_by_product in Hin.
    apply in_flat_map in Hin. destruct Hin as (k & _ & Hin).
    apply summarise_spec in Hin. destruct Hin as (_ & Hid & Hmin & Hmax & Hall).
    rewrite Hid. cbv zeta. split; [|split].
    + apply group_prices. exact Hmin.
    + apply group_prices. exact Hmax.
    + intros x Hx. apply Hall. apply group_prices. exact Hx.
Qed.

End Properties.

(** * The properties on the sample data *)

Import Sample.

Lemma world_healthy : healthy world.
Proof. intros e []. Defined.

(** An identifier that is not one, in each operation. *)
Lemma malformed_identifier_rejected_witness :
  isValid (Some "not-an-id") = false
  /\ (exists msg,
         createStoreProduct
           (mkCreateBody (Some "not-an-id") (Some north_id) (Some 1) (Some 1)
                         None None None None) world
         = (failure 400 msg, world))
  /\ getStoreProducts (mkListQuery (Some "not-an-id") None None None None) world
     = (failure 400 "Invalid Store ID format.", world)
  /\ getStoreProductById "not-an-id" world
     = (failure 400 "Invalid Store Product ID format.", world)
  /\ updateStoreProduct "not-an-id"
       (mkUpdateBody None None (Some 1) None None None None None) world
     = (failure 400 "Invalid Store Product ID format.", world)
  /\ deleteStoreProduct "not-an-id" world
     = (failure 400 "Invalid Store Product ID format.", world)
  /\ getStoreOptionsForProduct "not-an-id" world
     = (failure 400 "Valid Product ID is required.", world).
Proof.
  destruct (@malformed_identifier_rejected hexDriver "not-an-id" world eq_refl)
    as (Hc & Hl & Hg & Hu & Hd & Ho).
  split; [reflexivity|].
  split; [apply Hc; left; reflexivity|].
  split; [apply Hl; [reflexivity|discriminate]|].
  split; [exact Hg|]. split; [apply Hu|]. split; [exact Hd|exact Ho].
Defined.

(** C1 as stated fails for the list operation: an empty [storeId] is
    supplied and is not an identifier, yet the request is answered 200 after
    an aggregation has been issued. *)
Lemma list_accepts_empty_storeId :
  isValid (Some "") = false
  /\ status (fst (getStoreProducts
                    (mkListQuery (Some "") None None None None) world)) = 200
  /\ journal (snd (getStoreProducts
                     (mkListQuery (Some "") None None None None) world))
     = [StoreProductAggregate].
Proof. repeat split. Qed.



(** A product that does not exist, then a store that does not. *)
Lemma create_not_found_witness :
  (let b := mkCreateBody (Some "cccccccccccccccccccccccc") (Some north_id)
                         (Some 1) (Some 1) None None None None in
   createStoreProduct b world
   = (failure 404 "Common Product not found.",
      issue StoreFindById (issue ProductFindById world)))
  /\ (let b := mkCreateBody (Some "cccccccccccccccccccccccc")
                            (Some "dddddddddddddddddddddddd")
                            (Some 1) (Some 1) None None None None in
      createStoreProduct b world
      = (failure 404 "Common Product not found.",
         issue StoreFindById (issue ProductFindById world)))
  /\ (let b := mkCreateBody (Some apple_id) (Some "dddddddddddddddddddddddd")
                            (Some 1) (Some 1) None None None None in
      createStoreProduct b world
      = (failure 404 "Store not found.",
         issue StoreFindById (issue ProductFindById world))).
Proof.
  split; [|split].
  - apply (@create_not_found hexDriver
             (mkCreateBody (Some "cccccccccccccccccccccccc") (Some north_id)
                           (Some 1) (Some 1) None None None None)
             world (oid "cccccccccccccccccccccccc") (oid north_id));
      [reflexivity | reflexivity | discriminate | discriminate
       | exact world_healthy | reflexivity].
  - apply (@create_not_found hexDriver
             (mkCreateBody (Some "cccccccccccccccccccccccc")
                           (Some "dddddddddddddddddddddddd")
                           (Some 1) (Some 1) None None None None)
             world (oid "cccccccccccccccccccccccc")
             (oid "dddddddddddddddddddddddd"));
      [reflexivity | reflexivity | discriminate | discriminate
       | exact world_healthy | reflexivity].
  - apply (@create_not_found hexDriver
             (mkCreateBody (Some apple_id) (Some "dddddddddddddddddddddddd")
                           (Some 1) (Some 1) None None None None)
             world (oid apple_id) (oid "dddddddddddddddddddddddd"));
      [reflexivity | reflexivity | discriminate | discriminate
       | exact world_healthy | discriminate | reflexivity].
Defined.

(** Apple is already sold in the south store. *)
Lemma create_duplicate_conflict_witness :
  let b := mkCreateBody (Some apple_id) (Some south_id) (Some 90) (Some 4)
                        None None None None in
  (exists sp, In sp (storeProducts world)
              /\ sp_productId sp = oid apple_id
              /\ sp_storeId sp = oid south_id)
  /\ storeProducts (snd (createStoreProduct b world)) = storeProducts world
  /\ fst (createStoreProduct b world)
     = failure 409 "This product already exists in this store.".
Proof.
  intros b.
  assert (Htaken : exists sp, In sp (storeProducts world)
                              /\ sp_productId sp = oid apple_id
                              /\ sp_storeId sp = oid south_id).
  { exists apple_south. split; [right; left; reflexivity|].
    split; reflexivity. }
  destruct (@create_duplicate_conflict hexDriver b world (oid apple_id)
              (oid south_id) eq_refl eq_refl Htaken) as [Hsame Hconflict].
  split; [exact Htaken|]. split; [exact Hsame|].
  apply Hconflict;
    [discriminate | discriminate | exact world_healthy
     | discriminate | discriminate].
Defined.

Lemma sample_product_ids : NoDup (map product_id (products world)).
Proof.
  repeat constructor; simpl; intros Hin;
    repeat destruct Hin as [Hin|Hin]; try discriminate Hin; exact Hin.
Defined.

Lemma sample_store_ids : NoDup (map store_id (stores world)).
Proof.
  repeat constructor; simpl; intros Hin;
    repeat destruct Hin as [Hin|Hin]; try discriminate Hin; exact Hin.
Defined.

(** The three sample records all have their product and their store. *)
Lemma list_without_criteria_witness :
  getStoreProducts (mkListQuery None None (Some "false") (Some "1") None) world
  = (mkResponse 200 true None
       (storeProducts_aggregated
          [expand apple_north apple north; expand apple_south apple south;
           expand bread_north bread north]),
     issue StoreProductAggregate world).
Proof.
  apply (@list_without_criteria hexDriver
           (mkListQuery None None (Some "false") (Some "1") None) world);
    [reflexivity | reflexivity | reflexivity | reflexivity | reflexivity
     | exact sample_product_ids | exact sample_store_ids | reflexivity].
Defined.


(** The summary of the sample world for the products whose name contains
    "APP", whatever the case. *)
Lemma search_summary_groups_witness :
  let q := mkSummaryQuery None (Some "APP") in
  answers world
  /\ pattern_accepted (sq_search q) = true
  /\ exists rows,
      getProductSearchSummary q world
      = (mkResponse 200 true None (productSummaries rows),
         issue StoreProductAggregate world)
      /\ NoDup (map ps_id rows)
      /\ (forall k, In k (map ps_id rows) <-> summary_group world q k <> [])
      /\ (forall r, In r rows ->
            let prices := map sp_price (summary_group world q (ps_id r)) in
            In (ps_minPrice r) prices /\ In (ps_maxPrice r) prices
            /\ forall x, In x prices -> ps_minPrice r <= x <= ps_maxPrice r).
Proof.
  intros q.
  split; [reflexivity|]. split; [reflexivity|].
  apply (@search_summary_groups hexDriver q world); reflexivity.
Defined.

(** Only the price of the first record is supplied. *)
Lemma update_is_partial_witness :
  let body := mkUpdateBody None None (Some 99) None None None None None in
  status (fst (updateStoreProduct first_id body world)) = 200
  /\ exists oid old new,
      hexObjectId first_id = Some oid
      /\ find_storeProduct oid (storeProducts world) = Some old
      /\ find_storeProduct oid
           (storeProducts (snd (updateStoreProduct first_id body world)))
         = Some new
      /\ updated_from body old new
      /\ payload (fst (updateStoreProduct first_id body world))
         = storeProduct
             (Some (populate (snd (updateStoreProduct first_id body world)) new))
      /\ (forall other, other <> oid ->
            find_storeProduct other
              (storeProducts (snd (updateStoreProduct first_id body world)))
            = find_storeProduct other (storeProducts world))
      /\ List.length
           (storeProducts (snd (updateStoreProduct first_id body world)))
         = List.length (storeProducts world)
      /\ products (snd (updateStoreProduct first_id body world))
         = products world
      /\ stores (snd (updateStoreProduct first_id body world)) = stores world.
Proof.
  intros body. split; [reflexivity|].
  apply (@update_is_partial hexDriver first_id body world). reflexivity.
Defined.

(** A product nobody sells, then apple. *)
Lemma store_options_for_product_witness :
  getStoreOptionsForProduct "cccccccccccccccccccccccc" world
  = (failure 404 "No store options found for this product.",
     issue StoreProductFind world)
  /\ getStoreOptionsForProduct apple_id world
     = (mkResponse 200 true None
          (storeProducts_populated
             [mkPopulated apple_north (Some apple) (Some north);
              mkPopulated apple_south (Some apple) (Some south)]),
        issue StoreProductFind world)
  /\ exists docs,
      payload (fst (getStoreOptionsForProduct apple_id world))
      = storeProducts_populated docs
      /\ docs <> [].
Proof.
  destruct (@store_options_for_product hexDriver "cccccccccccccccccccccccc"
              (oid "cccccccccccccccccccccccc") world eq_refl eq_refl)
    as (Hnone & _ & _).
  destruct (@store_options_for_product hexDriver apple_id (oid apple_id) world
              eq_refl eq_refl) as (_ & Hsome & Hnonempty).
  split; [apply Hnone; reflexivity|].
  split; [apply Hsome; discriminate|].
  apply Hnonempty. reflexivity.
Defined.

(** An empty [productId]; a missing price; a price and a stock of 0. *)
Lemma required_fields_check_witness :
  createStoreProduct
    (mkCreateBody (Some "") (Some north_id) (Some 1) (Some 1)
                  None None None None) world
  = (failure 400 "Missing required fields for StoreProduct.", world)
  /\ fst (createStoreProduct
            (mkCreateBody (Some bread_id) (Some south_id) None (Some 0)
                          None None None None) world)
     = failure 400 "Missing required fields for StoreProduct."
  /\ fst (createStoreProduct
            (mkCreateBody (Some bread_id) (Some south_id) (Some 0) (Some 0)
                          None None None None) world)
     <> failure 400 "Missing required fields for StoreProduct."
  /\ exists calls,
      journal (snd (createStoreProduct
                      (mkCreateBody (Some bread_id) (Some south_id)
                                    (Some 0) (Some 0) None None None None)
                      world))
      = (calls ++ ProductFindById :: journal world)%list.
Proof.
  destruct (@required_fields_check hexDriver
              (mkCreateBody (Some "") (Some north_id) (Some 1) (Some 1)
                            None None None None) world) as (Hempty & _ & _).
  destruct (@required_fields_check hexDriver
              (mkCreateBody (Some bread_id) (Some south_id) None (Some 0)
                            None None None None) world) as (_ & Habsent & _).
  destruct (@required_fields_check hexDriver
              (mkCreateBody (Some bread_id) (Some south_id) (Some 0) (Some 0)
                            None None None None) world)
    as (_ & Hzero & Hproceeds).
  split; [apply Hempty; left; reflexivity|].
  split; [apply (Habsent eq_refl eq_refl); left; reflexivity|].
  split.
  - intros Hmissing. apply (Hzero eq_refl eq_refl) in Hmissing.
    destruct Hmissing as [Hnone | Hnone]; discriminate Hnone.
  - apply Hproceeds; [reflexivity | reflexivity | discriminate | discriminate].
Defined.

(** A price and a stock of 0 are stored as such. *)
Example create_with_zero_price :
  fst (createStoreProduct
         (mkCreateBody (Some bread_id) (Some south_id) (Some 0) (Some 0)
                       None None None None) world)
  = mkResponse 201 true (Some "Store Product created successfully.")
      (storeProduct
         (Some (mkPopulated
                  (mkStoreProduct 4%N (oid bread_id) (oid south_id) 0 0
                                  None None None [] 50 50)
                  (Some bread) (Some south)))).
Proof. reflexivity. Qed.

(** A CastError raised inside create is answered 400. *)
Example create_cast_error :
  fst (createStoreProduct
         (mkCreateBody (Some bread_id) (Some south_id) (Some 1) (Some 1)
                       None None None None) (failing (castError "x")))
  = failure 400 "Invalid ID format in request body.".
Proof. reflexivity. Qed.

(** * The controller as a whole *)

Section Whole.

Context `{Driver}.

Local Open Scope list_scope.

(** ** Create, case by case *)

Lemma find_storeProduct_app_fresh (l : list StoreProduct) (doc : StoreProduct) :
  existsb (fun sp => N.eqb (sp_id sp) (sp_id doc)) l = false ->
  find_storeProduct (sp_id doc) (l ++ [doc]) = Some doc.
Proof.
  unfold find_storeProduct. induction l as [|sp l IH]; simpl.
  - intros _. rewrite N.eqb_refl. reflexivity.
  - intros Hfresh. apply orb_false_iff in Hfresh. destruct Hfresh as [Hsp Hl].
    rewrite Hsp. apply IH. exact Hl.
Qed.

Lemma guards_passed (b : CreateBody) :
  missing_required b = false ->
  exists price stock, b_price b = Some price /\ b_stock b = Some stock.
Proof.
  unfold missing_required. intros Hm.
  apply orb_false_iff in Hm. destruct Hm as [Hm Hstock].
  apply orb_false_iff in Hm. destruct Hm as [_ Hprice].
  destruct (b_price b) as [price|]; [|discriminate].
  destruct (b_stock b) as [stock|]; [|discriminate].
  eauto.
Qed.

(** Every run of create ends in one of the listed ways. *)
Lemma create_run_pair (b : CreateBody) (w : World) :
  let (r, w') := createStoreProduct b w in create_ends b w r w'.
Proof.
  unfold createStoreProduct, try_catch, createStoreProduct_try.
  destruct (missing_required b) eqn:Hm; [apply ends_missing; exact Hm|].
  destruct (isValid (b_productId b)) eqn:Hvp;
    [|apply ends_invalid; auto].
  destruct (isValid (b_storeId b)) eqn:Hvs;
    [|apply ends_invalid; auto].
  cbv beta iota delta [negb orb].
  apply isValid_castId in Hvp. destruct Hvp as [pid Hp].
  apply isValid_castId in Hvs. destruct Hvs as [sid Hs].
  destruct (guards_passed b Hm) as (price & stock & Hprice & Hstock).
  unfold bind, Product_findById, db_call.
  destruct (hd None (faults w)) as [e|] eqn:F1;
    [apply ends_product_call; exact F1|].
  unfold with_cast at 1. rewrite Hp. cbv beta iota.
  unfold Store_findById, db_call. cbv beta iota.
  destruct (hd None (faults (issue ProductFindById w))) as [e|] eqn:F2;
    [apply ends_store_call; assumption|].
  unfold with_cast at 1. rewrite Hs. cbv beta iota.
  change (products (issue ProductFindById w)) with (products w).
  change (stores (issue StoreFindById (issue ProductFindById w)))
    with (stores w).
  destruct (find_product pid (products w)) as [p|] eqn:Fp;
    [|apply ends_no_product with pid; assumption].
  destruct (find_store sid (stores w)) as [s|] eqn:Fs;
    [|apply ends_no_store with pid sid; try assumption; rewrite Fp; discriminate].
  assert (Hpne : find_product pid (products w) <> None)
    by (rewrite Fp; discriminate).
  assert (Hsne : find_store sid (stores w) <> None)
    by (rewrite Fs; discriminate).
  unfold new_StoreProduct, StoreProduct_save, db_call. cbv beta iota.
  destruct (hd None (faults (issue StoreFindById (issue ProductFindById w))))
    as [e|] eqn:F3;
    [apply ends_save_call with pid sid; assumption|].
  unfold validate. cbn [d_productId d_storeId d_price d_stock d_id
                        d_isAvailable d_recommended d_discount
                        d_storeSpecificImages].
  rewrite Hp, Hs, Hprice, Hstock.
  change (storeProducts (issue StoreProductSave
                           (issue StoreFindById (issue ProductFindById w))))
    with (storeProducts w).
  change (storeProducts (issue StoreFindById (issue ProductFindById w)))
    with (storeProducts w).
  change (now (issue StoreProductSave
                 (issue StoreFindById (issue ProductFindById w))))
    with (now w).
  fold (new_document b pid sid price stock w).
  assert (Hid : sp_id (new_document b pid sid price stock w)
                = fresh_id (storeProducts w)) by reflexivity.
  rewrite Hid, fresh_id_unused.
  destruct (existsb (same_pair (new_document b pid sid price stock w))
                    (storeProducts w)) eqn:Hpair;
    [apply ends_pair_taken with pid sid price stock; assumption|].
  unfold StoreProduct_findById_populate_oid, db_call. cbn [d_id].
  match goal with
  | |- context [hd None (faults (set_storeProducts ?l ?w0))] =>
      destruct (hd None (faults (set_storeProducts l w0))) as [e|] eqn:F4
  end.
  - apply ends_reread; assumption.
  - cbv beta iota. unfold ret.
    match goal with
    | |- context [find_storeProduct ?i ?l] =>
        replace (find_storeProduct i l)
          with (Some (new_document b pid sid price stock w))
    end.
    + cbn [option_map]. unfold populate.
      cbn [products stores issue set_storeProducts sp_productId sp_storeId
           new_document].
      apply ends_created; assumption.
    + symmetry. rewrite <- Hid.
      apply (find_storeProduct_app_fresh (storeProducts w)).
      rewrite Hid. apply fresh_id_unused.
Qed.

Lemma create_run (b : CreateBody) (w : World) :
  create_ends b w (fst (createStoreProduct b w)) (snd (createStoreProduct b w)).
Proof.
  pose proof (create_run_pair b w) as Hrun.
  destruct (createStoreProduct b w) as [r w']. exact Hrun.
Qed.

Lemma healthy_after_calls (ops : list DbOp) (w : World) :
  healthy w -> healthy (after_calls ops w).
Proof.
  unfold after_calls. revert w. induction ops as [|op ops IH]; intros w Hw;
    [exact Hw|].
  simpl. apply IH. apply healthy_issue. exact Hw.
Qed.

Lemma healthy_after_answers (ops : list DbOp) (w : World) (e : Error) :
  healthy w -> hd None (faults (after_calls ops w)) <> Some e.
Proof.
  intros Hw Hhd.
  pose proof (healthy_answers (healthy_after_calls ops Hw)) as Ha.
  unfold answers in Ha. congruence.
Qed.

Lemma pair_free (l : list StoreProduct) (doc : StoreProduct) :
  (forall sp, In sp l -> pair_of sp <> pair_of doc) ->
  existsb (same_pair doc) l = false.
Proof.
  intros Hfree. destruct (existsb (same_pair doc) l) eqn:E; [|reflexivity].
  apply existsb_exists in E. destruct E as (sp & Hin & Hsame).
  unfold same_pair in Hsame. apply andb_true_iff in Hsame.
  destruct Hsame as [Hp Hs]. apply N.eqb_eq in Hp. apply N.eqb_eq in Hs.
  exfalso. apply (Hfree sp Hin). unfold pair_of. congruence.
Qed.

Lemma pair_not_free (l : list StoreProduct) (doc : StoreProduct) :
  existsb (same_pair doc) l = true ->
  exists sp, In sp l /\ pair_of sp = pair_of doc.
Proof.
  intros E. apply existsb_exists in E. destruct E as (sp & Hin & Hsame).
  unfold same_pair in Hsame. apply andb_true_iff in Hsame.
  destruct Hsame as [Hp Hs]. apply N.eqb_eq in Hp. apply N.eqb_eq in Hs.
  exists sp. split; [assumption|]. unfold pair_of. congruence.
Qed.

(** The successful run of create. *)
Lemma create_success_run (b : CreateBody) (w : World) (pid sid : ObjectId)
      (price stock : Z) (p : Product) (s : Store) :
  castId (b_productId b) = Some pid -> castId (b_storeId b) = Some sid ->
  b_price b = Some price -> b_stock b = Some stock ->
  healthy w ->
  find_product pid (products w) = Some p ->
  find_store sid (stores w) = Some s ->
  (forall sp, In sp (storeProducts w) -> pair_of sp <> (pid, sid)) ->
  createStoreProduct b w
  = (mkResponse 201 true (Some "Store Product created successfully.")
       (storeProduct
          (Some (mkPopulated (new_document b pid sid price stock w)
                             (Some p) (Some s)))),
     issue StoreProductFindById
       (set_storeProducts
          (storeProducts w ++ [new_document b pid sid price stock w])
          (after_calls [ProductFindById; StoreFindById; StoreProductSave] w))).
Proof.
  intros Hp Hs Hprice Hstock Hw Fp Fs Hfree.
  assert (Hm : missing_required b = false).
  { apply passes_guards; try (eapply cast_isValid; eassumption);
      congruence. }
  assert (Hpair : existsb (same_pair (new_document b pid sid price stock w))
                          (storeProducts w) = false)
    by (apply pair_free; exact Hfree).
  pose proof (create_run b w) as Hrun.
  rewrite (surjective_pairing (createStoreProduct b w)).
  inversion Hrun as
      [Hm' | Hm' Hbad | e Hf | e Hf1 Hf2 | pid' Hp' Fp' | pid' sid' Hp' Hs' Fp' Fs'
       | e pid' sid' Hp' Hs' Fp' Fs' Hf | pid' sid' price' stock' Hp' Hs' Hpr' Hst' Fp' Fs' Hpair'
       | e pid' sid' price' stock' Hp' Hs' Hpr' Hst' Fp' Fs' Hpair' Hf
       | pid' sid' price' stock' Hp' Hs' Hpr' Hst' Fp' Fs' Hpair' Hf].
  - congruence.
  - exfalso. rewrite (cast_isValid _ Hp), (cast_isValid _ Hs) in Hbad.
    destruct Hbad; discriminate.
  - exfalso. exact (healthy_after_answers [] Hw Hf).
  - exfalso. exact (healthy_after_answers [ProductFindById] Hw Hf2).
  - congruence.
  - congruence.
  - exfalso. exact (healthy_after_answers [ProductFindById; StoreFindById] Hw Hf).
  - congruence.
  - exfalso.
    exact (healthy_after_answers
             [ProductFindById; StoreFindById; StoreProductSave] Hw Hf).
  - assert (pid' = pid) by congruence. assert (sid' = sid) by congruence.
    assert (price' = price) by congruence.
    assert (stock' = stock) by congruence. subst.
    rewrite Fp, Fs. reflexivity.
Qed.


Lemma catch_no_payload (e : Error) :
  payload (createStoreProduct_catch e) = NoPayload.
Proof.
  unfold createStoreProduct_catch.
  destruct (is_duplicate_pair e); [reflexivity|].
  destruct (is_cast_error e); reflexivity.
Qed.

(** The run of create on a pair that is taken. *)
Lemma create_conflict_run (b : CreateBody) (w : World) (pid sid : ObjectId) :
  castId (b_productId b) = Some pid -> castId (b_storeId b) = Some sid ->
  b_price b <> None -> b_stock b <> None ->
  healthy w ->
  find_product pid (products w) <> None ->
  find_store sid (stores w) <> None ->
  (exists sp, In sp (storeProducts w) /\ pair_of sp = (pid, sid)) ->
  createStoreProduct b w
  = (failure 409 "This product already exists in this store.",
     after_calls [ProductFindById; StoreFindById; StoreProductSave] w).
Proof.
  intros Hp Hs Hprice Hstock Hw Fp Fs (sp & Hin & Hsp).
  assert (Hm : missing_required b = false).
  { apply passes_guards; try (eapply cast_isValid; eassumption); assumption. }
  assert (Htaken : forall price stock,
             existsb (same_pair (new_document b pid sid price stock w))
                     (storeProducts w) = true).
  { intros price stock. apply existsb_exists. exists sp. split; [assumption|].
    unfold pair_of in Hsp. injection Hsp as Hp' Hs'.
    unfold same_pair. simpl. rewrite Hp', Hs', !N.eqb_refl. reflexivity. }
  pose proof (create_run b w) as Hrun.
  rewrite (surjective_pairing (createStoreProduct b w)).
  inversion Hrun as
      [Hm' | Hm' Hbad | e Hf | e Hf1 Hf2 | pid' Hp' Fp' | pid' sid' Hp' Hs' Fp' Fs'
       | e pid' sid' Hp' Hs' Fp' Fs' Hf | pid' sid' price' stock' Hp' Hs' Hpr' Hst' Fp' Fs' Hpair'
       | e pid' sid' price' stock' Hp' Hs' Hpr' Hst' Fp' Fs' Hpair' Hf
       | pid' sid' price' stock' Hp' Hs' Hpr' Hst' Fp' Fs' Hpair' Hf].
  - congruence.
  - exfalso. rewrite (cast_isValid _ Hp), (cast_isValid _ Hs) in Hbad.
    destruct Hbad; discriminate.
  - exfalso. exact (healthy_after_answers [] Hw Hf).
  - exfalso. exact (healthy_after_answers [ProductFindById] Hw Hf2).
  - congruence.
  - congruence.
  - exfalso. exact (healthy_after_answers [ProductFindById; StoreFindById] Hw Hf).
  - reflexivity.
  - exfalso. assert (pid' = pid) by congruence.
    assert (sid' = sid) by congruence. subst.
    rewrite Htaken in Hpair'. discriminate.
  - exfalso. assert (pid' = pid) by congruence.
    assert (sid' = sid) by congruence. subst.
    rewrite Htaken in Hpair'. discriminate.
Qed.

(** The run of get-by-id when the call is answered. *)
Lemma get_by_id_run (id : string) (oid : ObjectId) (w : World) :
  castObjectId id = Some oid -> answers w ->
  getStoreProductById id w
  = (match find_storeProduct oid (storeProducts w) with
     | Some sp => mkResponse 200 true None (storeProduct (Some (populate w sp)))
     | None => failure 404 "Store Product not found."
     end,
     issue StoreProductFindById w).
Proof.
  intros Hc Ha. unfold getStoreProductById.
  rewrite (cast_isValid (Some id) Hc). cbv beta iota delta [negb].
  unfold try_catch, getStoreProductById_try, bind,
    StoreProduct_findById_populate. cbv beta.
  rewrite db_call_answers by assumption.
  unfold with_cast. change (castId (Some id)) with (castObjectId id).
  rewrite Hc. cbv beta iota.
  change (storeProducts (issue StoreProductFindById w)) with (storeProducts w).
  change (populate (issue StoreProductFindById w)) with (populate w).
  destruct (find_storeProduct oid (storeProducts w)); reflexivity.
Qed.

(** X2.  Reading back a created record: when create answers with a
    document, get-by-id on the identifier of that document, if its call is
    answered, returns 200 with the very same populated document. *)
Theorem create_then_get (b : CreateBody) (w : World) (id : string)
        (doc : Populated) :
  payload (fst (createStoreProduct b w)) = storeProduct (Some doc) ->
  castObjectId id = Some (sp_id (pop_doc doc)) ->
  answers (snd (createStoreProduct b w)) ->
  getStoreProductById id (snd (createStoreProduct b w))
  = (mkResponse 200 true None (storeProduct (Some doc)),
     issue StoreProductFindById (snd (createStoreProduct b w))).
Proof.
  intros Hpayload Hid Ha.
  rewrite (get_by_id_run id Hid Ha).
  pose proof (create_run b w) as Hrun. revert Hpayload.
  inversion Hrun as
      [Hm' | Hm' Hbad | e Hf | e Hf1 Hf2 | pid' Hp' Fp' | pid' sid' Hp' Hs' Fp' Fs'
       | e pid' sid' Hp' Hs' Fp' Fs' Hf | pid' sid' price' stock' Hp' Hs' Hpr' Hst' Fp' Fs' Hpair'
       | e pid' sid' price' stock' Hp' Hs' Hpr' Hst' Fp' Fs' Hpair' Hf
       | pid' sid' price' stock' Hp' Hs' Hpr' Hst' Fp' Fs' Hpair'];
    try (rewrite catch_no_payload; discriminate);
    try (simpl; discriminate).
  simpl payload. intros [= <-]. cbn [pop_doc storeProducts set_storeProducts issue].
  rewrite (find_storeProduct_app_fresh (storeProducts w)
             (new_document b pid' sid' price' stock' w))
    by (apply fresh_id_unused).
  reflexivity.
Qed.

(** X3.  Creating twice: after a successful create, the same request is
    answered 409 "This product already exists in this store." and adds
    nothing. *)
Theorem create_twice_conflicts (b : CreateBody) (w : World)
        (pid sid : ObjectId) (price stock : Z) (p : Product) (s : Store) :
  castId (b_productId b) = Some pid -> castId (b_storeId b) = Some sid ->
  b_price b = Some price -> b_stock b = Some stock ->
  healthy w ->
  find_product pid (products w) = Some p ->
  find_store sid (stores w) = Some s ->
  (forall sp, In sp (storeProducts w) -> pair_of sp <> (pid, sid)) ->
  status (fst (createStoreProduct b w)) = 201
  /\ fst (createStoreProduct b (snd (createStoreProduct b w)))
     = failure 409 "This product already exists in this store."
  /\ storeProducts (snd (createStoreProduct b (snd (createStoreProduct b w))))
     = storeProducts (snd (createStoreProduct b w)).
Proof.
  intros Hp Hs Hprice Hstock Hw Fp Fs Hfree.
  rewrite (create_success_run b Hp Hs Hprice Hstock Hw Fp Fs Hfree).
  split; [reflexivity|]. cbn [snd].
  set (w1 := issue StoreProductFindById
               (set_storeProducts
                  (storeProducts w ++ [new_document b pid sid price stock w])
                  (after_calls [ProductFindById; StoreFindById;
                                StoreProductSave] w))).
  assert (Hw1 : healthy w1).
  { intros e. apply (healthy_after_calls
                       [ProductFindById; StoreFindById; StoreProductSave;
                        StoreProductFindById] Hw e). }
  assert (Fp1 : find_product pid (products w1) <> None).
  { change (products w1) with (products w). rewrite Fp. discriminate. }
  assert (Fs1 : find_store sid (stores w1) <> None).
  { change (stores w1) with (stores w). rewrite Fs. discriminate. }
  assert (Hprice1 : b_price b <> None) by congruence.
  assert (Hstock1 : b_stock b <> None) by congruence.
  assert (Htaken : exists sp, In sp (storeProducts w1) /\ pair_of sp = (pid, sid)).
  { exists (new_document b pid sid price stock w). split; [|reflexivity].
    change (storeProducts w1)
      with (storeProducts w ++ [new_document b pid sid price stock w]).
    apply in_or_app. right. left. reflexivity. }
  rewrite (create_conflict_run b Hp Hs Hprice1 Hstock1 Hw1 Fp1 Fs1 Htaken).
  split; reflexivity.
Qed.

(** X4.  Create is not undone when its last read fails: if the request is
    valid, the references exist, the pair is free and the first three calls
    are answered but the read of the new record fails with [e], the
    response is the error response for [e] and the record stays in the
    collection. *)
Theorem create_keeps_record_when_reread_fails
        (b : CreateBody) (w : World) (pid sid : ObjectId) (price stock : Z)
        (e : Error) (later : list (option Error)) :
  castId (b_productId b) = Some pid -> castId (b_storeId b) = Some sid ->
  b_price b = Some price -> b_stock b = Some stock ->
  faults w = None :: None :: None :: Some e :: later ->
  find_product pid (products w) <> None ->
  find_store sid (stores w) <> None ->
  (forall sp, In sp (storeProducts w) -> pair_of sp <> (pid, sid)) ->
  fst (createStoreProduct b w) = createStoreProduct_catch e
  /\ success (fst (createStoreProduct b w)) = false
  /\ storeProducts (snd (createStoreProduct b w))
     = storeProducts w ++ [new_document b pid sid price stock w].
Proof.
  intros Hp Hs Hprice Hstock Hfaults Fp Fs Hfree.
  assert (Hm : missing_required b = false).
  { apply passes_guards; try (eapply cast_isValid; eassumption); congruence. }
  assert (Hpair : existsb (same_pair (new_document b pid sid price stock w))
                          (storeProducts w) = false)
    by (apply pair_free; exact Hfree).
  assert (Hsucc : success (createStoreProduct_catch e) = false).
  { unfold createStoreProduct_catch.
    destruct (is_duplicate_pair e); [reflexivity|].
    destruct (is_cast_error e); reflexivity. }
  pose proof (create_run b w) as Hrun.
  inversion Hrun as
      [Hm' | Hm' Hbad | e' Hf | e' Hf1 Hf2 | pid' Hp' Fp' | pid' sid' Hp' Hs' Fp' Fs'
       | e' pid' sid' Hp' Hs' Fp' Fs' Hf | pid' sid' price' stock' Hp' Hs' Hpr' Hst' Fp' Fs' Hpair'
       | e' pid' sid' price' stock' Hp' Hs' Hpr' Hst' Fp' Fs' Hpair' Hf
       | pid' sid' price' stock' Hp' Hs' Hpr' Hst' Fp' Fs' Hpair' Hf];
    try (exfalso; congruence).
  - exfalso. rewrite (cast_isValid _ Hp), (cast_isValid _ Hs) in Hbad.
    destruct Hbad; discriminate.
  - exfalso. rewrite Hfaults in Hf. discriminate.
  - exfalso. unfold after_calls in Hf2. simpl in Hf2. rewrite Hfaults in Hf2.
    discriminate.
  - exfalso. unfold after_calls in Hf. simpl in Hf. rewrite Hfaults in Hf.
    discriminate.
  - assert (pid' = pid) by congruence.
    assert (sid' = sid) by congruence. assert (price' = price) by congruence.
    assert (stock' = stock) by congruence. subst.
    unfold after_calls in Hf. simpl in Hf. rewrite Hfaults in Hf. simpl in Hf.
    injection Hf as <-. auto.
  - exfalso. unfold after_calls in Hf. simpl in Hf. rewrite Hfaults in Hf.
    discriminate.
Qed.

(** ** Update and delete, case by case *)

Lemma update_run_pair (id : string) (body : UpdateBody) (w : World) :
  let (r, w') := updateStoreProduct id body w in update_ends id body w r w'.
Proof.
  unfold updateStoreProduct.
  destruct (isValid (Some id)) eqn:Hv; cbv beta iota delta [negb];
    [|apply update_invalid; exact Hv].
  unfold try_catch, updateStoreProduct_try,
    StoreProduct_findByIdAndUpdate_populate, bind,
    StoreProduct_findByIdAndUpdate.
  unfold db_call.
  destruct (hd None (faults w)) as [e|]; [apply update_error|].
  unfold with_cast, throw.
  change (castId (Some id)) with (castObjectId id).
  destruct (castObjectId id) as [oid|] eqn:Hoid; [|apply update_error].
  destruct (cast_supplied (u_productId body)) as [e|pid] eqn:Hp;
    [apply update_error|].
  destruct (cast_supplied (u_storeId body)) as [e|sid] eqn:Hs;
    [apply update_error|].
  change (storeProducts (issue StoreProductFindByIdAndUpdate w))
    with (storeProducts w).
  change (now (issue StoreProductFindByIdAndUpdate w)) with (now w).
  destruct (find_storeProduct oid (storeProducts w)) as [old|] eqn:Hold;
    [|apply update_absent with oid; assumption].
  cbv zeta.
  destruct (existsb _ (storeProducts w)) eqn:Hcol; [apply update_error|].
  unfold populate_updated, db_call.
  change (faults (set_storeProducts
                    (replace_first oid (merge old pid sid body (now w))
                       (storeProducts w))
                    (issue StoreProductFindByIdAndUpdate w)))
    with (faults (issue StoreProductFindByIdAndUpdate w)).
  destruct (hd None (faults (issue StoreProductFindByIdAndUpdate w)))
    as [e|] eqn:Hpop.
  - eapply update_populate_error; eassumption.
  - unfold ret, populate. cbn [products stores set_storeProducts issue].
    apply update_done; assumption.
Qed.

Lemma update_run (id : string) (body : UpdateBody) (w : World) :
  update_ends id body w (fst (updateStoreProduct id body w))
              (snd (updateStoreProduct id body w)).
Proof.
  pose proof (update_run_pair id body w) as Hrun.
  destruct (updateStoreProduct id body w) as [r w']. exact Hrun.
Qed.

Lemma delete_run_pair (id : string) (w : World) :
  let (r, w') := deleteStoreProduct id w in delete_ends id w r w'.
Proof.
  unfold deleteStoreProduct.
  destruct (isValid (Some id)) eqn:Hv; cbv beta iota delta [negb];
    [|apply delete_invalid; exact Hv].
  apply isValid_castId in Hv. destruct Hv as [oid Hoid].
  change (castId (Some id)) with (castObjectId id) in Hoid.
  unfold try_catch, deleteStoreProduct_try, bind,
    StoreProduct_findByIdAndDelete, db_call.
  destruct (hd None (faults w)) as [e|] eqn:Hf;
    [apply delete_error; exact Hf|].
  unfold with_cast. change (castId (Some id)) with (castObjectId id).
  rewrite Hoid. cbv beta iota.
  change (storeProducts (issue StoreProductFindByIdAndDelete w))
    with (storeProducts w).
  destruct (find_storeProduct oid (storeProducts w)) as [old|] eqn:Hold.
  - apply delete_done with old; assumption.
  - apply delete_absent with oid; assumption.
Qed.

Lemma delete_run (id : string) (w : World) :
  delete_ends id w (fst (deleteStoreProduct id w)) (snd (deleteStoreProduct id w)).
Proof.
  pose proof (delete_run_pair id w) as Hrun.
  destruct (deleteStoreProduct id w) as [r w']. exact Hrun.
Qed.

(** X5.  The calls of create: whatever the request and whatever the
    persistence layer answers, create issues a prefix of the sequence
    product lookup, store lookup, save, re-read, and it issues the save only
    when both identifiers are well formed and both referenced documents
    were found. *)
Theorem create_call_order (b : CreateBody) (w : World) :
  exists calls,
    journal (snd (createStoreProduct b w)) = rev calls ++ journal w
    /\ In calls [[];
                 [ProductFindById];
                 [ProductFindById; StoreFindById];
                 [ProductFindById; StoreFindById; StoreProductSave];
                 [ProductFindById; StoreFindById; StoreProductSave;
                  StoreProductFindById]]
    /\ (In StoreProductSave calls ->
        exists pid sid,
          castId (b_productId b) = Some pid /\ castId (b_storeId b) = Some sid
          /\ find_product pid (products w) <> None
          /\ find_store sid (stores w) <> None).
Proof.
  pose proof (create_run b w) as Hrun.
  remember (fst (createStoreProduct b w)) as r eqn:Er.
  remember (snd (createStoreProduct b w)) as w' eqn:Ew.
  clear Er Ew.
  assert (Hno : forall (ops : list DbOp) (P : Prop),
             ~ In StoreProductSave ops -> In StoreProductSave ops -> P)
    by (intros ops P Hn Hin; contradiction).
  destruct Hrun.
  - exists []. split; [reflexivity|]. split; [simpl; auto|].
    apply Hno. simpl. tauto.
  - exists []. split; [reflexivity|]. split; [simpl; auto|].
    apply Hno. simpl. tauto.
  - exists [ProductFindById]. split; [reflexivity|]. split; [simpl; auto|].
    apply Hno. simpl. intros [Hx|[]]; discriminate.
  - exists [ProductFindById; StoreFindById]. split; [reflexivity|].
    split; [simpl; auto|].
    apply Hno. simpl. intros [Hx|[Hx|[]]]; discriminate.
  - exists [ProductFindById; StoreFindById]. split; [reflexivity|].
    split; [simpl; auto|].
    apply Hno. simpl. intros [Hx|[Hx|[]]]; discriminate.
  - exists [ProductFindById; StoreFindById]. split; [reflexivity|].
    split; [simpl; auto|].
    apply Hno. simpl. intros [Hx|[Hx|[]]]; discriminate.
  - exists [ProductFindById; StoreFindById; StoreProductSave].
    split; [reflexivity|]. split; [simpl; auto|]. intros _. eauto 6.
  - exists [ProductFindById; StoreFindById; StoreProductSave].
    split; [reflexivity|]. split; [simpl; auto|]. intros _. eauto 6.
  - exists [ProductFindById; StoreFindById; StoreProductSave;
            StoreProductFindById].
    split; [reflexivity|]. split; [simpl; auto 6|]. intros _. eauto 6.
  - exists [ProductFindById; StoreFindById; StoreProductSave;
            StoreProductFindById].
    split; [reflexivity|]. split; [simpl; auto 6|]. intros _. eauto 6.
Qed.

(** ** The shape of the responses *)

Lemma message_or_nonempty (e : Error) (fallback : string) :
  fallback <> "" -> message_or e fallback <> "".
Proof.
  intros Hf. unfold message_or.
  destruct (String.eqb_spec (err_message e) ""); assumption.
Qed.

Lemma failure_is_failure (code : Z) (msg : string) :
  In code [400; 404; 409; 500] -> msg <> "" -> is_failure (failure code msg).
Proof.
  intros Hcode Hmsg. unfold is_failure, failure. simpl.
  split; [exact Hcode|]. split; [reflexivity|]. split; [eauto|reflexivity].
Qed.

Lemma internal_failure (e : Error) (fallback : string) :
  fallback <> "" ->
  is_failure (failure 500 (message_or e fallback))
  /\ status (failure 500 (message_or e fallback)) = 500.
Proof.
  intros Hf. split; [|reflexivity].
  apply failure_is_failure; [simpl; tauto|].
  apply message_or_nonempty. exact Hf.
Qed.

Lemma create_catch_shape (e : Error) :
  is_failure (createStoreProduct_catch e)
  /\ In (status (createStoreProduct_catch e)) [400; 409; 500].
Proof.
  unfold createStoreProduct_catch.
  destruct (is_duplicate_pair e).
  { split; [apply failure_is_failure; [simpl; tauto|discriminate]|simpl; tauto]. }
  destruct (is_cast_error e).
  { split; [apply failure_is_failure; [simpl; tauto|discriminate]|simpl; tauto]. }
  split; [apply internal_failure; discriminate|simpl; tauto].
Qed.

Ltac failure_case :=
  split; [right; apply failure_is_failure; [simpl; tauto|discriminate]
         |simpl; tauto].

Ltac internal_case :=
  split; [right; apply internal_failure; discriminate|simpl; tauto].

Ltac success_case :=
  split; [left; split; [simpl; tauto|reflexivity]|simpl; tauto].

(** X6.  Every response of every operation, whatever the request and
    whatever the persistence layer answers, is either a success (200 or
    201 with [success: true]) or a failure ([success: false], a non-empty
    message and no data), and each operation only uses its own statuses:
    create 201, 400, 404, 409, 500; list 200, 400, 500; get-by-id, update,
    delete and store options 200, 400, 404, 500; search summary 200, 500. *)
Theorem responses_are_well_formed (w : World) :
  (forall b,
      (is_success (fst (createStoreProduct b w))
       \/ is_failure (fst (createStoreProduct b w)))
      /\ In (status (fst (createStoreProduct b w))) [201; 400; 404; 409; 500])
  /\ (forall q,
         (is_success (fst (getStoreProducts q w))
          \/ is_failure (fst (getStoreProducts q w)))
         /\ In (status (fst (getStoreProducts q w))) [200; 400; 500])
  /\ (forall id,
         (is_success (fst (getStoreProductById id w))
          \/ is_failure (fst (getStoreProductById id w)))
         /\ In (status (fst (getStoreProductById id w))) [200; 400; 404; 500])
  /\ (forall id body,
         (is_success (fst (updateStoreProduct id body w))
          \/ is_failure (fst (updateStoreProduct id body w)))
         /\ In (status (fst (updateStoreProduct id body w)))
               [200; 400; 404; 500])
  /\ (forall id,
         (is_success (fst (deleteStoreProduct id w))
          \/ is_failure (fst (deleteStoreProduct id w)))
         /\ In (status (fst (deleteStoreProduct id w))) [200; 400; 404; 500])
  /\ (forall q,
         (is_success (fst (getProductSearchSummary q w))
          \/ is_failure (fst (getProductSearchSummary q w)))
         /\ In (status (fst (getProductSearchSummary q w))) [200; 500])
  /\ (forall productId,
         (is_success (fst (getStoreOptionsForProduct productId w))
          \/ is_failure (fst (getStoreOptionsForProduct productId w)))
         /\ In (status (fst (getStoreOptionsForProduct productId w)))
               [200; 400; 404; 500]).
Proof.
  repeat match goal with |- _ /\ _ => split end.
  - intros b. pose proof (create_run b w) as Hrun.
    remember (fst (createStoreProduct b w)) as r eqn:Er.
    remember (snd (createStoreProduct b w)) as w' eqn:Ew. clear Er Ew.
    destruct Hrun;
      try (destruct (create_catch_shape e) as [Hshape Hstatus];
           split; [right; exact Hshape|simpl in *; tauto]);
      try failure_case; try success_case.
  - intros q. unfold getStoreProducts, try_catch, getStoreProducts_try.
    destruct (_ && _); [failure_case|].
    unfold bind.
    destruct (StoreProduct_aggregate_project (list_pipeline q) w)
      as [[e|docs] w1]; [internal_case|success_case].
  - intros id. unfold getStoreProductById.
    destruct (isValid (Some id)); cbv beta iota delta [negb]; [|failure_case].
    unfold try_catch, getStoreProductById_try, bind.
    destruct (StoreProduct_findById_populate id w) as [[e|[doc|]] w1];
      [internal_case|success_case|failure_case].
  - intros id body. unfold updateStoreProduct.
    destruct (isValid (Some id)); cbv beta iota delta [negb]; [|failure_case].
    unfold try_catch, updateStoreProduct_try, bind.
    destruct (StoreProduct_findByIdAndUpdate_populate id body w)
      as [[e|[doc|]] w1]; [internal_case|success_case|failure_case].
  - intros id. unfold deleteStoreProduct.
    destruct (isValid (Some id)); cbv beta iota delta [negb]; [|failure_case].
    unfold try_catch, deleteStoreProduct_try, bind.
    destruct (StoreProduct_findByIdAndDelete id w) as [[e|[doc|]] w1];
      [internal_case|success_case|failure_case].
  - intros q. unfold getProductSearchSummary, try_catch,
      getProductSearchSummary_try, bind.
    destruct (StoreProduct_aggregate_group (summary_pipeline q) w)
      as [[e|rows] w1]; [internal_case|success_case].
  - intros productId. unfold getStoreOptionsForProduct.
    destruct (_ || _); [failure_case|].
    unfold try_catch, getStoreOptionsForProduct_try, bind.
    destruct (StoreProduct_find_populate productId w) as [[e|[|d docs]] w1];
      [internal_case|failure_case|success_case].
Qed.

(** ** What the operations leave alone *)

Lemma same_data_refl (w : World) : same_data w w.
Proof. unfold same_data. auto 6. Qed.

Lemma same_data_issue (op : DbOp) (w : World) : same_data w (issue op w).
Proof. unfold same_data. simpl. eauto 8. Qed.

(** X7.  The four reading operations (list, get-by-id, search summary,
    store options) never change the data: whatever the request and whatever
    the persistence layer answers, the products, the stores and the store
    products afterwards are those before, and at most one call has been
    issued. *)
Theorem reads_change_nothing (w : World) :
  (forall q, same_data w (snd (getStoreProducts q w)))
  /\ (forall id, same_data w (snd (getStoreProductById id w)))
  /\ (forall q, same_data w (snd (getProductSearchSummary q w)))
  /\ (forall productId, same_data w (snd (getStoreOptionsForProduct productId w))).
Proof.
  repeat match goal with |- _ /\ _ => split end.
  - intros q. unfold getStoreProducts, try_catch, getStoreProducts_try.
    destruct (_ && _); [apply same_data_refl|].
    unfold bind, StoreProduct_aggregate_project, db_call.
    destruct (hd None (faults w)); [|destruct (forallb _ _)];
      apply same_data_issue.
  - intros id. unfold getStoreProductById.
    destruct (isValid (Some id)); cbv beta iota delta [negb];
      [|apply same_data_refl].
    unfold try_catch, getStoreProductById_try, bind,
      StoreProduct_findById_populate, db_call, with_cast, throw.
    destruct (hd None (faults w)); [apply same_data_issue|].
    destruct (castId (Some id)); [|apply same_data_issue].
    destruct (option_map _ _); apply same_data_issue.
  - intros q. unfold getProductSearchSummary, try_catch,
      getProductSearchSummary_try, bind, StoreProduct_aggregate_group, db_call.
    destruct (hd None (faults w)); [|destruct (forallb _ _)];
      apply same_data_issue.
  - intros productId. unfold getStoreOptionsForProduct.
    destruct (_ || _); [apply same_data_refl|].
    unfold try_catch, getStoreOptionsForProduct_try, bind,
      StoreProduct_find_populate, db_call, with_cast, throw.
    destruct (hd None (faults w)); [apply same_data_issue|].
    destruct (castId (Some productId)); [|apply same_data_issue].
    destruct (map _ _); apply same_data_issue.
Qed.

(** X8.  The writing operations (create, update, delete) never write to
    the products or to the stores: whatever the request and whatever the
    persistence layer answers, both collections afterwards are those
    before. *)
Theorem references_are_never_written (w : World) :
  (forall b, products (snd (createStoreProduct b w)) = products w
             /\ stores (snd (createStoreProduct b w)) = stores w)
  /\ (forall id body,
         products (snd (updateStoreProduct id body w)) = products w
         /\ stores (snd (updateStoreProduct id body w)) = stores w)
  /\ (forall id, products (snd (deleteStoreProduct id w)) = products w
                 /\ stores (snd (deleteStoreProduct id w)) = stores w).
Proof.
  split; [|split].
  - intros b. pose proof (create_run b w) as Hrun.
    remember (fst (createStoreProduct b w)) as r eqn:Er.
    remember (snd (createStoreProduct b w)) as w' eqn:Ew. clear Er Ew.
    destruct Hrun; split; reflexivity.
  - intros id body. pose proof (update_run id body w) as Hrun.
    remember (fst (updateStoreProduct id body w)) as r eqn:Er.
    remember (snd (updateStoreProduct id body w)) as w' eqn:Ew. clear Er Ew.
    destruct Hrun; split; reflexivity.
  - intros id. pose proof (delete_run id w) as Hrun.
    remember (fst (deleteStoreProduct id w)) as r eqn:Er.
    remember (snd (deleteStoreProduct id w)) as w' eqn:Ew. clear Er Ew.
    destruct Hrun; split; reflexivity.
Qed.

(** ** The collection stays consistent *)

Lemma NoDup_map_snoc {A B} (f : A -> B) (l : list A) (x : A) :
  NoDup (map f l) -> ~ In (f x) (map f l) -> NoDup (map f (l ++ [x])).
Proof.
  induction l as [|a l IH]; simpl; intros Hnd Hnot.
  - constructor; [intros []|constructor].
  - inversion Hnd as [|? ? Ha Hl]; subst. constructor.
    + rewrite map_app, in_app_iff. simpl. intros [Hin | [Heq | []]].
      * contradiction.
      * apply Hnot. left. symmetry. exact Heq.
    + apply IH; [exact Hl|]. intros Hin. apply Hnot. right. exact Hin.
Qed.

Lemma replace_first_ids (oid : ObjectId) (new : StoreProduct)
      (l : list StoreProduct) :
  sp_id new = oid -> map sp_id (replace_first oid new l) = map sp_id l.
Proof.
  intros Hid. induction l as [|sp l IH]; simpl; [reflexivity|].
  destruct (N.eqb (sp_id sp) oid) eqn:E; simpl.
  - apply N.eqb_eq in E. congruence.
  - rewrite IH. reflexivity.
Qed.

Lemma in_replace_first (oid : ObjectId) (new x : StoreProduct)
      (l : list StoreProduct) :
  In x (replace_first oid new l) -> x = new \/ In x l.
Proof.
  induction l as [|sp l IH]; simpl; [contradiction|].
  destruct (N.eqb (sp_id sp) oid); simpl.
  - intros [<- | Hin]; auto.
  - intros [<- | Hin]; [auto|]. destruct (IH Hin); auto.
Qed.

Lemma same_pair_spec (a b : StoreProduct) :
  same_pair a b = true <-> pair_of a = pair_of b.
Proof.
  unfold same_pair, pair_of. rewrite andb_true_iff, !N.eqb_eq. split.
  - intros [-> ->]. reflexivity.
  - intros [= -> ->]. auto.
Qed.

Lemma replace_first_pairs (oid : ObjectId) (new : StoreProduct)
      (l : list StoreProduct) :
  NoDup (map sp_id l) -> NoDup (map pair_of l) ->
  existsb (fun sp => negb (N.eqb (sp_id sp) oid) && same_pair new sp) l = false ->
  NoDup (map pair_of (replace_first oid new l)).
Proof.
  induction l as [|sp l IH]; simpl; intros Hids Hpairs Hcheck; [constructor|].
  inversion Hids as [|? ? Hid Hids']; subst.
  inversion Hpairs as [|? ? Hpair Hpairs']; subst.
  apply orb_false_iff in Hcheck. destruct Hcheck as [Hsp Hrest].
  destruct (N.eqb (sp_id sp) oid) eqn:E; simpl.
  - apply N.eqb_eq in E. constructor; [|exact Hpairs'].
    intros Hin. apply in_map_iff in Hin. destruct Hin as (x & Heq & Hx).
    assert (Hcase : negb (N.eqb (sp_id x) oid) && same_pair new x = false).
    { destruct (negb (N.eqb (sp_id x) oid) && same_pair new x) eqn:C;
        [|reflexivity].
      assert (Hex : existsb (fun sp => negb (N.eqb (sp_id sp) oid)
                                       && same_pair new sp) l = true)
        by (apply existsb_exists; exists x; auto).
      congruence. }
    assert (Hxid : N.eqb (sp_id x) oid = false).
    { apply N.eqb_neq. intros Hx'. apply Hid. rewrite E, <- Hx'.
      apply in_map. exact Hx. }
    rewrite Hxid in Hcase. simpl in Hcase.
    assert (Hsame : same_pair new x = true)
      by (apply same_pair_spec; symmetry; exact Heq).
    congruence.
  - simpl in Hsp. constructor; [|apply IH; assumption].
    intros Hin. apply in_map_iff in Hin. destruct Hin as (x & Heq & Hx).
    destruct (in_replace_first _ _ _ _ Hx) as [-> | Hx'].
    + assert (Hsame : same_pair new sp = true)
        by (apply same_pair_spec; exact Heq).
      congruence.
    + apply Hpair. rewrite <- Heq. apply in_map. exact Hx'.
Qed.

Lemma in_remove_first (oid : ObjectId) (x : StoreProduct)
      (l : list StoreProduct) :
  In x (remove_first oid l) -> In x l.
Proof.
  induction l as [|sp l IH]; simpl; [contradiction|].
  destruct (N.eqb (sp_id sp) oid); simpl; [auto|].
  intros [<- | Hin]; auto.
Qed.

Lemma remove_first_NoDup {B} (f : StoreProduct -> B) (oid : ObjectId)
      (l : list StoreProduct) :
  NoDup (map f l) -> NoDup (map f (remove_first oid l)).
Proof.
  induction l as [|sp l IH]; simpl; intros Hnd; [constructor|].
  inversion Hnd as [|? ? Hnot Hnd']; subst.
  destruct (N.eqb (sp_id sp) oid); simpl; [exact Hnd'|].
  constructor; [|apply IH; exact Hnd'].
  intros Hin. apply in_map_iff in Hin. destruct Hin as (x & Heq & Hx).
  apply Hnot. rewrite <- Heq. apply in_map.
  apply in_remove_first with oid. exact Hx.
Qed.

Lemma snoc_consistent (l : list StoreProduct) (doc : StoreProduct) :
  consistent l ->
  existsb (fun sp => N.eqb (sp_id sp) (sp_id doc)) l = false ->
  existsb (same_pair doc) l = false ->
  consistent (l ++ [doc]).
Proof.
  intros [Hids Hpairs] Hid Hpair. split.
  - apply NoDup_map_snoc; [exact Hids|].
    intros Hin. apply in_map_iff in Hin. destruct Hin as (x & Heq & Hx).
    assert (Hex : existsb (fun sp => N.eqb (sp_id sp) (sp_id doc)) l = true).
    { apply existsb_exists. exists x. split; [exact Hx|].
      apply N.eqb_eq. exact Heq. }
    congruence.
  - apply NoDup_map_snoc; [exact Hpairs|].
    intros Hin. apply in_map_iff in Hin. destruct Hin as (x & Heq & Hx).
    assert (Hex : existsb (same_pair doc) l = true).
    { apply existsb_exists. exists x. split; [exact Hx|].
      apply same_pair_spec. symmetry. exact Heq. }
    congruence.
Qed.

(** X9.  Every operation keeps the collection consistent: if no two
    records share an identifier and no two records share a pair
    (productId, storeId) before a request, the same holds after it,
    whatever the request and whatever the persistence layer answers. *)
Theorem consistency_is_kept (w : World) :
  consistent (storeProducts w) ->
  (forall b, consistent (storeProducts (snd (createStoreProduct b w))))
  /\ (forall id body,
         consistent (storeProducts (snd (updateStoreProduct id body w))))
  /\ (forall id, consistent (storeProducts (snd (deleteStoreProduct id w)))).
Proof.
  intros Hc. split; [|split].
  - intros b. pose proof (create_run b w) as Hrun.
    remember (fst (createStoreProduct b w)) as r eqn:Er.
    remember (snd (createStoreProduct b w)) as w' eqn:Ew. clear Er Ew.
    destruct Hrun; try exact Hc;
      (cbn [storeProducts issue set_storeProducts];
       apply snoc_consistent; [exact Hc|apply fresh_id_unused|assumption]).
  - intros id body. pose proof (update_run id body w) as Hrun.
    remember (fst (updateStoreProduct id body w)) as r eqn:Er.
    remember (snd (updateStoreProduct id body w)) as w' eqn:Ew. clear Er Ew.
    destruct Hrun as [Hv | e | oid Hoid Hnone
                     | oid old pid sid e Hoid Hp Hs Hold Hcheck Hpop
                     | oid old pid sid Hoid Hp Hs Hold Hcheck Hpop];
      try exact Hc;
      (cbn [storeProducts issue set_storeProducts];
       destruct Hc as [Hids Hpairs];
       assert (Hid : sp_id (merge old pid sid body (now w)) = oid)
         by (apply (find_storeProduct_id _ _ Hold));
       split;
       [rewrite replace_first_ids by exact Hid; exact Hids
       |apply replace_first_pairs; assumption]).
  - intros id. pose proof (delete_run id w) as Hrun.
    remember (fst (deleteStoreProduct id w)) as r eqn:Er.
    remember (snd (deleteStoreProduct id w)) as w' eqn:Ew. clear Er Ew.
    destruct Hrun; try exact Hc.
    cbn [storeProducts issue set_storeProducts].
    destruct Hc as [Hids Hpairs].
    split; apply remove_first_NoDup; assumption.
Qed.

(** ** Get-by-id and delete *)

Lemma find_storeProduct_none (oid : ObjectId) (l : list StoreProduct) :
  find_storeProduct oid l = None <->
  ~ exists sp, In sp l /\ sp_id sp = oid.
Proof.
  unfold find_storeProduct. split.
  - intros Hnone (sp & Hin & Hid).
    apply (find_none _ _ Hnone) in Hin. apply N.eqb_neq in Hin. contradiction.
  - intros Hno. destruct (find _ l) as [sp|] eqn:F; [|reflexivity].
    exfalso. apply find_some in F. destruct F as [Hin Hid].
    apply N.eqb_eq in Hid. apply Hno. eauto.
Qed.

Lemma find_storeProduct_unique (oid : ObjectId) (l : list StoreProduct)
      (sp : StoreProduct) :
  NoDup (map sp_id l) -> In sp l -> sp_id sp = oid ->
  find_storeProduct oid l = Some sp.
Proof.
  unfold find_storeProduct. induction l as [|x l IH]; simpl; [contradiction|].
  intros Hnd Hin Hid. inversion Hnd as [|? ? Hnot Hnd']; subst.
  destruct Hin as [-> | Hin].
  - rewrite N.eqb_refl. reflexivity.
  - destruct (N.eqb (sp_id x) (sp_id sp)) eqn:E; [|apply IH; auto].
    apply N.eqb_eq in E. exfalso. apply Hnot. rewrite E.
    apply in_map. exact Hin.
Qed.

(** X10.  Get-by-id with a well-formed identifier, when its call is
    answered: it answers 404 exactly when no record has that identifier, and
    otherwise 200 with a record of the collection that has that identifier,
    its product and its store looked up ([null] when they are gone). *)
Theorem get_by_id_finds (id : string) (oid : ObjectId) (w : World) :
  castObjectId id = Some oid -> answers w ->
  ((~ exists sp, In sp (storeProducts w) /\ sp_id sp = oid) ->
   getStoreProductById id w
   = (failure 404 "Store Product not found.", issue StoreProductFindById w))
  /\ ((exists sp, In sp (storeProducts w) /\ sp_id sp = oid) ->
      exists sp,
        In sp (storeProducts w) /\ sp_id sp = oid
        /\ getStoreProductById id w
           = (mkResponse 200 true None
                (storeProduct
                   (Some (mkPopulated sp
                            (find_product (sp_productId sp) (products w))
                            (find_store (sp_storeId sp) (stores w))))),
              issue StoreProductFindById w)).
Proof.
  intros Hc Ha. rewrite (get_by_id_run id Hc Ha). split.
  - intros Hno. apply find_storeProduct_none in Hno. rewrite Hno. reflexivity.
  - intros Hsome.
    destruct (find_storeProduct oid (storeProducts w)) as [sp|] eqn:F.
    + exists sp. split; [|split; [|reflexivity]].
      * unfold find_storeProduct in F. apply find_some in F. tauto.
      * apply (find_storeProduct_id _ _ F).
    + exfalso. apply find_storeProduct_none in F. contradiction.
Qed.

Lemma in_remove_first_iff (oid : ObjectId) (x : StoreProduct)
      (l : list StoreProduct) :
  NoDup (map sp_id l) ->
  (In x (remove_first oid l) <-> In x l /\ sp_id x <> oid).
Proof.
  induction l as [|sp l IH]; simpl; intros Hnd; [tauto|].
  inversion Hnd as [|? ? Hnot Hnd']; subst.
  destruct (N.eqb (sp_id sp) oid) eqn:E.
  - apply N.eqb_eq in E. split.
    + intros Hin. split; [right; exact Hin|].
      intros Hx. apply Hnot. rewrite E, <- Hx. apply in_map. exact Hin.
    + intros [[<- | Hin] Hx]; [contradiction|exact Hin].
  - apply N.eqb_neq in E. simpl. rewrite (IH Hnd'). split.
    + intros [<- | [Hin Hx]]; auto.
    + intros [[<- | Hin] Hx]; auto.
Qed.

Lemma remove_first_length (oid : ObjectId) (l : list StoreProduct)
      (sp : StoreProduct) :
  find_storeProduct oid l = Some sp ->
  S (List.length (remove_first oid l)) = List.length l.
Proof.
  unfold find_storeProduct. induction l as [|x l IH]; simpl; [discriminate|].
  destruct (N.eqb (sp_id x) oid); simpl; [reflexivity|].
  intros Hf. rewrite (IH Hf). reflexivity.
Qed.

(** The run of delete when the call is answered. *)
Lemma delete_answered_run (id : string) (oid : ObjectId) (w : World) :
  castObjectId id = Some oid -> answers w ->
  deleteStoreProduct id w
  = match find_storeProduct oid (storeProducts w) with
    | Some _ =>
        (mkResponse 200 true (Some "Store Product deleted successfully.")
                    NoPayload,
         set_storeProducts (remove_first oid (storeProducts w))
                           (issue StoreProductFindByIdAndDelete w))
    | None =>
        (failure 404 "Store Product not found.",
         issue StoreProductFindByIdAndDelete w)
    end.
Proof.
  intros Hc Ha. unfold deleteStoreProduct.
  rewrite (cast_isValid (Some id) Hc). cbv beta iota delta [negb].
  unfold try_catch, deleteStoreProduct_try, bind,
    StoreProduct_findByIdAndDelete. cbv beta.
  rewrite db_call_answers by assumption.
  unfold with_cast. change (castId (Some id)) with (castObjectId id).
  rewrite Hc. cbv beta iota.
  change (storeProducts (issue StoreProductFindByIdAndDelete w))
    with (storeProducts w).
  destruct (find_storeProduct oid (storeProducts w)); reflexivity.
Qed.

(** X11.  Delete with a well-formed identifier, when its call is answered,
    on a collection without repeated identifiers: if no record has the
    identifier the answer is 404 and the collection is as before; otherwise
    the answer is 200 "Store Product deleted successfully.", the records
    afterwards are exactly the records before except the one with that
    identifier, and there is one record less. *)
Theorem delete_removes_the_record (id : string) (oid : ObjectId) (w : World) :
  castObjectId id = Some oid -> answers w ->
  NoDup (map sp_id (storeProducts w)) ->
  ((~ exists sp, In sp (storeProducts w) /\ sp_id sp = oid) ->
   fst (deleteStoreProduct id w) = failure 404 "Store Product not found."
   /\ storeProducts (snd (deleteStoreProduct id w)) = storeProducts w)
  /\ ((exists sp, In sp (storeProducts w) /\ sp_id sp = oid) ->
      fst (deleteStoreProduct id w)
      = mkResponse 200 true (Some "Store Product deleted successfully.")
                   NoPayload
      /\ (forall x, In x (storeProducts (snd (deleteStoreProduct id w)))
                    <-> In x (storeProducts w) /\ sp_id x <> oid)
      /\ S (List.length (storeProducts (snd (deleteStoreProduct id w))))
         = List.length (storeProducts w)).
Proof.
  intros Hc Ha Hnd. rewrite (delete_answered_run id Hc Ha). split.
  - intros Hno. apply find_storeProduct_none in Hno. rewrite Hno.
    split; reflexivity.
  - intros Hsome.
    destruct (find_storeProduct oid (storeProducts w)) as [sp|] eqn:F.
    + split; [reflexivity|]. cbn [snd storeProducts set_storeProducts]. split.
      * intros x. apply in_remove_first_iff. exact Hnd.
      * apply remove_first_length with sp. exact F.
    + exfalso. apply find_storeProduct_none in F. contradiction.
Qed.

(** X12.  After a delete whose call was answered, on a collection without
    repeated identifiers, the record is gone for the other operations:
    get-by-id and a second delete of the same identifier, when answered,
    both answer 404. *)
Theorem deleted_record_is_gone (id : string) (oid : ObjectId) (w : World) :
  castObjectId id = Some oid -> answers w ->
  NoDup (map sp_id (storeProducts w)) ->
  answers (snd (deleteStoreProduct id w)) ->
  fst (getStoreProductById id (snd (deleteStoreProduct id w)))
  = failure 404 "Store Product not found."
  /\ fst (deleteStoreProduct id (snd (deleteStoreProduct id w)))
     = failure 404 "Store Product not found.".
Proof.
  intros Hc Ha Hnd Ha'.
  assert (Hgone : find_storeProduct oid
                    (storeProducts (snd (deleteStoreProduct id w))) = None).
  { rewrite (delete_answered_run id Hc Ha).
    destruct (find_storeProduct oid (storeProducts w)) as [sp|] eqn:F;
      [|exact F].
    cbn [snd storeProducts set_storeProducts].
    apply find_storeProduct_none. intros (x & Hin & Hx).
    apply (in_remove_first_iff oid x _ Hnd) in Hin. tauto. }
  rewrite (get_by_id_run id Hc Ha'), (delete_answered_run id Hc Ha'), Hgone.
  split; reflexivity.
Qed.

(** ** Update *)

(** The run of update when the call is answered and the body casts. *)
Lemma update_answered_run (id : string) (body : UpdateBody) (oid : ObjectId)
      (pid sid : option ObjectId) (w : World) :
  castObjectId id = Some oid -> answers w ->
  cast_supplied (u_productId body) = inr pid ->
  cast_supplied (u_storeId body) = inr sid ->
  updateStoreProduct id body w
  = match find_storeProduct oid (storeProducts w) with
    | None => (failure 404 "Store Product not found.",
               issue StoreProductFindByIdAndUpdate w)
    | Some old =>
        let new := merge old pid sid body (now w) in
        if existsb (fun sp => negb (N.eqb (sp_id sp) oid) && same_pair new sp)
                   (storeProducts w)
        then (updateStoreProduct_catch (duplicateKeyError ["productId"; "storeId"]),
              issue StoreProductFindByIdAndUpdate w)
        else
          (match hd None (faults (issue StoreProductFindByIdAndUpdate w)) with
           | Some e => updateStoreProduct_catch e
           | None =>
               mkResponse 200 true (Some "Store Product updated successfully.")
                 (storeProduct
                    (Some (mkPopulated new
                             (find_product (sp_productId new) (products w))
                             (find_store (sp_storeId new) (stores w)))))
           end,
           issue StoreProductPopulate
             (set_storeProducts (replace_first oid new (storeProducts w))
                                (issue StoreProductFindByIdAndUpdate w)))
    end.
Proof.
  intros Hc Ha Hp Hs. unfold updateStoreProduct.
  rewrite (cast_isValid (Some id) Hc). cbv beta iota delta [negb].
  unfold try_catch, updateStoreProduct_try,
    StoreProduct_findByIdAndUpdate_populate, bind,
    StoreProduct_findByIdAndUpdate. cbv beta.
  rewrite db_call_answers by assumption.
  unfold with_cast. change (castId (Some id)) with (castObjectId id).
  rewrite Hc, Hp, Hs. cbv beta iota.
  change (storeProducts (issue StoreProductFindByIdAndUpdate w))
    with (storeProducts w).
  change (now (issue StoreProductFindByIdAndUpdate w)) with (now w).
  destruct (find_storeProduct oid (storeProducts w)) as [old|]; [|reflexivity].
  cbv zeta. destruct (existsb _ (storeProducts w)); [reflexivity|].
  unfold populate_updated, db_call.
  change (faults (set_storeProducts
                    (replace_first oid (merge old pid sid body (now w))
                       (storeProducts w))
                    (issue StoreProductFindByIdAndUpdate w)))
    with (faults (issue StoreProductFindByIdAndUpdate w)).
  destruct (hd None (faults (issue StoreProductFindByIdAndUpdate w)));
    reflexivity.
Qed.




Lemma merge_again (old : StoreProduct) (pid sid : option ObjectId)
      (body : UpdateBody) (t0 t : Z) :
  merge (merge old pid sid body t0) pid sid body t
  = with_updatedAt t (merge old pid sid body t0).
Proof.
  unfold merge, with_updatedAt. simpl.
  destruct pid, sid, (u_price body), (u_stock body), (u_isAvailable body),
    (u_recommended body), (u_discount body), (u_storeSpecificImages body);
    reflexivity.
Qed.

Lemma replace_first_twice (oid : ObjectId) (new new' : StoreProduct)
      (l : list StoreProduct) :
  sp_id new = oid ->
  replace_first oid new' (replace_first oid new l) = replace_first oid new' l.
Proof.
  intros Hid. induction l as [|sp l IH]; simpl; [reflexivity|].
  destruct (N.eqb (sp_id sp) oid) eqn:E; simpl.
  - rewrite Hid, N.eqb_refl. reflexivity.
  - rewrite E, IH. reflexivity.
Qed.

Lemma check_after_replace (oid : ObjectId) (new : StoreProduct)
      (l : list StoreProduct) :
  sp_id new = oid ->
  existsb (fun sp => negb (N.eqb (sp_id sp) oid) && same_pair new sp) l = false ->
  existsb (fun sp => negb (N.eqb (sp_id sp) oid) && same_pair new sp)
          (replace_first oid new l) = false.
Proof.
  intros Hid Hcheck.
  destruct (existsb _ (replace_first oid new l)) eqn:E; [|reflexivity].
  apply existsb_exists in E. destruct E as (x & Hin & Hx).
  destruct (in_replace_first _ _ _ _ Hin) as [-> | Hin'].
  - rewrite Hid, N.eqb_refl in Hx. discriminate.
  - assert (Hex : existsb (fun sp => negb (N.eqb (sp_id sp) oid)
                                     && same_pair new sp) l = true)
      by (apply existsb_exists; exists x; auto).
    congruence.
Qed.

(** X14.  Sending an update again only stamps the record anew: when an
    update is answered 200 and the same update is sent again at an instant
    [t] and its calls are answered, the second answer is 200 with the
    record of the first answer in which [updatedAt] is [t], that record
    takes the place of the first one in the collection, and nothing else
    changes; at the very instant of the first update the second answer is
    the first one and the collection stays as it is. *)
Theorem repeated_update_only_restamps (id : string) (body : UpdateBody)
        (w : World) (t : Z) :
  status (fst (updateStoreProduct id body w)) = 200 ->
  answers (at_instant t (snd (updateStoreProduct id body w))) ->
  answers (issue StoreProductFindByIdAndUpdate
             (at_instant t (snd (updateStoreProduct id body w)))) ->
  exists oid new,
    castObjectId id = Some oid
    /\ find_storeProduct oid (storeProducts (snd (updateStoreProduct id body w)))
       = Some new
    /\ payload (fst (updateStoreProduct id body w))
       = storeProduct (Some (populate w new))
    /\ fst (updateStoreProduct id body
              (at_instant t (snd (updateStoreProduct id body w))))
       = mkResponse 200 true (Some "Store Product updated successfully.")
           (storeProduct (Some (populate w (with_updatedAt t new))))
    /\ storeProducts
         (snd (updateStoreProduct id body
                 (at_instant t (snd (updateStoreProduct id body w)))))
       = replace_first oid (with_updatedAt t new)
                       (storeProducts (snd (updateStoreProduct id body w)))
    /\ (t = now w ->
        fst (updateStoreProduct id body
               (at_instant t (snd (updateStoreProduct id body w))))
        = fst (updateStoreProduct id body w)
        /\ storeProducts
             (snd (updateStoreProduct id body
                     (at_instant t (snd (updateStoreProduct id body w)))))
           = storeProducts (snd (updateStoreProduct id body w))).
Proof.
  pose proof (update_run id body w) as Hrun.
  remember (fst (updateStoreProduct id body w)) as r eqn:Er.
  remember (snd (updateStoreProduct id body w)) as w' eqn:Ew. clear Er Ew.
  destruct Hrun as [Hv | e | oid Hoid Hnone
                   | oid old pid sid e Hoid Hp Hs Hold Hcheck Hpop
                   | oid old pid sid Hoid Hp Hs Hold Hcheck Hpop];
    try (simpl; discriminate).
  intros _ Ha Ha'.
  set (new := merge old pid sid body (now w)) in *.
  assert (Hid : sp_id new = oid) by (apply (find_storeProduct_id _ _ Hold)).
  assert (Hfound : find_storeProduct oid
                     (replace_first oid new (storeProducts w)) = Some new)
    by (apply find_replace_first_same with old; assumption).
  assert (Hfree : existsb (fun sp => negb (N.eqb (sp_id sp) oid)
                                     && same_pair (with_updatedAt t new) sp)
                          (replace_first oid new (storeProducts w)) = false)
    by exact (@check_after_replace oid new (storeProducts w) Hid Hcheck).
  exists oid, new.
  split; [exact Hoid|]. split; [exact Hfound|]. split; [reflexivity|].
  rewrite (update_answered_run id body Hoid Ha Hp Hs).
  unfold answers in Ha'. rewrite Ha'.
  cbn [storeProducts set_storeProducts issue at_instant now products stores].
  rewrite Hfound. cbv zeta.
  assert (Hm : merge new pid sid body t = with_updatedAt t new)
    by (unfold new; apply merge_again).
  rewrite !Hm, Hfree.
  split; [reflexivity|]. split; [reflexivity|].
  intros ->.
  assert (Hsame : with_updatedAt (now w) new = new) by reflexivity.
  rewrite Hsame. split; [reflexivity|].
  cbn [snd storeProducts set_storeProducts issue].
  apply replace_first_twice. exact Hid.
Qed.

(** ** The list as a filtered join *)

Lemma run_push_category (w : World) (field : option string) (rows : list Row) :
  run_stages w (push_when_truthy field MatchCategory) rows
  = filter (fun r => if truthy field
                     then path_matches (category_is (or_else field ""))
                                       (productDetails r)
                     else true) rows.
Proof.
  destruct (truthy field) eqn:T.
  - rewrite (push_when_truthy_stage _ _ T). reflexivity.
  - rewrite (push_when_falsy _ _ T). symmetry. apply filter_all. reflexivity.
Qed.

Lemma run_push_search (w : World) (field : option string) (rows : list Row) :
  run_stages w (push_when_truthy field MatchName) rows
  = filter (fun r => if truthy field
                     then path_matches (name_matches (or_else field ""))
                                       (productDetails r)
                     else true) rows.
Proof.
  destruct (truthy field) eqn:T.
  - rewrite (push_when_truthy_stage _ _ T). reflexivity.
  - rewrite (push_when_falsy _ _ T). symmetry. apply filter_all. reflexivity.
Qed.

(** After the two lookups and unwinds a row carries a store whose id is
    the record's [storeId]. *)
Lemma joined_row_store (w : World) (rows : list Row) (r : Row) :
  In r (run_stages w [LookupProducts; UnwindProductDetails;
                      LookupStores; UnwindStoreDetails] rows) ->
  exists s, storeDetails r = Embedded s /\ store_id s = sp_storeId (row_doc r).
Proof.
  unfold run_stages. simpl. intros Hin.
  apply in_flat_map in Hin. destruct Hin as (r1 & Hr1 & Hin).
  unfold unwind_storeDetails in Hin. apply in_map_iff in Hin.
  destruct Hin as (s & <- & Hs).
  apply in_map_iff in Hr1. destruct Hr1 as (r0 & <- & _).
  unfold lookup_stores in Hs. simpl in Hs.
  apply filter_In in Hs. destruct Hs as [_ Hid]. apply N.eqb_eq in Hid.
  exists s. simpl. auto.
Qed.

Lemma filter_map_project (keep : Expanded -> bool) (rows : list Row) :
  filter keep (map project rows)
  = map project (filter (fun r => keep (project r)) rows).
Proof.
  induction rows as [|r rows IH]; simpl; [reflexivity|].
  destruct (keep (project r)); simpl; rewrite IH; reflexivity.
Qed.

Lemma selected_by_row (q : ListQuery) (r : Row) :
  (truthy (q_storeId q) = true -> isValid (q_storeId q) = true) ->
  (exists s, storeDetails r = Embedded s
             /\ store_id s = sp_storeId (row_doc r)) ->
  selected_by q (project r)
  = (if truthy (q_search q)
     then path_matches (name_matches (or_else (q_search q) "")) (productDetails r)
     else true)
    && ((if truthy (q_category q)
         then path_matches (category_is (or_else (q_category q) ""))
                           (productDetails r)
         else true)
        && matches_filter (list_query q) (row_doc r)).
Proof.
  intros Hvalid (s & Hs & Hid).
  unfold selected_by, matches_filter, list_query, project. simpl.
  rewrite Hs. simpl.
  assert (Hstore :
            (if truthy (q_storeId q)
             then match castId (q_storeId q) with
                  | Some sid => N.eqb (store_id s) sid
                  | None => false
                  end
             else true)
            = id_matches (if truthy (q_storeId q) then castId (q_storeId q)
                          else None)
                         (sp_storeId (row_doc r))).
  { destruct (truthy (q_storeId q)); [|reflexivity].
    specialize (Hvalid eq_refl). apply isValid_castId in Hvalid.
    destruct Hvalid as [sid Hc]. rewrite Hc. simpl. rewrite Hid.
    apply N.eqb_sym. }
  rewrite Hstore.
  destruct (id_matches _ _), (is_literal_true (q_recommended q)),
    (is_literal_true (q_discount q)), (truthy (q_category q)),
    (truthy (q_search q)),
    (sp_recommended (row_doc r)) as [[|]|],
    (sp_discount (row_doc r)) as [[|]|];
    simpl; rewrite ?andb_true_r, ?andb_false_r; try reflexivity;
      try (destruct (path_matches (name_matches _) _); reflexivity);
      try (destruct (path_matches (category_is _) _); reflexivity);
      try (destruct (path_matches (name_matches _) _),
             (path_matches (category_is _) _); reflexivity).
Qed.

Lemma list_rows (q : ListQuery) (w : World) :
  (truthy (q_storeId q) = true -> isValid (q_storeId q) = true) ->
  NoDup (map product_id (products w)) -> NoDup (map store_id (stores w)) ->
  map project (run_stages w (list_pipeline q) (initial_rows w))
  = filter (selected_by q) (inner_join w).
Proof.
  intros Hvalid Hp Hs. unfold list_pipeline.
  rewrite optional_match, !run_stages_app_stages.
  rewrite run_push_search, run_push_category, run_stages_filter_doc.
  unfold inner_join.
  rewrite <- (join_all w (storeProducts w) Hp Hs).
  fold (initial_rows w).
  rewrite filter_map_project. f_equal.
  rewrite <- !filter_and.
  apply filter_ext_in. intros r Hin. symmetry.
  rewrite (selected_by_row q r Hvalid (joined_row_store _ _ _ Hin)).
  apply andb_assoc.
Qed.

(** X15.  The list operation is the inner join filtered by the criteria of
    the request: with an absent, empty or well-formed [storeId], unique
    identifiers in products and stores and an answered call, when the
    [search] text (if supplied) is a pattern the server accepts the response
    is 200 and its list is, in order, the expanded records (product and
    store both existing) that satisfy every criterion supplied (store,
    [recommended] and [discount] when "true", category, name search); when
    the server rejects the pattern the response is a 500 failure. *)
Theorem list_is_the_filtered_join (q : ListQuery) (w : World) :
  (truthy (q_storeId q) = true -> isValid (q_storeId q) = true) ->
  NoDup (map product_id (products w)) -> NoDup (map store_id (stores w)) ->
  answers w ->
  (pattern_accepted (q_search q) = true ->
   getStoreProducts q w
   = (mkResponse 200 true None
        (storeProducts_aggregated (filter (selected_by q) (inner_join w))),
      issue StoreProductAggregate w))
  /\ (pattern_accepted (q_search q) = false ->
      status (fst (getStoreProducts q w)) = 500
      /\ success (fst (getStoreProducts q w)) = false
      /\ snd (getStoreProducts q w) = issue StoreProductAggregate w).
Proof.
  intros Hvalid Hp Hs Ha.
  unfold getStoreProducts, try_catch, getStoreProducts_try.
  assert (Hguard : truthy (q_storeId q) && negb (isValid (q_storeId q)) = false).
  { destruct (truthy (q_storeId q)); [|reflexivity].
    rewrite (Hvalid eq_refl). reflexivity. }
  rewrite Hguard. unfold bind. split; intros Hacc.
  - rewrite (aggregate_project_answers (list_pipeline q) Ha)
      by (rewrite list_pipeline_accepted; exact Hacc).
    unfold ret. do 3 f_equal.
    exact (list_rows q w Hvalid Hp Hs).
  - rewrite (aggregate_project_rejected (list_pipeline q) Ha)
      by (rewrite list_pipeline_accepted; exact Hacc).
    repeat split.
Qed.

(** ** The rows of the search summary *)

Lemma summarise_first (k : ObjectId) (rows : list Row) (s : ProductSummary) :
  In s (summarise k rows) ->
  exists m, In m (group_members k rows)
            /\ ps_name s = path product_name (productDetails m)
            /\ ps_description s = path product_description (productDetails m)
            /\ ps_images s = path product_images (productDetails m)
            /\ ps_sampleStoreProductId s = sp_id (row_doc m).
Proof.
  unfold summarise.
  destruct (group_members k rows) as [|m rest]; [contradiction|].
  intros [<- | []]. exists m. simpl. auto 6.
Qed.

(** X16.  Every row of a search summary describes a product and one of its
    available records: its name, description and images are those of a
    product whose id is the row's id (and which satisfies the criteria),
    and its sample store-product id is the id of an available record of
    that product. *)
Theorem summary_rows_describe_products (q : SummaryQuery) (w : World)
        (rows : list ProductSummary) (r : ProductSummary) :
  payload (fst (getProductSearchSummary q w)) = productSummaries rows ->
  In r rows ->
  exists p sp,
    In p (products w) /\ product_id p = ps_id r
    /\ product_selected q p = true
    /\ ps_name r = Embedded (product_name p)
    /\ ps_description r = Embedded (product_description p)
    /\ ps_images r = Embedded (product_images p)
    /\ In sp (summary_group w q (ps_id r))
    /\ ps_sampleStoreProductId r = sp_id sp.
Proof.
  unfold getProductSearchSummary, try_catch, getProductSearchSummary_try,
    bind, StoreProduct_aggregate_group, db_call.
  destruct (hd None (faults w)); [simpl; discriminate|].
  destruct (forallb stage_accepted (summary_pipeline q));
    [|simpl; discriminate].
  unfold ret. simpl payload. intros [= <-] Hin.
  unfold group_by_product in Hin. apply in_flat_map in Hin.
  destruct Hin as (k & _ & Hin).
  pose proof (summarise_spec _ _ _ Hin) as (_ & Hid & _).
  apply summarise_first in Hin.
  destruct Hin as (m & Hm & Hname & Hdesc & Himg & Hsample).
  assert (Hdoc : In (row_doc m) (summary_group w q k)).
  { apply group_docs. exists m. split; [exact Hm|reflexivity]. }
  unfold group_members in Hm. apply filter_In in Hm. destruct Hm as [Hm Hk].
  apply (in_summary_rows (issue StoreProductAggregate w) q m) in Hm.
  destruct Hm as (sp & p & -> & Hsp & Havail & Hp & Hpid & Hsel).
  unfold group_key in Hk. simpl in Hk. apply N.eqb_eq in Hk.
  simpl in *. exists p, sp. rewrite Hid.
  repeat split; try assumption. congruence.
Qed.

(** ** Create and the existing records *)

(** X17.  Create never touches the existing records: whatever the request
    and whatever the persistence layer answers, the collection afterwards
    is the collection before followed by at most one record; a 201 response
    means exactly one record was added and a 404 response means none
    was. *)
Theorem create_only_appends (b : CreateBody) (w : World) :
  exists added,
    storeProducts (snd (createStoreProduct b w)) = storeProducts w ++ added
    /\ (List.length added <= 1)%nat
    /\ (status (fst (createStoreProduct b w)) = 201 -> List.length added = 1%nat)
    /\ (status (fst (createStoreProduct b w)) = 404 -> added = []).
Proof.
  pose proof (create_run b w) as Hrun.
  remember (fst (createStoreProduct b w)) as r eqn:Er.
  remember (snd (createStoreProduct b w)) as w' eqn:Ew. clear Er Ew.
  assert (Hcatch : forall e, status (createStoreProduct_catch e) <> 201
                             /\ status (createStoreProduct_catch e) <> 404).
  { intros e. destruct (create_catch_shape e) as [_ Hs]. simpl in Hs.
    split; intros Heq; rewrite Heq in Hs;
      repeat destruct Hs as [Hs|Hs]; try discriminate Hs; exact Hs. }
  destruct Hrun;
    try (exists []; cbn [storeProducts after_calls fold_left issue];
         rewrite app_nil_r; split; [reflexivity|]; split; [simpl; lia|];
         split; [intros Hs; try discriminate Hs;
                 exfalso; exact (proj1 (Hcatch _) Hs)
                |reflexivity]).
  - exists [new_document b pid sid price stock w].
    split; [reflexivity|]. split; [simpl; lia|]. split; [reflexivity|].
    intros Hs. exfalso. exact (proj2 (Hcatch _) Hs).
  - exists [new_document b pid sid price stock w].
    split; [reflexivity|]. split; [simpl; lia|]. split; [reflexivity|].
    intros Hs. discriminate Hs.
Qed.

Lemma pair_free_after_remove (oid : ObjectId) (old : StoreProduct)
      (l : list StoreProduct) :
  consistent l -> find_storeProduct oid l = Some old ->
  forall sp, In sp (remove_first oid l) -> pair_of sp <> pair_of old.
Proof.
  intros [Hids Hpairs] Hold sp Hin Heq.
  apply (in_remove_first_iff oid sp l Hids) in Hin. destruct Hin as [Hin Hne].
  assert (Hold_in : In old l).
  { unfold find_storeProduct in Hold. apply find_some in Hold. tauto. }
  assert (Hsame : sp = old).
  { clear Hne Hold. induction l as [|x l IH]; [contradiction|].
    simpl in Hpairs. inversion Hpairs as [|? ? Hnot Hp']; subst.
    inversion Hids as [|? ? _ Hi']; subst.
    destruct Hin as [-> | Hin], Hold_in as [Ho | Ho]; subst.
    - reflexivity.
    - exfalso. apply Hnot. rewrite Heq. apply in_map. exact Ho.
    - exfalso. apply Hnot. rewrite <- Heq. apply in_map. exact Hin.
    - apply IH; assumption. }
  apply Hne. rewrite Hsame. apply (find_storeProduct_id _ _ Hold).
Qed.

(** X18.  A deleted pair can be created again: on a consistent collection,
    after a record is deleted, a create request for the pair of that record
    (product and store existing, price and stock given, calls answered) is
    answered 201. *)
Theorem delete_then_create (id : string) (oid : ObjectId) (old : StoreProduct)
        (b : CreateBody) (w : World) (price stock : Z) :
  consistent (storeProducts w) -> healthy w ->
  castObjectId id = Some oid ->
  find_storeProduct oid (storeProducts w) = Some old ->
  castId (b_productId b) = Some (sp_productId old) ->
  castId (b_storeId b) = Some (sp_storeId old) ->
  b_price b = Some price -> b_stock b = Some stock ->
  find_product (sp_productId old) (products w) <> None ->
  find_store (sp_storeId old) (stores w) <> None ->
  status (fst (deleteStoreProduct id w)) = 200
  /\ status (fst (createStoreProduct b (snd (deleteStoreProduct id w)))) = 201.
Proof.
  intros Hc Hw Hoid Hold Hp Hs Hprice Hstock Fp Fs.
  rewrite (delete_answered_run id Hoid (healthy_answers Hw)), Hold.
  split; [reflexivity|]. cbn [snd].
  set (w1 := set_storeProducts (remove_first oid (storeProducts w))
                               (issue StoreProductFindByIdAndDelete w)).
  destruct (find_product (sp_productId old) (products w)) as [p|] eqn:Fp';
    [|congruence].
  destruct (find_store (sp_storeId old) (stores w)) as [s|] eqn:Fs';
    [|congruence].
  assert (Hw1 : healthy w1).
  { intros e. apply (healthy_issue StoreProductFindByIdAndDelete Hw e). }
  assert (Hfree : forall sp, In sp (storeProducts w1) ->
                             pair_of sp <> (sp_productId old, sp_storeId old)).
  { intros sp Hin. eapply pair_free_after_remove; eassumption. }
  rewrite (create_success_run b (w := w1) Hp Hs Hprice Hstock Hw1 Fp' Fs' Hfree).
  reflexivity.
Qed.

(** ** A search text that is not a pattern *)

(** X19.  A search summary whose [search] text the server rejects as a
    pattern fails: once its aggregation has been asked and refused, the
    answer is a 500 failure with a non-empty message and no rows, and no
    data has changed. *)
Theorem rejected_search_pattern_fails (q : SummaryQuery) (w : World) :
  answers w ->
  pattern_accepted (sq_search q) = false ->
  status (fst (getProductSearchSummary q w)) = 500
  /\ is_failure (fst (getProductSearchSummary q w))
  /\ snd (getProductSearchSummary q w) = issue StoreProductAggregate w.
Proof.
  intros Ha Hrej.
  unfold getProductSearchSummary, try_catch, getProductSearchSummary_try, bind.
  rewrite (aggregate_group_rejected (summary_pipeline q) Ha)
    by (rewrite summary_pipeline_accepted; exact Hrej).
  split; [reflexivity|]. split; [|reflexivity].
  unfold is_failure. simpl.
  split; [auto 6|]. split; [reflexivity|].
  split; [eexists; split; [reflexivity|discriminate]|reflexivity].
Qed.

End Whole.

(** * The properties of the whole controller on the sample data *)

Import MoreSamples.

Lemma bread_south_free :
  forall sp, In sp (storeProducts world) ->
             pair_of sp <> (oid bread_id, oid south_id).
Proof.
  intros sp Hin. simpl in Hin.
  destruct Hin as [<- | [<- | [<- | []]]]; discriminate.
Defined.

Lemma world_consistent : consistent (storeProducts world).
Proof.
  split; repeat constructor; simpl; intros Hin;
    repeat destruct Hin as [Hin|Hin]; try discriminate Hin; exact Hin.
Defined.


(** The new record, read back by its identifier. *)
Lemma create_then_get_witness :
  let doc := mkPopulated
               (mkStoreProduct 4%N (oid bread_id) (oid south_id) 250 3
                               (Some true) None None [] 50 50)
               (Some bread) (Some south) in
  payload (fst (createStoreProduct bread_south_request world))
  = storeProduct (Some doc)
  /\ getStoreProductById fourth_id
       (snd (createStoreProduct bread_south_request world))
     = (mkResponse 200 true None (storeProduct (Some doc)),
        issue StoreProductFindById
              (snd (createStoreProduct bread_south_request world))).
Proof.
  intros doc. split; [reflexivity|].
  exact (@create_then_get hexDriver bread_south_request world fourth_id doc
           eq_refl eq_refl eq_refl).
Defined.

(** The same request, twice. *)
Lemma create_twice_conflicts_witness :
  status (fst (createStoreProduct bread_south_request world)) = 201
  /\ fst (createStoreProduct bread_south_request
            (snd (createStoreProduct bread_south_request world)))
     = failure 409 "This product already exists in this store."
  /\ storeProducts
       (snd (createStoreProduct bread_south_request
               (snd (createStoreProduct bread_south_request world))))
     = storeProducts (snd (createStoreProduct bread_south_request world)).
Proof.
  exact (@create_twice_conflicts hexDriver bread_south_request world
           (oid bread_id) (oid south_id) 250 3 bread south
           eq_refl eq_refl eq_refl eq_refl world_healthy eq_refl eq_refl
           bread_south_free).
Defined.

(** The connection is lost between the save and the re-read. *)
Lemma create_keeps_record_when_reread_fails_witness :
  let w := failing_fourth connection_lost in
  faults w = [None; None; None; Some connection_lost]
  /\ fst (createStoreProduct bread_south_request w)
     = failure 500 "connection lost"
  /\ success (fst (createStoreProduct bread_south_request w)) = false
  /\ storeProducts (snd (createStoreProduct bread_south_request w))
     = (storeProducts w
          ++ [new_document bread_south_request (oid bread_id) (oid south_id)
                           250 3 w])%list.
Proof.
  intros w. split; [reflexivity|].
  assert (Hfree : forall sp, In sp (storeProducts w) ->
                             pair_of sp <> (oid bread_id, oid south_id))
    by exact bread_south_free.
  assert (Hp : find_product (oid bread_id) (products w) <> None)
    by discriminate.
  assert (Hs : find_store (oid south_id) (stores w) <> None)
    by discriminate.
  exact (@create_keeps_record_when_reread_fails hexDriver bread_south_request w
           (oid bread_id) (oid south_id) 250 3 connection_lost []
           eq_refl eq_refl eq_refl eq_refl eq_refl Hp Hs Hfree).
Defined.

(** The four calls of a successful create. *)
Lemma create_call_order_witness :
  exists calls,
    journal (snd (createStoreProduct bread_south_request world))
    = (rev calls ++ journal world)%list
    /\ In calls [[];
                 [ProductFindById];
                 [ProductFindById; StoreFindById];
                 [ProductFindById; StoreFindById; StoreProductSave];
                 [ProductFindById; StoreFindById; StoreProductSave;
                  StoreProductFindById]]
    /\ (In StoreProductSave calls ->
        exists pid sid,
          castId (b_productId bread_south_request) = Some pid
          /\ castId (b_storeId bread_south_request) = Some sid
          /\ find_product pid (products world) <> None
          /\ find_store sid (stores world) <> None).
Proof.
  exact (@create_call_order hexDriver bread_south_request world).
Defined.

(** The sample collection stays consistent under a create, an update and a
    delete. *)
Lemma consistency_is_kept_witness :
  consistent (storeProducts world)
  /\ consistent (storeProducts (snd (createStoreProduct bread_south_request world)))
  /\ consistent
       (storeProducts
          (snd (updateStoreProduct first_id
                  (mkUpdateBody None (Some south_id) None None None None None None)
                  world)))
  /\ consistent (storeProducts (snd (deleteStoreProduct first_id world))).
Proof.
  destruct (@consistency_is_kept hexDriver world world_consistent)
    as (Hc & Hu & Hd).
  split; [exact world_consistent|].
  split; [apply Hc|]. split; [apply Hu|apply Hd].
Defined.

(** A record that exists and one that does not. *)
Lemma get_by_id_finds_witness :
  getStoreProductById "000000000000000000000009" world
  = (failure 404 "Store Product not found.", issue StoreProductFindById world)
  /\ exists sp,
      In sp (storeProducts world) /\ sp_id sp = 1%N
      /\ getStoreProductById first_id world
         = (mkResponse 200 true None
              (storeProduct
                 (Some (mkPopulated sp
                          (find_product (sp_productId sp) (products world))
                          (find_store (sp_storeId sp) (stores world))))),
            issue StoreProductFindById world).
Proof.
  split.
  - apply (@get_by_id_finds hexDriver "000000000000000000000009" 9%N world
             eq_refl eq_refl).
    intros (sp & Hin & Hid). simpl in Hin.
    destruct Hin as [<- | [<- | [<- | []]]]; discriminate Hid.
  - apply (@get_by_id_finds hexDriver first_id 1%N world eq_refl eq_refl).
    exists apple_north. split; [left; reflexivity|reflexivity].
Defined.

(** Deleting the first record, and a record that does not exist. *)
Lemma delete_removes_the_record_witness :
  (fst (deleteStoreProduct "000000000000000000000009" world)
   = failure 404 "Store Product not found."
   /\ storeProducts (snd (deleteStoreProduct "000000000000000000000009" world))
      = storeProducts world)
  /\ (fst (deleteStoreProduct first_id world)
      = mkResponse 200 true (Some "Store Product deleted successfully.")
                   NoPayload
      /\ (forall x, In x (storeProducts (snd (deleteStoreProduct first_id world)))
                    <-> In x (storeProducts world) /\ sp_id x <> 1%N)
      /\ S (List.length (storeProducts (snd (deleteStoreProduct first_id world))))
         = List.length (storeProducts world)).
Proof.
  split.
  - apply (@delete_removes_the_record hexDriver "000000000000000000000009"
             9%N world eq_refl eq_refl (proj1 world_consistent)).
    intros (sp & Hin & Hid). simpl in Hin.
    destruct Hin as [<- | [<- | [<- | []]]]; discriminate Hid.
  - apply (@delete_removes_the_record hexDriver first_id 1%N world
             eq_refl eq_refl (proj1 world_consistent)).
    exists apple_north. split; [left; reflexivity|reflexivity].
Defined.

(** After its deletion the first record cannot be read or deleted. *)
Lemma deleted_record_is_gone_witness :
  fst (getStoreProductById first_id (snd (deleteStoreProduct first_id world)))
  = failure 404 "Store Product not found."
  /\ fst (deleteStoreProduct first_id (snd (deleteStoreProduct first_id world)))
     = failure 404 "Store Product not found.".
Proof.
  exact (@deleted_record_is_gone hexDriver first_id 1%N world
           eq_refl eq_refl (proj1 world_consistent) eq_refl).
Defined.


(** The same price sent again, ten instants later and at once. *)
Lemma repeated_update_only_restamps_witness :
  let body := mkUpdateBody None None (Some 99) None None None None None in
  let w1 := snd (updateStoreProduct first_id body world) in
  status (fst (updateStoreProduct first_id body world)) = 200
  /\ answers (at_instant 60 w1)
  /\ answers (issue StoreProductFindByIdAndUpdate (at_instant 60 w1))
  /\ exists oid new,
      hexObjectId first_id = Some oid
      /\ find_storeProduct oid (storeProducts w1) = Some new
      /\ payload (fst (updateStoreProduct first_id body world))
         = storeProduct (Some (populate world new))
      /\ fst (updateStoreProduct first_id body (at_instant 60 w1))
         = mkResponse 200 true (Some "Store Product updated successfully.")
             (storeProduct (Some (populate world (with_updatedAt 60 new))))
      /\ storeProducts (snd (updateStoreProduct first_id body (at_instant 60 w1)))
         = replace_first oid (with_updatedAt 60 new) (storeProducts w1)
      /\ (60 = now world ->
          fst (updateStoreProduct first_id body (at_instant 60 w1))
          = fst (updateStoreProduct first_id body world)
          /\ storeProducts
               (snd (updateStoreProduct first_id body (at_instant 60 w1)))
             = storeProducts w1).
Proof.
  intros body w1.
  split; [reflexivity|]. split; [reflexivity|]. split; [reflexivity|].
  exact (@repeated_update_only_restamps hexDriver first_id body world 60
           eq_refl eq_refl eq_refl).
Defined.

(** The fruit of the north store whose name contains "PP", and a search
    text that is not a pattern. *)
Lemma list_is_the_filtered_join_witness :
  let q := mkListQuery (Some north_id) (Some "fruit") (Some "true") None
                       (Some "PP") in
  let bad := mkListQuery None None None None (Some "+") in
  (pattern_accepted (q_search q) = true
   /\ getStoreProducts q world
      = (mkResponse 200 true None
           (storeProducts_aggregated (filter (selected_by q) (inner_join world))),
         issue StoreProductAggregate world)
   /\ filter (selected_by q) (inner_join world)
      = [expand apple_north apple north])
  /\ (pattern_accepted (q_search bad) = false
      /\ status (fst (getStoreProducts bad world)) = 500
      /\ success (fst (getStoreProducts bad world)) = false
      /\ snd (getStoreProducts bad world) = issue StoreProductAggregate world).
Proof.
  intros q bad. split.
  - split; [reflexivity|]. split; [|reflexivity].
    apply (@list_is_the_filtered_join hexDriver q world);
      [reflexivity | exact sample_product_ids | exact sample_store_ids
       | reflexivity | reflexivity].
  - split; [reflexivity|].
    apply (@list_is_the_filtered_join hexDriver bad world);
      [discriminate | exact sample_product_ids | exact sample_store_ids
       | reflexivity | reflexivity].
Defined.

(** The one row of the sample summary. *)
Lemma summary_rows_describe_products_witness :
  let q := mkSummaryQuery None None in
  let r := mkProductSummary (oid apple_id) (Embedded "Apple") (Embedded "red")
                            (Embedded ["a.png"]) 100 120 1%N in
  payload (fst (getProductSearchSummary q world)) = productSummaries [r]
  /\ exists p sp,
      In p (products world) /\ product_id p = ps_id r
      /\ product_selected q p = true
      /\ ps_name r = Embedded (product_name p)
      /\ ps_description r = Embedded (product_description p)
      /\ ps_images r = Embedded (product_images p)
      /\ In sp (summary_group world q (ps_id r))
      /\ ps_sampleStoreProductId r = sp_id sp.
Proof.
  intros q r. split; [reflexivity|].
  apply (@summary_rows_describe_products hexDriver q world [r] r);
    [reflexivity | left; reflexivity].
Defined.

(** Create appends one record to the sample collection, or none. *)
Lemma create_only_appends_witness :
  exists added,
    storeProducts (snd (createStoreProduct bread_south_request world))
    = (storeProducts world ++ added)%list
    /\ (List.length added <= 1)%nat
    /\ (status (fst (createStoreProduct bread_south_request world)) = 201 ->
        List.length added = 1%nat)
    /\ (status (fst (createStoreProduct bread_south_request world)) = 404 ->
        added = []).
Proof.
  exact (@create_only_appends hexDriver bread_south_request world).
Defined.

(** Apple leaves the north store and comes back. *)
Lemma delete_then_create_witness :
  let b := mkCreateBody (Some apple_id) (Some north_id) (Some 130) (Some 2)
                        None None None None in
  status (fst (deleteStoreProduct first_id world)) = 200
  /\ status (fst (createStoreProduct b (snd (deleteStoreProduct first_id world))))
     = 201.
Proof.
  intros b.
  assert (Hp : find_product (sp_productId apple_north) (products world) <> None)
    by discriminate.
  assert (Hs : find_store (sp_storeId apple_north) (stores world) <> None)
    by discriminate.
  exact (@delete_then_create hexDriver first_id 1%N apple_north b world 130 2
           world_consistent world_healthy eq_refl eq_refl eq_refl eq_refl
           eq_refl eq_refl Hp Hs).
Defined.

(** An unclosed group as search text. *)
Lemma rejected_search_pattern_fails_witness :
  let q := mkSummaryQuery None (Some "(") in
  answers world
  /\ pattern_accepted (sq_search q) = false
  /\ status (fst (getProductSearchSummary q world)) = 500
  /\ is_failure (fst (getProductSearchSummary q world))
  /\ snd (getProductSearchSummary q world) = issue StoreProductAggregate world.
Proof.
  intros q. split; [reflexivity|]. split; [reflexivity|].
  exact (@rejected_search_pattern_fails hexDriver q world eq_refl eq_refl).
Defined.
